(** * revelaacor: the analytical core, embedded from the JavaScript sources

    - [src/ai-engine/AIEngine.js]: scoring, prediction, confidence, the
      simulated training loop and the weight update;
    - [src/data-collectors/DataCollector.js]: the relative-strength oscillator;
    - [src/signal-generator/SignalGenerator.js]: pullback analysis and the
      signal validator.

    JavaScript numbers are IEEE-754 binary64 values; they are modelled by
    Rocq's primitive floats, so every sum, quotient and comparison below is the
    one the program computes, rounding and NaN included.

    Objects are records; a property that may be missing is an [option]. The
    methods of the engine that read or change anything beyond their arguments
    ([predict], [simulateTraining], [updateWeights], [train]) are state
    transformers over a [World]: the engine object, the source behind
    [Math.random()], the console and the stored training results. Methods
    that only compute ([calculateScore], [getConfidence], the indicator and
    pullback functions, [validateSignal]) are plain functions; their console
    output is not modelled. Timestamps are instants in milliseconds and
    [Date.now()] is an argument. *)

From Stdlib Require Import Floats ZArith List String Bool Lia Sorted.
From Stdlib Require Uint63.
Import ListNotations.

Set Warnings "-inexact-float".

Local Open Scope float_scope.

(** ** JavaScript numbers and the [Math] functions the sources call *)

Module JS.

Definition number := float.

(** [ToBoolean] on a number: [NaN], [+0] and [-0] are falsy. *)
Definition truthy (x : number) : bool := negb (is_nan x || is_zero x).

(** [x || d] where [x] is a possibly missing number (a missing property
    reads [undefined]; a database [null] is falsy as well). *)
Definition or_default (x : option number) (d : number) : number :=
  match x with
  | Some v => if truthy v then v else d
  | None => d
  end.

(** Array lengths and loop counters are small non-negative integers. *)
Definition of_nat (n : nat) : number := of_uint63 (Uint63.of_Z (Z.of_nat n)).

(** [Math.max(a, b)] and [Math.min(a, b)]: [NaN] is contagious and [+0] is
    larger than [-0]. *)
Definition Math_max (a b : number) : number :=
  if is_nan a || is_nan b then nan
  else if a <? b then b
  else if b <? a then a
  else if is_zero a && is_zero b
       then (if (one / a <? 0) && (one / b <? 0) then neg_zero else zero)
  else a.

Definition Math_min (a b : number) : number :=
  if is_nan a || is_nan b then nan
  else if a <? b then a
  else if b <? a then b
  else if is_zero a && is_zero b
       then (if (one / a <? 0) || (one / b <? 0) then neg_zero else zero)
  else a.

(** [Math.max(...xs)] and [Math.min(...xs)]. *)
Definition Math_max_list (xs : list number) : number :=
  fold_left Math_max xs neg_infinity.

Definition Math_min_list (xs : list number) : number :=
  fold_left Math_min xs infinity.

Definition Math_abs (x : number) : number := abs x.

Definition Math_sqrt (x : number) : number := sqrt x.

(** [Math.pow(x, 2)]. *)
Definition Math_pow2 (x : number) : number := x * x.

(** [Math.round]: the nearest integer, a tie going towards [+Infinity];
    [NaN], the infinities and integers are returned as they are, and a
    result of zero keeps the sign of the argument. The value
    [(-1)^s * m * 2^e] of a double with [e < 0] is below [2^53], so its
    rounding is computed exactly on integers. *)
Definition Math_round (x : number) : number :=
  match Prim2SF x with
  | S754_finite s m e =>
      if (0 <=? e)%Z then x
      else
        let k := (- e)%Z in
        let num := if s then Z.neg m else Z.pos m in
        let n := ((2 * num + 2 ^ k) / 2 ^ (k + 1))%Z in
        if (n =? 0)%Z then (if s then neg_zero else zero)
        else if (n <? 0)%Z then - of_uint63 (Uint63.of_Z (- n))
        else of_uint63 (Uint63.of_Z n)
  | _ => x
  end.

(** [xs.reduce((a, b) => a + b, 0)]. *)
Definition sum (xs : list number) : number := fold_left add xs 0.

(** [xs.slice(-n)]: the last [n] elements (all of them when there are fewer). *)
Definition slice_last {A} (n : nat) (xs : list A) : list A :=
  skipn (List.length xs - n) xs.

(** [xs.slice(-n, -m)] for [m <= n]. *)
Definition slice_last_range {A} (n m : nat) (xs : list A) : list A :=
  let len := List.length xs in
  firstn ((len - m) - (len - n)) (skipn (len - n) xs).

(** [xs.slice(i, j)] for [0 <= i <= j]. *)
Definition slice {A} (i j : nat) (xs : list A) : list A :=
  firstn (j - i) (skipn i xs).

(** [xs.includes(s)] on an array of strings. *)
Definition includes (xs : list string) (s : string) : bool :=
  existsb (String.eqb s) xs.

End JS.

(** ** Colours: the two directions *)

Inductive Color := GREEN | RED.

Definition Color_eqb (a b : Color) : bool :=
  match a, b with
  | GREEN, GREEN | RED, RED => true
  | _, _ => false
  end.

(** ** The feature bundle read by the scoring function

    A property that may be missing is an [option]: [None] is [undefined].
    An empty object literal [{}] is the record with every field [None]. *)

Module Features.

Record Technical := {
  rsi : option float;
  macd : option float;
  macdSignal : option float;
  macdHistogram : option float;
  sma20 : option float;
  sma50 : option float;
  ema12 : option float;
  ema26 : option float;
  bollingerUpper : option float;
  bollingerMiddle : option float;
  bollingerLower : option float
}.

Record CandleInfo := {
  candleColor : Color;
  bodySize : float;
  totalSize : float;
  candleBodyRatio : option float
}.

Record PriceAction := {
  patterns : option (list string);
  recentCandles : option (list CandleInfo);
  bodyRatio : option float
}.

Record Market := {
  price : option float;
  marketCap : option float;
  volume24h : option float;
  priceChange24h : option float;
  volatility : option float
}.

Record PullbackEntry := {
  entryStartIndex : nat;
  entryEndIndex : nat;
  entryDepth : float
}.

Record Pullback := {
  peaks : option float;
  valleys : option float;
  pullbacks : option float;
  trend : option string;
  recentPullbacks : option (list PullbackEntry)
}.

Record SupportResistance := {
  distanceToHigh : float;
  distanceToLow : float;
  range : float
}.

Record Derived := {
  priceVolatility : float;
  volumeTrend : float;
  priceMomentum : float;
  supportResistance : SupportResistance;
  trendStrength : float
}.

Record FeatureBundle := {
  technical : option Technical;
  priceAction : option PriceAction;
  market : option Market;
  pullback : option Pullback;
  derived : option Derived
}.

Definition empty_technical : Technical :=
  Build_Technical None None None None None None None None None None None.

Definition empty_priceAction : PriceAction := Build_PriceAction None None None.

Definition empty_market : Market := Build_Market None None None None None.

Definition empty_pullback : Pullback := Build_Pullback None None None None None.

End Features.

(** ** Stored observations (rows of [market_data])

    [technical_indicators] and [market_data] are JSON columns: any property
    may be missing or [null], which reads as [None]. [timestamp] is the
    instant in milliseconds, as [new Date(timestamp).getTime()] gives it. *)

Module Indicators.

Record Macd := {
  macdLine : option float;
  signalLine : option float;
  histogram : option float
}.

Record BollingerBands := {
  upper : option float;
  middle : option float;
  lower : option float
}.

Record PriceAction := {
  patterns : option (list string);
  recentCandles : option (list Features.CandleInfo)
}.

Record PullbackAnalysis := {
  peaks : option float;
  valleys : option float;
  pullbacks : option float;
  trend : option string;
  recentPullbacks : option (list Features.PullbackEntry)
}.

Record t := {
  rsi : option float;
  macd : option Macd;
  sma20 : option float;
  sma50 : option float;
  ema12 : option float;
  ema26 : option float;
  bollingerBands : option BollingerBands;
  priceAction : option PriceAction;
  pullbackAnalysis : option PullbackAnalysis
}.

End Indicators.

Module MarketData.

Record t := {
  marketCap : option float;
  totalVolume : option float;
  priceChange24h : option float
}.

End MarketData.

Module Observation.

Record t := {
  pair : string;
  timestamp : Z;
  price : float;
  volume : option float;
  technical_indicators : option Indicators.t;
  market_data : option MarketData.t
}.

End Observation.

(** ** The weight table of the engine ([this.weights]) *)

Module WeightTable.

Record Technical := {
  rsi : float;
  macd : float;
  bollinger : float;
  sma : float;
  ema : float
}.

Record PriceAction := {
  patterns : float;
  pullbacks : float;
  volume : float
}.

Record Market := {
  volatility : float;
  trend : float;
  momentum : float
}.

Record t := {
  technical : Technical;
  priceAction : PriceAction;
  market : Market
}.

(** The table the constructor installs. *)
Definition initial : t :=
  {| technical := {| rsi := 0.15; macd := 0.20; bollinger := 0.15;
                     sma := 0.10; ema := 0.10 |};
     priceAction := {| patterns := 0.25; pullbacks := 0.30; volume := 0.15 |};
     market := {| volatility := 0.10; trend := 0.15; momentum := 0.20 |} |}.

(** Every entry, category by category, in key order. *)
Definition entries (w : t) : list float :=
  [ rsi (technical w); macd (technical w); bollinger (technical w);
    sma (technical w); ema (technical w);
    patterns (priceAction w); pullbacks (priceAction w); volume (priceAction w);
    volatility (market w); trend (market w); momentum (market w) ].

End WeightTable.

(** ** The engine object and the world its methods run in *)

Record Model := {
  loaded : bool;
  version : string
}.

Record AIEngine := {
  model : option Model;
  isInitialized : bool;
  learningRate : float;
  epochs : nat;
  batchSize : nat;
  weights : WeightTable.t
}.

(** [new AIEngine()] with no environment override. *)
Definition constructor : AIEngine :=
  {| model := None; isInitialized := false; learningRate := 0.01;
     epochs := 100; batchSize := 32; weights := WeightTable.initial |}.

Record TrainingResults := {
  accuracy : float;
  correct : float;
  total : float;
  resultEpochs : nat
}.

(** What the engine writes to the console. *)
Inductive ConsoleLine :=
| LogTrainingStart
| WarnFewSamples
| LogTrainingWith (samples : nat)
| LogEpoch (epoch : nat) (epochAccuracy : float)
| LogTrainingDone (finalAccuracy : float)
| WarnNotInitialized
| ErrorPrediction.

(** The state a method can read or change: the engine itself, the source
    of [Math.random()] with the number of draws made so far, the console
    and the training results handed to the database. *)
Record World := {
  engine : AIEngine;
  random : nat -> float;
  draws : nat;
  console : list ConsoleLine;
  saved : list TrainingResults
}.

Definition M (A : Type) : Type := World -> A * World.

Definition ret {A} (a : A) : M A := fun w => (a, w).

Definition bind {A B} (c : M A) (k : A -> M B) : M B :=
  fun w => let (a, w') := c w in k a w'.

Declare Scope engine_scope.
Delimit Scope engine_scope with engine.
Notation "x <- c ;; k" := (bind c (fun x => k))
  (at level 61, c at next level, right associativity) : engine_scope.
Notation "c ;; k" := (bind c (fun _ => k))
  (at level 61, right associativity) : engine_scope.
Local Open Scope engine_scope.

Definition this : M AIEngine := fun w => (engine w, w).

Definition set_weights (ws : WeightTable.t) : M unit :=
  fun w =>
    let e := engine w in
    (tt, {| engine := {| model := model e; isInitialized := isInitialized e;
                         learningRate := learningRate e; epochs := epochs e;
                         batchSize := batchSize e; weights := ws |};
            random := random w; draws := draws w;
            console := console w; saved := saved w |}).

Definition Math_random : M float :=
  fun w =>
    (random w (draws w),
     {| engine := engine w; random := random w; draws := S (draws w);
        console := console w; saved := saved w |}).

Definition console_write (l : ConsoleLine) : M unit :=
  fun w =>
    (tt, {| engine := engine w; random := random w; draws := draws w;
            console := console w ++ [l]; saved := saved w |}).

Definition database_upsert (r : TrainingResults) : M unit :=
  fun w =>
    (tt, {| engine := engine w; random := random w; draws := draws w;
            console := console w; saved := saved w ++ [r] |}).

(** [for (const x of xs) { ... }] over a loop state [s]. *)
Fixpoint for_each {A S} (xs : list A) (body : A -> S -> M S) (s : S) : M S :=
  match xs with
  | [] => ret s
  | x :: rest => s' <- body x s ;; for_each rest body s'
  end.

(** ** Scoring, prediction and confidence ([AIEngine.js]) *)

(** [features.market?.price] *)
Definition market_price (features : Features.FeatureBundle) : option float :=
  match Features.market features with
  | Some m => Features.price m
  | None => None
  end.

(** [calculateScore(features, color)]. The method reads nothing of [this].
    Each commented block of the source is a function from the score so far
    to the score after the block. *)

(** [// RSI] *)
Definition score_rsi (tech : Features.Technical) (color : Color) (score : float) : float :=
  match Features.rsi tech with
  | Some rsi =>
      let score :=
        if Color_eqb color GREEN && (rsi <? 70) then score + 0.1 else score in
      if Color_eqb color RED && (30 <? rsi) then score + 0.1 else score
  | None => score
  end.

(** [// MACD] *)
Definition score_macd (tech : Features.Technical) (color : Color) (score : float) : float :=
  match Features.macd tech, Features.macdSignal tech with
  | Some macd, Some macdSignal =>
      let score :=
        if Color_eqb color GREEN && (macdSignal <? macd) then score + 0.15 else score in
      if Color_eqb color RED && (macd <? macdSignal) then score + 0.15 else score
  | _, _ => score
  end.

(** [// Bollinger Bands] *)
Definition score_bollinger (features : Features.FeatureBundle)
    (tech : Features.Technical) (color : Color) (score : float) : float :=
  match Features.bollingerLower tech, Features.bollingerUpper tech,
        market_price features with
  | Some bollingerLower, Some bollingerUpper, Some price =>
      if JS.truthy bollingerLower && JS.truthy bollingerUpper && JS.truthy price
      then
        let score :=
          if Color_eqb color GREEN && (price <? bollingerLower) then score + 0.2
          else score in
        if Color_eqb color RED && (bollingerUpper <? price) then score + 0.2
        else score
      else score
  | _, _, _ => score
  end.

(** [if (features.technical) { ... }] *)
Definition score_technical (features : Features.FeatureBundle) (color : Color)
    (score : float) : float :=
  match Features.technical features with
  | Some tech =>
      let score := score_rsi tech color score in
      let score := score_macd tech color score in
      score_bollinger features tech color score
  | None => score
  end.

(** [if (features.priceAction) { ... }] *)
Definition score_priceAction (features : Features.FeatureBundle) (color : Color)
    (score : float) : float :=
  match Features.priceAction features with
  | Some pa =>
      match Features.patterns pa with
      | Some patterns =>
          let score :=
            if Color_eqb color GREEN && JS.includes patterns "hammer"%string
            then score + 0.2 else score in
          if Color_eqb color RED && JS.includes patterns "shooting_star"%string
          then score + 0.2 else score
      | None => score
      end
  | None => score
  end.

(** [pb.trend === name] *)
Definition trend_is (pb : Features.Pullback) (name : string) : bool :=
  match Features.trend pb with
  | Some t => String.eqb t name
  | None => false
  end.

(** [pb.pullbacks > 0] *)
Definition has_pullbacks (pb : Features.Pullback) : bool :=
  match Features.pullbacks pb with
  | Some n => 0 <? n
  | None => false
  end.

(** [if (features.pullback) { ... }] *)
Definition score_pullback (features : Features.FeatureBundle) (color : Color)
    (score : float) : float :=
  match Features.pullback features with
  | Some pb =>
      let score :=
        if trend_is pb "uptrend"%string && Color_eqb color GREEN then score + 0.15
        else score in
      let score :=
        if trend_is pb "downtrend"%string && Color_eqb color RED then score + 0.15
        else score in
      if has_pullbacks pb && Color_eqb color GREEN then score + 0.1 else score
  | None => score
  end.

(** [if (features.derived) { ... }] *)
Definition score_derived (features : Features.FeatureBundle) (color : Color)
    (score : float) : float :=
  match Features.derived features with
  | Some derived =>
      let score :=
        if Color_eqb color GREEN && (0 <? Features.priceMomentum derived)
        then score + 0.1 else score in
      let score :=
        if Color_eqb color RED && (Features.priceMomentum derived <? 0)
        then score + 0.1 else score in
      let score :=
        if Color_eqb color GREEN && (0 <? Features.volumeTrend derived)
        then score + 0.05 else score in
      if Color_eqb color RED && (Features.volumeTrend derived <? 0)
      then score + 0.05 else score
  | None => score
  end.

Definition calculateScore (features : Features.FeatureBundle) (color : Color) : float :=
  let score := 0 in
  let score := score_technical features color score in
  let score := score_priceAction features color score in
  let score := score_pullback features color score in
  let score := score_derived features color score in
  JS.Math_max 0 (JS.Math_min 1 score).

(** [Math.random() > 0.5 ? 'GREEN' : 'RED'] *)
Definition random_color : M Color :=
  r <- Math_random ;;
  ret (if 0.5 <? r then GREEN else RED).

(** [predict(features)]. A [features] of [None] is a [null] or [undefined]
    argument: reading a property of it throws, which the method catches. *)
Definition predict (features : option Features.FeatureBundle) : M Color :=
  self <- this ;;
  if negb (isInitialized self) then
    console_write WarnNotInitialized ;;
    random_color
  else
    match features with
    | Some f =>
        let greenScore := calculateScore f GREEN in
        let redScore := calculateScore f RED in
        ret (if redScore <? greenScore then GREEN else RED)
    | None =>
        console_write ErrorPrediction ;;
        random_color
    end.

(** [getConfidence(features)]; the [catch] branch (a [null] bundle) answers 50. *)
Definition getConfidence (features : option Features.FeatureBundle) : float :=
  match features with
  | Some f =>
      let greenScore := calculateScore f GREEN in
      let redScore := calculateScore f RED in
      let totalScore := greenScore + redScore in
      if totalScore =? 0 then 50
      else
        let maxScore := JS.Math_max greenScore redScore in
        JS.Math_round ((maxScore / totalScore) * 100)
  | None => 50
  end.

(** [updateWeights(results)]: the two nested [forEach] visit every entry of
    every category. *)
Definition scale_weights (k : float) (w : WeightTable.t) : WeightTable.t :=
  let t := WeightTable.technical w in
  let p := WeightTable.priceAction w in
  let m := WeightTable.market w in
  {| WeightTable.technical :=
       {| WeightTable.rsi := WeightTable.rsi t * k;
          WeightTable.macd := WeightTable.macd t * k;
          WeightTable.bollinger := WeightTable.bollinger t * k;
          WeightTable.sma := WeightTable.sma t * k;
          WeightTable.ema := WeightTable.ema t * k |};
     WeightTable.priceAction :=
       {| WeightTable.patterns := WeightTable.patterns p * k;
          WeightTable.pullbacks := WeightTable.pullbacks p * k;
          WeightTable.volume := WeightTable.volume p * k |};
     WeightTable.market :=
       {| WeightTable.volatility := WeightTable.volatility m * k;
          WeightTable.trend := WeightTable.trend m * k;
          WeightTable.momentum := WeightTable.momentum m * k |} |}.

Definition updateWeights (results : TrainingResults) : M unit :=
  self <- this ;;
  if 80 <? accuracy results then set_weights (scale_weights 1.01 (weights self))
  else if accuracy results <? 60 then set_weights (scale_weights 0.99 (weights self))
  else ret tt.

(** ** Feature extraction for training ([AIEngine.js]) *)

Record Options := { focusOnPullbacks : bool }.

(** The relative changes [(prices[i] - prices[i-1]) / prices[i-1]], [i >= 1]. *)
Fixpoint returns (prices : list float) : list float :=
  match prices with
  | [] => []
  | previous :: rest =>
      match rest with
      | [] => []
      | current :: _ => (current - previous) / previous :: returns rest
      end
  end.

Definition calculateVolatility (prices : list float) : float :=
  if (List.length prices <? 2)%nat then 0
  else
    let returns := returns prices in
    let mean := JS.sum returns / JS.of_nat (List.length returns) in
    let variance :=
      fold_left (fun sum ret => sum + JS.Math_pow2 (ret - mean)) returns 0
      / JS.of_nat (List.length returns) in
    JS.Math_sqrt variance.

(** The body shared by [calculateVolumeTrend] and [calculateMomentum]. *)
Definition recent_over_older (xs : list float) : float :=
  let recent := JS.slice_last 5 xs in
  let older := JS.slice_last_range 10 5 xs in
  let recentAvg := JS.sum recent / JS.of_nat (List.length recent) in
  let olderAvg := JS.sum older / JS.of_nat (List.length older) in
  if 0 <? olderAvg then (recentAvg - olderAvg) / olderAvg else 0.

Definition calculateVolumeTrend (volumes : list float) : float :=
  if (List.length volumes <? 2)%nat then 0 else recent_over_older volumes.

Definition calculateMomentum (prices : list float) : float :=
  if (List.length prices <? 5)%nat then 0 else recent_over_older prices.

Definition calculateSupportResistance (prices : list float) : Features.SupportResistance :=
  let high := JS.Math_max_list prices in
  let low := JS.Math_min_list prices in
  let current := last prices nan in
  {| Features.distanceToHigh := (high - current) / high;
     Features.distanceToLow := (current - low) / low;
     Features.range := (high - low) / low |}.

Definition calculateTrendStrength (prices : list float) : float :=
  if (List.length prices <? 10)%nat then 0
  else
    let first := hd nan prices in
    let last := last prices nan in
    let change := (last - first) / first in
    JS.Math_abs change.

Definition calculateDerivedFeatures (sequence : list Observation.t) : Features.Derived :=
  let prices := map Observation.price sequence in
  let volumes := map (fun s => JS.or_default (Observation.volume s) 0) sequence in
  {| Features.priceVolatility := calculateVolatility prices;
     Features.volumeTrend := calculateVolumeTrend volumes;
     Features.priceMomentum := calculateMomentum prices;
     Features.supportResistance := calculateSupportResistance prices;
     Features.trendStrength := calculateTrendStrength prices |}.

(** [xs[xs.length - 1]] *)
Definition last_item {A} (xs : list A) : option A := nth_error xs (List.length xs - 1).

(** [extractFeatures(sequence, options)]: [None] is the [null] of the [catch]
    branch, reached when the sequence has no last element. *)
Definition extractFeatures (sequence : list Observation.t) (options : Options)
  : option Features.FeatureBundle :=
  match last_item sequence with
  | None => None
  | Some lastData =>
      let technical :=
        match Observation.technical_indicators lastData with
        | Some tech =>
            let macd_part (f : Indicators.Macd -> option float) :=
              match Indicators.macd tech with Some m => f m | None => None end in
            let band (f : Indicators.BollingerBands -> option float) :=
              match Indicators.bollingerBands tech with Some b => f b | None => None end in
            {| Features.rsi := Some (JS.or_default (Indicators.rsi tech) 50);
               Features.macd := Some (JS.or_default (macd_part Indicators.macdLine) 0);
               Features.macdSignal := Some (JS.or_default (macd_part Indicators.signalLine) 0);
               Features.macdHistogram := Some (JS.or_default (macd_part Indicators.histogram) 0);
               Features.sma20 := Some (JS.or_default (Indicators.sma20 tech) 0);
               Features.sma50 := Some (JS.or_default (Indicators.sma50 tech) 0);
               Features.ema12 := Some (JS.or_default (Indicators.ema12 tech) 0);
               Features.ema26 := Some (JS.or_default (Indicators.ema26 tech) 0);
               Features.bollingerUpper := Some (JS.or_default (band Indicators.upper) 0);
               Features.bollingerMiddle := Some (JS.or_default (band Indicators.middle) 0);
               Features.bollingerLower := Some (JS.or_default (band Indicators.lower) 0) |}
        | None => Features.empty_technical
        end in
      let priceAction :=
        match Observation.technical_indicators lastData with
        | Some tech =>
            match Indicators.priceAction tech with
            | Some pa =>
                let candles := Indicators.recentCandles pa in
                let lastRatio :=
                  match candles with
                  | Some cs =>
                      match last_item cs with
                      | Some c => Features.candleBodyRatio c
                      | None => None
                      end
                  | None => None
                  end in
                {| Features.patterns :=
                     Some match Indicators.patterns pa with Some ps => ps | None => [] end;
                   Features.recentCandles :=
                     Some match candles with Some cs => cs | None => [] end;
                   Features.bodyRatio := Some (JS.or_default lastRatio 0) |}
            | None => Features.empty_priceAction
            end
        | None => Features.empty_priceAction
        end in
      let pullback :=
        match Observation.technical_indicators lastData with
        | Some tech =>
            match Indicators.pullbackAnalysis tech with
            | Some pb =>
                {| Features.peaks := Some (JS.or_default (Indicators.peaks pb) 0);
                   Features.valleys := Some (JS.or_default (Indicators.valleys pb) 0);
                   Features.pullbacks := Some (JS.or_default (Indicators.pullbacks pb) 0);
                   Features.trend :=
                     Some match Indicators.trend pb with
                          | Some t => if String.eqb t ""%string then "neutral"%string else t
                          | None => "neutral"%string
                          end;
                   Features.recentPullbacks :=
                     Some match Indicators.recentPullbacks pb with
                          | Some l => l
                          | None => []
                          end |}
            | None => Features.empty_pullback
            end
        | None => Features.empty_pullback
        end in
      let market :=
        match Observation.market_data lastData with
        | Some market =>
            {| Features.price := None;
               Features.marketCap := Some (JS.or_default (MarketData.marketCap market) 0);
               Features.volume24h := Some (JS.or_default (MarketData.totalVolume market) 0);
               Features.priceChange24h :=
                 Some (JS.or_default (MarketData.priceChange24h market) 0);
               Features.volatility :=
                 Some match MarketData.priceChange24h market with
                      | Some c => JS.or_default (Some (JS.Math_abs c)) 0
                      | None => 0
                      end |}
        | None => Features.empty_market
        end in
      Some {| Features.technical := Some technical;
              Features.priceAction := Some priceAction;
              Features.market := Some market;
              Features.pullback := Some pullback;
              Features.derived := Some (calculateDerivedFeatures sequence) |}
  end.

Definition determineNextCandleColor (sequence : list Observation.t)
    (nextCandle : Observation.t) : option Color :=
  if negb (JS.truthy (Observation.price nextCandle)) || (List.length sequence =? 0)%nat
  then None
  else
    match last_item sequence with
    | Some current =>
        let currentPrice := Observation.price current in
        let nextPrice := Observation.price nextCandle in
        Some (if currentPrice <? nextPrice then GREEN else RED)
    | None => None
    end.

(** ** Training ([AIEngine.js]) *)

Record Sample := {
  samplePair : string;
  features : Features.FeatureBundle;
  target : Color;
  sampleTimestamp : Z
}.

(** [groups[pair].push(item)], creating the group on first use. The groups
    are kept in the order [Object.entries] lists them: first insertion.
    Pair names are exchange symbols such as [SOLUSDT]. A name that reads
    as an array index would be listed before the others, and a name that
    is a property of [Object.prototype] would make [push] throw; neither
    kind of name is modelled. *)
Fixpoint push_to_group (item : Observation.t)
    (groups : list (string * list Observation.t)) : list (string * list Observation.t) :=
  match groups with
  | [] => [(Observation.pair item, [item])]
  | (key, items) :: rest =>
      if String.eqb key (Observation.pair item) then (key, items ++ [item]) :: rest
      else (key, items) :: push_to_group item rest
  end.

Definition groupDataByPair (data : list Observation.t) : list (string * list Observation.t) :=
  fold_left (fun groups item => push_to_group item groups) data [].

(** [pairData.sort((a, b) => new Date(a.timestamp) - new Date(b.timestamp))]:
    a stable sort, so rows of equal timestamp keep their order. *)
Fixpoint insert_by_timestamp (x : Observation.t) (sorted : list Observation.t)
  : list Observation.t :=
  match sorted with
  | [] => [x]
  | y :: rest =>
      if (Observation.timestamp x <? Observation.timestamp y)%Z then x :: y :: rest
      else y :: insert_by_timestamp x rest
  end.

Definition sort_by_timestamp (items : list Observation.t) : list Observation.t :=
  fold_left (fun sorted x => insert_by_timestamp x sorted) items [].

(** The body of [for (let i = 20; i < pairData.length - 1; i++)]. *)
Definition training_sample (options : Options) (pairName : string)
    (pairData : list Observation.t) (i : nat) : list Sample :=
  let sequence := JS.slice (i - 20) i pairData in
  match nth_error pairData (i + 1) with
  | Some nextCandle =>
      if (List.length sequence =? 20)%nat then
        match extractFeatures sequence options,
              determineNextCandleColor sequence nextCandle with
        | Some features, Some target =>
            [ {| samplePair := pairName; features := features; target := target;
                 sampleTimestamp := Observation.timestamp nextCandle |} ]
        | _, _ => []
        end
      else []
  | None => []
  end.

Definition prepareTrainingData (data : list Observation.t) (options : Options)
  : list Sample :=
  flat_map
    (fun '(pairName, pairData) =>
       let pairData := sort_by_timestamp pairData in
       flat_map (training_sample options pairName pairData)
                (seq 20 (List.length pairData - 1 - 20)))
    (groupDataByPair data).

(** The batches of [for (let i = 0; i < n; i += batchSize) slice(i, i + batchSize)].
    [batchSize] is [parseInt(...) || 32], never zero; with a positive step the
    loop makes at most [n] rounds, which is the fuel given. *)
Fixpoint batches_from {A} (fuel batchSize i : nat) (xs : list A) : list (list A) :=
  match fuel with
  | O => []
  | S fuel' =>
      if (i <? List.length xs)%nat
      then JS.slice i (i + batchSize) xs
           :: batches_from fuel' batchSize (i + batchSize) xs
      else []
  end.

Definition batches {A} (batchSize : nat) (xs : list A) : list (list A) :=
  batches_from (List.length xs) batchSize 0 xs.

(** The counters of [simulateTraining]: [correct], [total] over the whole
    run, [epochCorrect], [epochTotal] over the current epoch. *)
Record Counters := {
  run_correct : float;
  run_total : float;
  epochCorrect : float;
  epochTotal : float
}.

Definition train_on_sample (sample : Sample) (c : Counters) : M Counters :=
  prediction <- predict (Some (features sample)) ;;
  let actual := target sample in
  let hit := Color_eqb prediction actual in
  ret {| run_correct := if hit then run_correct c + 1 else run_correct c;
         run_total := run_total c + 1;
         epochCorrect := if hit then epochCorrect c + 1 else epochCorrect c;
         epochTotal := epochTotal c + 1 |}.

Definition train_epoch (trainingData : list Sample) (batchSize : nat)
    (epoch : nat) (c : Counters) : M Counters :=
  let c := {| run_correct := run_correct c; run_total := run_total c;
              epochCorrect := 0; epochTotal := 0 |} in
  c <- for_each (batches batchSize trainingData)
                (fun batch c => for_each batch train_on_sample c) c ;;
  (if (epoch mod 20 =? 0)%nat
   then console_write (LogEpoch epoch ((epochCorrect c / epochTotal c) * 100))
   else ret tt) ;;
  ret c.

Definition simulateTraining (trainingData : list Sample) : M TrainingResults :=
  console_write (LogTrainingWith (List.length trainingData)) ;;
  self <- this ;;
  c <- for_each (seq 0 (epochs self))
                (train_epoch trainingData (batchSize self))
                {| run_correct := 0; run_total := 0;
                   epochCorrect := 0; epochTotal := 0 |} ;;
  ret {| accuracy := (run_correct c / run_total c) * 100;
         correct := run_correct c;
         total := run_total c;
         resultEpochs := epochs self |}.

(** [saveTrainingResults(results)]: the upsert; its errors are swallowed. *)
Definition saveTrainingResults (results : TrainingResults) : M unit :=
  database_upsert results.

Definition train (data : list Observation.t) (options : Options) : M unit :=
  console_write LogTrainingStart ;;
  let trainingData := prepareTrainingData data options in
  if (List.length trainingData <? 100)%nat then
    console_write WarnFewSamples
  else
    results <- simulateTraining trainingData ;;
    updateWeights results ;;
    console_write (LogTrainingDone (accuracy results)) ;;
    saveTrainingResults results.

(** [loadModel()] installs the model; [Model] keeps no [lastTrained]. *)
Definition loadModel : M unit :=
  fun w =>
    let e := engine w in
    (tt, {| engine := {| model := Some {| loaded := true; version := "1.0.0" |};
                         isInitialized := isInitialized e;
                         learningRate := learningRate e; epochs := epochs e;
                         batchSize := batchSize e; weights := weights e |};
            random := random w; draws := draws w;
            console := console w; saved := saved w |}).

(** [this.isInitialized = true] *)
Definition set_initialized : M unit :=
  fun w =>
    let e := engine w in
    (tt, {| engine := {| model := model e; isInitialized := true;
                         learningRate := learningRate e; epochs := epochs e;
                         batchSize := batchSize e; weights := weights e |};
            random := random w; draws := draws w;
            console := console w; saved := saved w |}).

(** [initialize()], given the rows [getHistoricalData(5000)] answers. The
    progress lines of [initialize] and [loadModel] are not written to the
    modelled console, which holds the lines of [train] and [predict]. *)
Definition initialize (historicalData : list Observation.t) : M unit :=
  loadModel ;;
  (if (0 <? List.length historicalData)%nat
   then train historicalData {| focusOnPullbacks := true |}
   else ret tt) ;;
  set_initialized.

(** ** The relative-strength oscillator ([DataCollector.js]) *)

Module DataCollector.

(** [prices[i]] for an index inside the array. *)
Definition at_index (prices : list float) (i : nat) : float := nth i prices nan.

(** The loop [for (let i = 1; i <= period; i++)] over [(gains, losses)]. *)
Definition accumulate (prices : list float) (period : nat) : float * float :=
  fold_left
    (fun '(gains, losses) i =>
       let change := at_index prices i - at_index prices (i - 1) in
       if 0 <? change then (gains + change, losses)
       else (gains, losses + JS.Math_abs change))
    (seq 1 period) (0, 0).

(** [calculateRSI(prices, period = 14)]; [None] is the [null] returned
    for a sequence that is too short. *)
Definition calculateRSI (prices : list float) (period : nat) : option float :=
  if (List.length prices <? period + 1)%nat then None
  else
    let '(gains, losses) := accumulate prices period in
    let avgGain := gains / JS.of_nat period in
    let avgLoss := losses / JS.of_nat period in
    if avgLoss =? 0 then Some 100
    else
      let rs := avgGain / avgLoss in
      Some (100 - (100 / (1 + rs))).

(** The oscillator as the specification words it: the same gains and
    losses, taken over the last [period] transitions of the sequence,
    that is over its last [period + 1] prices. *)
Definition oscillator_over_last_transitions (prices : list float) (period : nat)
  : option float :=
  if (List.length prices <? period + 1)%nat then None
  else
    let window := JS.slice_last (period + 1) prices in
    let changes :=
      map (fun i => at_index window i - at_index window (i - 1)) (seq 1 period) in
    let gains := JS.sum (filter (fun c => 0 <? c) changes) in
    let losses :=
      JS.sum (map JS.Math_abs (filter (fun c => negb (0 <? c)) changes)) in
    let avgGain := gains / JS.of_nat period in
    let avgLoss := losses / JS.of_nat period in
    if avgLoss =? 0 then Some 100
    else Some (100 - (100 / (1 + avgGain / avgLoss))).

(** *** The other indicators of the collector *)

(** A candle as [collectFromBinance] builds it from a kline; of its
    fields the indicators read these five. *)
Record Candle := {
  open : float;
  high : float;
  low : float;
  close : float;
  volume : float
}.

(** [xs.slice(-period)]: the last [period] elements; a [period] of zero
    is [-0], from which [slice] copies the whole array. *)
Definition slice_from_end {A} (period : nat) (xs : list A) : list A :=
  if (period =? 0)%nat then xs else JS.slice_last period xs.

Definition calculateSMA (prices : list float) (period : nat) : option float :=
  if (List.length prices <? period)%nat then None
  else
    let sum := JS.sum (slice_from_end period prices) in
    Some (sum / JS.of_nat period).

(** [calculateEMA(prices, period)]. With no price at all (and a period of
    zero) the function returns [prices[0]], which is [undefined]: [None]. *)
Definition calculateEMA (prices : list float) (period : nat) : option float :=
  if (List.length prices <? period)%nat then None
  else
    let multiplier := 2 / (JS.of_nat period + 1) in
    match prices with
    | [] => None
    | first :: rest =>
        Some (fold_left
                (fun ema price => (price * multiplier) + (ema * (1 - multiplier)))
                rest first)
    end.

(** [!ema]: a missing result and the numbers 0 and NaN are falsy. *)
Definition falsy (x : option float) : bool :=
  match x with
  | Some v => negb (JS.truthy v)
  | None => true
  end.

Definition calculateMACD (prices : list float) : option Indicators.Macd :=
  let ema12 := calculateEMA prices 12 in
  let ema26 := calculateEMA prices 26 in
  if falsy ema12 || falsy ema26 then None
  else
    match ema12, ema26 with
    | Some ema12, Some ema26 =>
        let macdLine := ema12 - ema26 in
        let signalLine := calculateEMA [macdLine] 9 in
        let histogram := macdLine - JS.or_default signalLine 0 in
        Some {| Indicators.macdLine := Some macdLine;
                Indicators.signalLine := signalLine;
                Indicators.histogram := Some histogram |}
    | _, _ => None
    end.

(** [calculateBollingerBands(prices, period = 20, stdDev = 2)]. The moving
    average is present whenever the length test has passed. *)
Definition calculateBollingerBands (prices : list float) (period : nat)
    (stdDev : float) : option Indicators.BollingerBands :=
  if (List.length prices <? period)%nat then None
  else
    match calculateSMA prices period with
    | Some sma =>
        let recentPrices := slice_from_end period prices in
        let variance :=
          fold_left (fun sum price => sum + JS.Math_pow2 (price - sma)) recentPrices 0
          / JS.of_nat period in
        let standardDeviation := JS.Math_sqrt variance in
        Some {| Indicators.upper := Some (sma + (standardDeviation * stdDev));
                Indicators.middle := Some sma;
                Indicators.lower := Some (sma - (standardDeviation * stdDev)) |}
    | None => None
    end.

(** The labels one candle adds to [patterns] in [analyzePriceAction]. *)
Definition candle_patterns (candle : Candle) : list string :=
  let isGreen := open candle <? close candle in
  let bodySize := JS.Math_abs (close candle - open candle) in
  let totalSize := high candle - low candle in
  let bodyRatio := if 0 <? totalSize then bodySize / totalSize else 0 in
  if bodyRatio <? 0.1 then ["doji"%string]
  else if bodyRatio <? 0.3 then
    let upperShadow := high candle - JS.Math_max (open candle) (close candle) in
    let lowerShadow := JS.Math_min (open candle) (close candle) - low candle in
    (if bodySize * 2 <? lowerShadow then ["hammer"%string] else [])
    ++ (if bodySize * 2 <? upperShadow then ["shooting_star"%string] else [])
  else if 0.8 <? bodyRatio then
    [if isGreen then "green_marubozu"%string else "red_marubozu"%string]
  else [].

(** An entry of [recentCandles]. *)
Definition candle_summary (c : Candle) : Features.CandleInfo :=
  {| Features.candleColor := if open c <? close c then GREEN else RED;
     Features.bodySize := JS.Math_abs (close c - open c);
     Features.totalSize := high c - low c;
     Features.candleBodyRatio :=
       Some (if 0 <? high c - low c
             then JS.Math_abs (close c - open c) / (high c - low c)
             else 0) |}.

Definition analyzePriceAction (candles : list Candle) : option Indicators.PriceAction :=
  if (List.length candles <? 3)%nat then None
  else
    let recent := JS.slice_last 3 candles in
    Some {| Indicators.patterns := Some (flat_map candle_patterns recent);
            Indicators.recentCandles := Some (map candle_summary recent) |}.

Definition calculateTrend (prices : list float) : string :=
  if (List.length prices <? 5)%nat then "neutral"%string
  else
    let first := at_index prices 0 in
    let last := at_index prices (List.length prices - 1) in
    let change := (last - first) / first in
    if 0.02 <? change then "uptrend"%string
    else if change <? -0.02 then "downtrend"%string
    else "sideways"%string.

(** The peaks and valleys of [analyzePullbacks], as (index, price). *)
Definition peaks_of (prices : list float) : list (nat * float) :=
  flat_map
    (fun i =>
       if (at_index prices (i - 1) <? at_index prices i)
          && (at_index prices (i + 1) <? at_index prices i)
       then [(i, at_index prices i)] else [])
    (seq 1 (List.length prices - 2)).

Definition valleys_of (prices : list float) : list (nat * float) :=
  flat_map
    (fun i =>
       if (at_index prices i <? at_index prices (i - 1))
          && (at_index prices i <? at_index prices (i + 1))
       then [(i, at_index prices i)] else [])
    (seq 1 (List.length prices - 2)).

(** The loop over [peaks[i]], [peaks[i + 1]]: here the depth is measured
    from a peak to the next peak. *)
Fixpoint lower_highs (peaks : list (nat * float)) : list Features.PullbackEntry :=
  match peaks with
  | [] => []
  | peak :: rest =>
      match rest with
      | [] => []
      | nextPeak :: _ =>
          let pullbackDepth := (snd peak - snd nextPeak) / snd peak in
          if 0.02 <? pullbackDepth
          then {| Features.entryStartIndex := fst peak;
                  Features.entryEndIndex := fst nextPeak;
                  Features.entryDepth := pullbackDepth |} :: lower_highs rest
          else lower_highs rest
      end
  end.

Definition analyzePullbacks (candles : list Candle) : option Indicators.PullbackAnalysis :=
  if (List.length candles <? 10)%nat then None
  else
    let recent := JS.slice_last 10 candles in
    let prices := map close recent in
    let peaks := peaks_of prices in
    let valleys := valleys_of prices in
    let pullbacks := lower_highs peaks in
    Some {| Indicators.peaks := Some (JS.of_nat (List.length peaks));
            Indicators.valleys := Some (JS.of_nat (List.length valleys));
            Indicators.pullbacks := Some (JS.of_nat (List.length pullbacks));
            Indicators.trend := Some (calculateTrend prices);
            Indicators.recentPullbacks := Some pullbacks |}.

(** What [calculateTechnicalIndicators] returns; the empty object of a
    short input is the record of missing fields. *)
Record TechnicalIndicators := {
  sma20 : option float;
  sma50 : option float;
  ema12 : option float;
  ema26 : option float;
  rsi : option float;
  macd : option Indicators.Macd;
  bollingerBands : option Indicators.BollingerBands;
  volumeSMA : option float;
  priceAction : option Indicators.PriceAction;
  pullbackAnalysis : option Indicators.PullbackAnalysis
}.

Definition no_indicators : TechnicalIndicators :=
  Build_TechnicalIndicators None None None None None None None None None None.

Definition calculateTechnicalIndicators (candles : list Candle) : TechnicalIndicators :=
  if (List.length candles <? 20)%nat then no_indicators
  else
    let prices := map close candles in
    let volumes := map volume candles in
    {| sma20 := calculateSMA prices 20;
       sma50 := calculateSMA prices (Nat.min 50 (List.length prices));
       ema12 := calculateEMA prices 12;
       ema26 := calculateEMA prices 26;
       rsi := calculateRSI prices 14;
       macd := calculateMACD prices;
       bollingerBands := calculateBollingerBands prices 20 2;
       volumeSMA := calculateSMA volumes 20;
       priceAction := analyzePriceAction candles;
       pullbackAnalysis := analyzePullbacks candles |}.

(** What a number reads back as after the JSON column: [NaN] and the
    infinities are written as [null], [-0] as [0]. *)
Definition json_number (x : option float) : option float :=
  match x with
  | Some v =>
      if is_nan v || is_infinity v then None
      else if is_zero v then Some 0
      else Some v
  | None => None
  end.

Definition json_macd (m : Indicators.Macd) : Indicators.Macd :=
  {| Indicators.macdLine := json_number (Indicators.macdLine m);
     Indicators.signalLine := json_number (Indicators.signalLine m);
     Indicators.histogram := json_number (Indicators.histogram m) |}.

Definition json_bands (b : Indicators.BollingerBands) : Indicators.BollingerBands :=
  {| Indicators.upper := json_number (Indicators.upper b);
     Indicators.middle := json_number (Indicators.middle b);
     Indicators.lower := json_number (Indicators.lower b) |}.

(** The indicators as the [technical_indicators] column gives them back
    to the engine. Of the nested objects the engine reads the patterns,
    the body ratio of the candles and the counts and trend of the
    pullback analysis; the sizes of the candles and the depths of the
    pullbacks are kept as computed. *)
Definition stored (t : TechnicalIndicators) : Indicators.t :=
  {| Indicators.rsi := json_number (rsi t);
     Indicators.macd := option_map json_macd (macd t);
     Indicators.sma20 := json_number (sma20 t);
     Indicators.sma50 := json_number (sma50 t);
     Indicators.ema12 := json_number (ema12 t);
     Indicators.ema26 := json_number (ema26 t);
     Indicators.bollingerBands := option_map json_bands (bollingerBands t);
     Indicators.priceAction :=
       option_map
         (fun pa =>
            {| Indicators.patterns := Indicators.patterns pa;
               Indicators.recentCandles :=
                 option_map
                   (map (fun c =>
                           {| Features.candleColor := Features.candleColor c;
                              Features.bodySize := Features.bodySize c;
                              Features.totalSize := Features.totalSize c;
                              Features.candleBodyRatio :=
                                json_number (Features.candleBodyRatio c) |}))
                   (Indicators.recentCandles pa) |})
         (priceAction t);
     Indicators.pullbackAnalysis :=
       option_map
         (fun pb =>
            {| Indicators.peaks := json_number (Indicators.peaks pb);
               Indicators.valleys := json_number (Indicators.valleys pb);
               Indicators.pullbacks := json_number (Indicators.pullbacks pb);
               Indicators.trend := Indicators.trend pb;
               Indicators.recentPullbacks := Indicators.recentPullbacks pb |})
         (pullbackAnalysis t) |}.

End DataCollector.

(** ** Pullback analysis and signal validation ([SignalGenerator.js]) *)

Module SignalGenerator.

Module Extremum.
Record t := { index : nat; price : float }.
End Extremum.

Module Pullback.
Record t := {
  startIndex : nat;
  valleyIndex : nat;
  endIndex : nat;
  peakPrice : float;
  valleyPrice : float;
  nextPeakPrice : float;
  depth : float;
  recovery : float;
  strength : float
}.
End Pullback.

Module Metrics.
Record t := {
  avgDepth : float;
  avgRecovery : float;
  maxDepth : float;
  minDepth : float;
  successRate : float
}.
End Metrics.

Module Analysis.
Record t := {
  hasValidPullback : bool;
  pullbacks : list Pullback.t;
  metrics : Metrics.t;
  peaks : nat;
  valleys : nat;
  trend : string;
  strength : float
}.
End Analysis.

(** [prices[i]]; an index outside the array reads [undefined], which
    behaves as [NaN] in the arithmetic and comparisons below. *)
Definition at_index (prices : list float) (i : nat) : float := nth i prices nan.

(** The indices of [for (let i = 1; i < prices.length - 1; i++)]. *)
Definition inner_indices (prices : list float) : list nat :=
  seq 1 (List.length prices - 2).

Definition findPeaks (prices : list float) : list Extremum.t :=
  flat_map
    (fun i =>
       if (at_index prices (i - 1) <? at_index prices i)
          && (at_index prices (i + 1) <? at_index prices i)
       then [ {| Extremum.index := i; Extremum.price := at_index prices i |} ]
       else [])
    (inner_indices prices).

Definition findValleys (prices : list float) : list Extremum.t :=
  flat_map
    (fun i =>
       if (at_index prices i <? at_index prices (i - 1))
          && (at_index prices i <? at_index prices (i + 1))
       then [ {| Extremum.index := i; Extremum.price := at_index prices i |} ]
       else [])
    (inner_indices prices).

(** [calculatePullbackStrength(pullbacks, prices)] reads only the three
    indices of each pullback. *)
Definition calculatePullbackStrength (pullbacks : list (nat * nat * nat))
    (prices : list float) : float :=
  if (List.length pullbacks =? 0)%nat then 0
  else
    let strengths :=
      map (fun '(startIndex, valleyIndex, endIndex) =>
             let startPrice := at_index prices startIndex in
             let valleyPrice := at_index prices valleyIndex in
             let endPrice := at_index prices endIndex in
             let depth := (startPrice - valleyPrice) / startPrice in
             let recovery := (endPrice - valleyPrice) / valleyPrice in
             depth * recovery)
          pullbacks in
    JS.sum strengths / JS.of_nat (List.length strengths).

(** [v => v.index > peak.index && v.index < nextPeak.index] *)
Definition between (peak nextPeak v : Extremum.t) : bool :=
  ((Extremum.index peak <? Extremum.index v)
   && (Extremum.index v <? Extremum.index nextPeak))%nat.

(** [identifyPullbacks(peaks, valleys, prices)]: the loop pairs [peaks[i]]
    with [peaks[i + 1]]. *)
Fixpoint identifyPullbacks (peaks valleys : list Extremum.t) (prices : list float)
  : list Pullback.t :=
  match peaks with
  | [] => []
  | peak :: rest =>
      match rest with
      | [] => []
      | nextPeak :: _ =>
          match find (between peak nextPeak) valleys with
          | Some valleyBetween =>
              let pullbackDepth :=
                (Extremum.price peak - Extremum.price valleyBetween)
                / Extremum.price peak in
              let recovery :=
                (Extremum.price nextPeak - Extremum.price valleyBetween)
                / Extremum.price valleyBetween in
              {| Pullback.startIndex := Extremum.index peak;
                 Pullback.valleyIndex := Extremum.index valleyBetween;
                 Pullback.endIndex := Extremum.index nextPeak;
                 Pullback.peakPrice := Extremum.price peak;
                 Pullback.valleyPrice := Extremum.price valleyBetween;
                 Pullback.nextPeakPrice := Extremum.price nextPeak;
                 Pullback.depth := pullbackDepth;
                 Pullback.recovery := recovery;
                 Pullback.strength :=
                   calculatePullbackStrength
                     [ (Extremum.index peak, Extremum.index valleyBetween,
                        Extremum.index nextPeak) ] prices |}
              :: identifyPullbacks rest valleys prices
          | None => identifyPullbacks rest valleys prices
          end
      end
  end.

Definition calculatePullbackMetrics (pullbacks : list Pullback.t)
    (prices volumes : list float) : Metrics.t :=
  if (List.length pullbacks =? 0)%nat then
    {| Metrics.avgDepth := 0; Metrics.avgRecovery := 0; Metrics.maxDepth := 0;
       Metrics.minDepth := 0; Metrics.successRate := 0 |}
  else
    let depths := map Pullback.depth pullbacks in
    let recoveries := map Pullback.recovery pullbacks in
    {| Metrics.avgDepth := JS.sum depths / JS.of_nat (List.length depths);
       Metrics.avgRecovery := JS.sum recoveries / JS.of_nat (List.length recoveries);
       Metrics.maxDepth := JS.Math_max_list depths;
       Metrics.minDepth := JS.Math_min_list depths;
       Metrics.successRate :=
         JS.of_nat (List.length (filter (fun r => 0.5 <? r) recoveries))
         / JS.of_nat (List.length recoveries) |}.

Definition determineTrend (prices : list float) : string :=
  if (List.length prices <? 10)%nat then "neutral"%string
  else
    let first := at_index prices 0 in
    let last := at_index prices (List.length prices - 1) in
    let change := (last - first) / first in
    if 0.05 <? change then "strong_uptrend"%string
    else if 0.02 <? change then "uptrend"%string
    else if change <? -0.05 then "strong_downtrend"%string
    else if change <? -0.02 then "downtrend"%string
    else "sideways"%string.

Definition indices_of (p : Pullback.t) : nat * nat * nat :=
  (Pullback.startIndex p, Pullback.valleyIndex p, Pullback.endIndex p).

Definition analyzePullbacks (marketData : list Observation.t) : Analysis.t :=
  let prices := map Observation.price marketData in
  let volumes := map (fun d => JS.or_default (Observation.volume d) 0) marketData in
  let peaks := findPeaks prices in
  let valleys := findValleys prices in
  let pullbacks := identifyPullbacks peaks valleys prices in
  let metrics := calculatePullbackMetrics pullbacks prices volumes in
  {| Analysis.hasValidPullback :=
       (0 <? List.length pullbacks)%nat && (0.02 <? Metrics.avgDepth metrics);
     Analysis.pullbacks := pullbacks;
     Analysis.metrics := metrics;
     Analysis.peaks := List.length peaks;
     Analysis.valleys := List.length valleys;
     Analysis.trend := determineTrend prices;
     Analysis.strength := calculatePullbackStrength (map indices_of pullbacks) prices |}.

(** The generator object. *)
Record t := {
  isRunning : bool;
  confidenceThreshold : float;
  pullbackAnalysisDepth : nat
}.

(** The parts of a signal the validator reads. *)
Record TechnicalAnalysis := { pullbackAnalysis : option Analysis.t }.

Record Signal := {
  signalPair : string;
  color : Color;
  confidence : float;
  technicalAnalysis : TechnicalAnalysis
}.

(** [latestData.volume && latestData.volume < 1000] *)
Definition volume_too_low (latestData : Observation.t) : bool :=
  match Observation.volume latestData with
  | Some volume => JS.truthy volume && (volume <? 1000)
  | None => false
  end.

(** [validateSignal(signal, marketData)] at the instant [now = Date.now()].
    An empty [marketData] has no latest row: reading its timestamp throws
    and the [catch] branch answers [false]. [this.calculateVolatility] is
    the generator's own copy of the engine's function, line for line. *)
Definition validateSignal (self : t) (now : Z) (signal : Signal)
    (marketData : list Observation.t) : bool :=
  if confidence signal <? confidenceThreshold self then false
  else
    match last_item marketData with
    | None => false
    | Some latestData =>
        let dataAge := (now - Observation.timestamp latestData)%Z in
        if (300000 <? dataAge)%Z then false
        else if volume_too_low latestData then false
        else
          let prices := map Observation.price (JS.slice_last 10 marketData) in
          let volatility := calculateVolatility prices in
          if volatility <? 0.001 then false
          else
            match pullbackAnalysis (technicalAnalysis signal) with
            | Some pb => if negb (Analysis.hasValidPullback pb) then false else true
            | None => true
            end
    end.

(** *** Generating a signal *)

(** [start()] and [stop()] *)
Definition start (self : t) : t :=
  {| isRunning := true;
     confidenceThreshold := confidenceThreshold self;
     pullbackAnalysisDepth := pullbackAnalysisDepth self |}.

Definition stop (self : t) : t :=
  {| isRunning := false;
     confidenceThreshold := confidenceThreshold self;
     pullbackAnalysisDepth := pullbackAnalysisDepth self |}.

(** The object [extractSignalFeatures] builds. A category left as the
    empty object [{}] is [None]; so is a [macd] or [bollingerBands] that
    defaulted to [{}]. *)
Module SignalFeatures.
Record Technical := {
  rsi : float;
  macd : option Indicators.Macd;
  bollingerBands : option Indicators.BollingerBands;
  sma : float;
  ema : float
}.
Record PriceAction := {
  patterns : list string;
  recentCandles : list Features.CandleInfo
}.
Record Market := {
  marketCap : float;
  volume24h : float;
  priceChange24h : float
}.
Record t := {
  pullback : Analysis.t;
  technical : option Technical;
  priceAction : option PriceAction;
  market : option Market
}.
End SignalFeatures.

(** [extractSignalFeatures(marketData, pullbackAnalysis)]; without a
    latest row the first property read throws: [None]. *)
Definition extractSignalFeatures (marketData : list Observation.t)
    (pullbackAnalysis : Analysis.t) : option SignalFeatures.t :=
  match last_item marketData with
  | None => None
  | Some latest =>
      let indicators := Observation.technical_indicators latest in
      Some
        {| SignalFeatures.pullback := pullbackAnalysis;
           SignalFeatures.technical :=
             match indicators with
             | Some ti =>
                 Some {| SignalFeatures.rsi := JS.or_default (Indicators.rsi ti) 50;
                         SignalFeatures.macd := Indicators.macd ti;
                         SignalFeatures.bollingerBands := Indicators.bollingerBands ti;
                         SignalFeatures.sma := JS.or_default (Indicators.sma20 ti) 0;
                         SignalFeatures.ema := JS.or_default (Indicators.ema12 ti) 0 |}
             | None => None
             end;
           SignalFeatures.priceAction :=
             match indicators with
             | Some ti =>
                 match Indicators.priceAction ti with
                 | Some pa =>
                     Some {| SignalFeatures.patterns :=
                               match Indicators.patterns pa with
                               | Some ps => ps
                               | None => []
                               end;
                             SignalFeatures.recentCandles :=
                               match Indicators.recentCandles pa with
                               | Some cs => cs
                               | None => []
                               end |}
                 | None => None
                 end
             | None => None
             end;
           SignalFeatures.market :=
             match Observation.market_data latest with
             | Some md =>
                 Some {| SignalFeatures.marketCap :=
                           JS.or_default (MarketData.marketCap md) 0;
                         SignalFeatures.volume24h :=
                           JS.or_default (MarketData.totalVolume md) 0;
                         SignalFeatures.priceChange24h :=
                           JS.or_default (MarketData.priceChange24h md) 0 |}
             | None => None
             end |}
  end.

(** The same object as [calculateScore] reads it, property by property.
    [technical.macd] is an object: it is not [undefined] and is [NaN] in a
    comparison; [technical.macdSignal], [technical.bollingerLower],
    [technical.bollingerUpper], [market.price] and [derived] do not exist
    on this object. [pullback] is the pullback analysis itself: its
    [trend] is the label of [determineTrend], and its [pullbacks] is an
    array of objects, which [pb.pullbacks > 0] converts to the number 0
    when it is empty and to [NaN] otherwise. *)
Definition as_scored (f : SignalFeatures.t) : Features.FeatureBundle :=
  let analysis := SignalFeatures.pullback f in
  {| Features.technical :=
       Some match SignalFeatures.technical f with
            | Some t =>
                {| Features.rsi := Some (SignalFeatures.rsi t);
                   Features.macd := Some nan;
                   Features.macdSignal := None;
                   Features.macdHistogram := None;
                   Features.sma20 := None;
                   Features.sma50 := None;
                   Features.ema12 := None;
                   Features.ema26 := None;
                   Features.bollingerUpper := None;
                   Features.bollingerMiddle := None;
                   Features.bollingerLower := None |}
            | None => Features.empty_technical
            end;
     Features.priceAction :=
       Some match SignalFeatures.priceAction f with
            | Some pa =>
                {| Features.patterns := Some (SignalFeatures.patterns pa);
                   Features.recentCandles := Some (SignalFeatures.recentCandles pa);
                   Features.bodyRatio := None |}
            | None => Features.empty_priceAction
            end;
     Features.market :=
       Some match SignalFeatures.market f with
            | Some m =>
                {| Features.price := None;
                   Features.marketCap := Some (SignalFeatures.marketCap m);
                   Features.volume24h := Some (SignalFeatures.volume24h m);
                   Features.priceChange24h := Some (SignalFeatures.priceChange24h m);
                   Features.volatility := None |}
            | None => Features.empty_market
            end;
     Features.pullback :=
       Some {| Features.peaks := Some (JS.of_nat (Analysis.peaks analysis));
               Features.valleys := Some (JS.of_nat (Analysis.valleys analysis));
               Features.pullbacks :=
                 Some match Analysis.pullbacks analysis with
                      | [] => 0
                      | _ :: _ => nan
                      end;
               Features.trend := Some (Analysis.trend analysis);
               Features.recentPullbacks := None |};
     Features.derived := None |}.

(** [generateSignal(pair, marketData)] at the instant [now]; the world is
    the one of [this.aiEngine]. Of the signal object the fields the
    validator reads are kept, as in [Signal]. *)
Definition generateSignal (self : t) (now : Z) (pair : string)
    (marketData : list Observation.t) : M (option Signal) :=
  if negb (isRunning self) then ret None
  else if (List.length marketData <? pullbackAnalysisDepth self)%nat then ret None
  else
    let pullbackAnalysis := analyzePullbacks marketData in
    if negb (Analysis.hasValidPullback pullbackAnalysis) then ret None
    else
      match extractSignalFeatures marketData pullbackAnalysis with
      | None => ret None
      | Some features =>
          bind (predict (Some (as_scored features)))
            (fun prediction =>
               let confidence := getConfidence (Some (as_scored features)) in
               if confidence <? confidenceThreshold self then ret None
               else
                 let signal :=
                   {| signalPair := pair;
                      color := prediction;
                      confidence := confidence;
                      technicalAnalysis :=
                        {| pullbackAnalysis := Some pullbackAnalysis |} |} in
                 if validateSignal self now signal marketData
                 then ret (Some signal)
                 else ret None)
      end.

End SignalGenerator.

(** ** The evidence rules of [calculateScore], as a table

    The eight rules in the order the source adds them, the condition under
    which each fires for a colour, and the amount the source adds. *)

Inductive Rule :=
| Oscillator
| Convergence
| Bands
| Patterns
| Trend
| ActivePullback
| Momentum
| VolumeTrend.

Definition rules : list Rule :=
  [Oscillator; Convergence; Bands; Patterns; Trend; ActivePullback; Momentum; VolumeTrend].

Definition contribution (r : Rule) : float :=
  match r with
  | Oscillator => 0.1
  | Convergence => 0.15
  | Bands => 0.2
  | Patterns => 0.2
  | Trend => 0.15
  | ActivePullback => 0.1
  | Momentum => 0.1
  | VolumeTrend => 0.05
  end.

Definition fires (features : Features.FeatureBundle) (color : Color) (r : Rule) : bool :=
  match r with
  | Oscillator =>
      match Features.technical features with
      | Some tech =>
          match Features.rsi tech with
          | Some rsi => match color with GREEN => rsi <? 70 | RED => 30 <? rsi end
          | None => false
          end
      | None => false
      end
  | Convergence =>
      match Features.technical features with
      | Some tech =>
          match Features.macd tech, Features.macdSignal tech with
          | Some macd, Some macdSignal =>
              match color with GREEN => macdSignal <? macd | RED => macd <? macdSignal end
          | _, _ => false
          end
      | None => false
      end
  | Bands =>
      match Features.technical features with
      | Some tech =>
          match Features.bollingerLower tech, Features.bollingerUpper tech,
                market_price features with
          | Some lower, Some upper, Some price =>
              JS.truthy lower && JS.truthy upper && JS.truthy price
              && match color with GREEN => price <? lower | RED => upper <? price end
          | _, _, _ => false
          end
      | None => false
      end
  | Patterns =>
      match Features.priceAction features with
      | Some pa =>
          match Features.patterns pa with
          | Some patterns =>
              JS.includes patterns
                match color with
                | GREEN => "hammer"%string
                | RED => "shooting_star"%string
                end
          | None => false
          end
      | None => false
      end
  | Trend =>
      match Features.pullback features with
      | Some pb =>
          trend_is pb match color with
                      | GREEN => "uptrend"%string
                      | RED => "downtrend"%string
                      end
      | None => false
      end
  | ActivePullback =>
      match Features.pullback features with
      | Some pb => match color with GREEN => has_pullbacks pb | RED => false end
      | None => false
      end
  | Momentum =>
      match Features.derived features with
      | Some derived =>
          match color with
          | GREEN => 0 <? Features.priceMomentum derived
          | RED => Features.priceMomentum derived <? 0
          end
      | None => false
      end
  | VolumeTrend =>
      match Features.derived features with
      | Some derived =>
          match color with
          | GREEN => 0 <? Features.volumeTrend derived
          | RED => Features.volumeTrend derived <? 0
          end
      | None => false
      end
  end.

(** [if (fired) score += amount] *)
Definition add_when (fired : bool) (amount score : float) : float :=
  if fired then score + amount else score.

(** The clamped sum of the amounts of the rules that fired. *)
Definition tally (amount : Rule -> float) (fired : Rule -> bool) : float :=
  JS.Math_max 0
    (JS.Math_min 1
       (fold_left (fun score r => add_when (fired r) (amount r) score) rules 0)).

(** The scoring function as the specification words it: a rule that fires
    contributes the entry of the weight table named for it. The table has
    no [pullback] category and no [market.volume]; the entries of those
    names in its other categories are taken. *)
Definition weight_of (w : WeightTable.t) (r : Rule) : float :=
  match r with
  | Oscillator => WeightTable.rsi (WeightTable.technical w)
  | Convergence => WeightTable.macd (WeightTable.technical w)
  | Bands => WeightTable.bollinger (WeightTable.technical w)
  | Patterns => WeightTable.patterns (WeightTable.priceAction w)
  | Trend => WeightTable.trend (WeightTable.market w)
  | ActivePullback => WeightTable.pullbacks (WeightTable.priceAction w)
  | Momentum => WeightTable.momentum (WeightTable.market w)
  | VolumeTrend => WeightTable.volume (WeightTable.priceAction w)
  end.

Definition weighted_score (w : WeightTable.t) (features : Features.FeatureBundle)
    (color : Color) : float :=
  tally (weight_of w) (fires features color).

(** *** Joint firings, for deciding properties of the confidence by enumeration *)

Definition rule_index (r : Rule) : nat :=
  match r with
  | Oscillator => 0 | Convergence => 1 | Bands => 2 | Patterns => 3
  | Trend => 4 | ActivePullback => 5 | Momentum => 6 | VolumeTrend => 7
  end.

Definition fired_in (v : list bool) (r : Rule) : bool := nth (rule_index r) v false.

(** What one rule can do on one bundle, as (fires for GREEN, fires for RED):
    convergence, trend, momentum and volume trend never fire for both
    colours, and an active pullback never fires for RED. *)
Definition outcomes (r : Rule) : list (bool * bool) :=
  match r with
  | Oscillator | Bands | Patterns =>
      [(false, false); (true, false); (false, true); (true, true)]
  | Convergence | Trend | Momentum | VolumeTrend =>
      [(false, false); (true, false); (false, true)]
  | ActivePullback => [(false, false); (true, false)]
  end.

Fixpoint joint_firings (rs : list Rule) : list (list (bool * bool)) :=
  match rs with
  | [] => [[]]
  | r :: rest =>
      flat_map (fun tail => map (fun o => o :: tail) (outcomes r)) (joint_firings rest)
  end.

(** The joint firing of a bundle. *)
Definition firing (features : Features.FeatureBundle) : list (bool * bool) :=
  map (fun r => (fires features GREEN r, fires features RED r)) rules.

(** The confidence as a function of the two scores, in the order the
    source evaluates it, and in the order the specification writes it. *)
Definition confidence_of (greenScore redScore : float) : float :=
  let totalScore := greenScore + redScore in
  if totalScore =? 0 then 50
  else JS.Math_round ((JS.Math_max greenScore redScore / totalScore) * 100).

Definition confidence_as_specified (greenScore redScore : float) : float :=
  if (greenScore =? 0) && (redScore =? 0) then 50
  else JS.Math_round (100 * JS.Math_max greenScore redScore / (greenScore + redScore)).

(** What is checked of every joint firing. *)
Definition confidence_check (joint : list (bool * bool)) : bool :=
  let g := tally contribution (fired_in (map fst joint)) in
  let r := tally contribution (fired_in (map snd joint)) in
  let c := confidence_of g r in
  (0 <=? g) && (g <=? 1) && (0 <=? r) && (r <=? 1)
  && (g + r <=? 2 * JS.Math_max g r)
  && (0 <=? c) && (50 <=? c) && (c <=? 100)
  && (negb ((g =? 0) && (r =? 0)) || PrimFloat.Leibniz.eqb c 50)
  && PrimFloat.Leibniz.eqb c (confidence_as_specified g r).

(** *** Worlds used in the examples *)

Definition world_of (e : AIEngine) (rnd : nat -> float) : World :=
  {| engine := e; random := rnd; draws := 0; console := []; saved := [] |}.

(** The engine once [initialize()] has completed without training. *)
Definition initialized_engine : AIEngine :=
  {| model := Some {| loaded := true; version := "1.0.0" |};
     isInitialized := true; learningRate := 0.01; epochs := 100;
     batchSize := 32; weights := WeightTable.initial |}.

Definition empty_bundle : Features.FeatureBundle :=
  {| Features.technical := None; Features.priceAction := None;
     Features.market := None; Features.pullback := None;
     Features.derived := None |}.

(** A bundle whose only evidence is an oscillator value of 50. *)
Definition oscillator_only : Features.FeatureBundle :=
  {| Features.technical :=
       Some {| Features.rsi := Some 50; Features.macd := None;
               Features.macdSignal := None; Features.macdHistogram := None;
               Features.sma20 := None; Features.sma50 := None;
               Features.ema12 := None; Features.ema26 := None;
               Features.bollingerUpper := None; Features.bollingerMiddle := None;
               Features.bollingerLower := None |};
     Features.priceAction := None; Features.market := None;
     Features.pullback := None; Features.derived := None |}.

(** A source of random numbers whose first draw is 0.9 and every later
    draw 0.1, and the constant sources. *)
Definition high_then_low (n : nat) : float := if (n =? 0)%nat then 0.9 else 0.1.

Definition always (x : float) (n : nat) : float := x.

(** [n] increments of a counter ([total++]). *)
Definition count_up (n : nat) (start : float) : float :=
  Nat.iter n (fun x => x + 1) start.

(** Samples on which the two scores tie, one per given label. *)
Definition labelled (targets : list Color) : list Sample :=
  map (fun t => {| samplePair := "SOLUSDT"; features := oscillator_only;
                   target := t; sampleTimestamp := 0 |})
      targets.

(** The entries of the weight table once [updateWeights] has been given
    the results of a run over [trainingData], as [train] does. *)
Definition entries_after_training (trainingData : list Sample) (w : World) : list float :=
  let run := simulateTraining trainingData w in
  WeightTable.entries (weights (engine (snd (updateWeights (fst run) (snd run))))).

(** A history of [n] one-minute rows of one pair, the price rising by one
    unit per row. *)
Definition history_row (i : nat) : Observation.t :=
  {| Observation.pair := "SOLUSDT";
     Observation.timestamp := Z.of_nat i * 60000;
     Observation.price := 100 + JS.of_nat i;
     Observation.volume := Some 5000;
     Observation.technical_indicators := None;
     Observation.market_data := None |}.

Definition history (n : nat) : list Observation.t := map history_row (seq 0 n).

(** A twenty-row window that rises to 100, falls back to 97, recovers to
    101 and repeats, and whose latest row carries the volume [v]. *)
Definition tick (p : float) (v : option float) : Observation.t :=
  {| Observation.pair := "SOLUSDT";
     Observation.timestamp := 0;
     Observation.price := p;
     Observation.volume := v;
     Observation.technical_indicators := None;
     Observation.market_data := None |}.

Definition zigzag : list float := [98; 100; 97; 101; 99].

Definition window_with_latest_volume (v : option float) : list Observation.t :=
  map (fun p => tick p (Some 5000)) (zigzag ++ zigzag ++ zigzag ++ [98; 100; 97; 101])
  ++ [tick 99 v].

Definition generator : SignalGenerator.t :=
  {| SignalGenerator.isRunning := true;
     SignalGenerator.confidenceThreshold := 85;
     SignalGenerator.pullbackAnalysisDepth := 20 |}.


(** Sixteen prices: fourteen gains of one unit, a fifteenth, then a loss. *)
Definition ramp_then_drop : list float := map JS.of_nat (seq 1 15) ++ [14].

(** Strict local extrema of a price sequence, and the shape of a pullback:
    a strict peak, a strict valley after it and the next strict peak, with
    the depth measured from the first peak down to the valley. *)
Definition strict_peak (prices : list float) (i : nat) : Prop :=
  (1 <= i)%nat /\ (i + 1 < List.length prices)%nat /\
  (SignalGenerator.at_index prices (i - 1) <? SignalGenerator.at_index prices i) = true /\
  (SignalGenerator.at_index prices (i + 1) <? SignalGenerator.at_index prices i) = true.

Definition strict_valley (prices : list float) (i : nat) : Prop :=
  (1 <= i)%nat /\ (i + 1 < List.length prices)%nat /\
  (SignalGenerator.at_index prices i <? SignalGenerator.at_index prices (i - 1)) = true /\
  (SignalGenerator.at_index prices i <? SignalGenerator.at_index prices (i + 1)) = true.

Definition pullback_shape (prices : list float) (p : SignalGenerator.Pullback.t) : Prop :=
  let peak := SignalGenerator.Pullback.startIndex p in
  let valley := SignalGenerator.Pullback.valleyIndex p in
  let nextPeak := SignalGenerator.Pullback.endIndex p in
  strict_peak prices peak /\ strict_valley prices valley /\ strict_peak prices nextPeak /\
  (peak < valley < nextPeak)%nat /\
  SignalGenerator.Pullback.peakPrice p = SignalGenerator.at_index prices peak /\
  SignalGenerator.Pullback.valleyPrice p = SignalGenerator.at_index prices valley /\
  SignalGenerator.Pullback.nextPeakPrice p = SignalGenerator.at_index prices nextPeak /\
  SignalGenerator.Pullback.depth p
  = (SignalGenerator.Pullback.peakPrice p - SignalGenerator.Pullback.valleyPrice p)
    / SignalGenerator.Pullback.peakPrice p.

(** A retracement of a price sequence, in the words of the specification:
    a strict peak, the next strict peak after it (no strict peak lies
    between the two) and a strict valley strictly between them; where
    several valleys lie between, the first. *)
Definition next_peak (prices : list float) (peak nextPeak : nat) : Prop :=
  strict_peak prices peak /\ strict_peak prices nextPeak /\ (peak < nextPeak)%nat /\
  forall k, (peak < k < nextPeak)%nat -> ~ strict_peak prices k.

Definition first_valley_between (prices : list float) (peak nextPeak valley : nat)
  : Prop :=
  strict_valley prices valley /\ (peak < valley < nextPeak)%nat /\
  forall k, (peak < k < valley)%nat -> ~ strict_valley prices k.

Definition retracement (prices : list float) (peak valley nextPeak : nat) : Prop :=
  next_peak prices peak nextPeak /\ first_valley_between prices peak nextPeak valley.

(** The tests of the two loops, the extremum pushed at an index, and the
    pairs [(xs[i], xs[i + 1])] a loop over [i < xs.length - 1] visits. *)
Definition peak_at (prices : list float) (i : nat) : bool :=
  (SignalGenerator.at_index prices (i - 1) <? SignalGenerator.at_index prices i)
  && (SignalGenerator.at_index prices (i + 1) <? SignalGenerator.at_index prices i).

Definition valley_at (prices : list float) (i : nat) : bool :=
  (SignalGenerator.at_index prices i <? SignalGenerator.at_index prices (i - 1))
  && (SignalGenerator.at_index prices i <? SignalGenerator.at_index prices (i + 1)).

Definition extremum_at (prices : list float) (i : nat) : SignalGenerator.Extremum.t :=
  {| SignalGenerator.Extremum.index := i;
     SignalGenerator.Extremum.price := SignalGenerator.at_index prices i |}.

Fixpoint consecutive {A} (xs : list A) : list (A * A) :=
  match xs with
  | [] => []
  | x :: rest =>
      match rest with
      | [] => []
      | y :: _ => (x, y) :: consecutive rest
      end
  end.

(** The window of the specification's scenario: a rise to 100, a drop to
    97 and a recovery to 101. *)
Definition rise_drop_recover : list Observation.t :=
  map (fun p => tick p (Some 5000)) zigzag.

(** A loop body [counts] [n] when it adds [n] to the run total, one by one,
    and leaves the engine alone. *)
Definition counts (n : nat) (step : Counters -> M Counters) : Prop :=
  forall c w,
    run_total (fst (step c w)) = count_up n (run_total c) /\
    engine (snd (step c w)) = engine w.

(** *** Data for the properties beyond the claims *)

(** The pattern sets one candle can add, and a candle of given open, high,
    low and close. *)
Definition pattern_sets : list (list string) :=
  [ []; ["doji"]; ["hammer"]; ["shooting_star"]; ["hammer"; "shooting_star"];
    ["green_marubozu"]; ["red_marubozu"] ]%string.

Definition candle_of (o h l c : float) : DataCollector.Candle :=
  {| DataCollector.open := o; DataCollector.high := h; DataCollector.low := l;
     DataCollector.close := c; DataCollector.volume := 5000 |}.

(** Candles whose closes follow [zigzag] twice, each with a body of one
    unit inside a range of three; twenty and thirty of them; and the row
    the collector stores for the thirty, with the bundle [extractFeatures]
    reads from it. *)
Definition swing_candles : list DataCollector.Candle :=
  map (fun p => candle_of (p - 1) (p + 1) (p - 2) p) (zigzag ++ zigzag).

Definition twenty_candles : list DataCollector.Candle := swing_candles ++ swing_candles.

Definition thirty_candles : list DataCollector.Candle := twenty_candles ++ swing_candles.

Definition collected_row : Observation.t :=
  {| Observation.pair := "SOLUSDT";
     Observation.timestamp := 0;
     Observation.price := 99;
     Observation.volume := Some 5000;
     Observation.technical_indicators :=
       Some (DataCollector.stored
               (DataCollector.calculateTechnicalIndicators thirty_candles));
     Observation.market_data := None |}.

Definition collected_features : Features.FeatureBundle :=
  match extractFeatures [collected_row] {| focusOnPullbacks := true |} with
  | Some f => f
  | None => empty_bundle
  end.

(** A twenty-row window that starts at 96 and ends at 99, a rise of about
    three per cent, with the retreats of [zigzag]; and one that starts at
    90, a rise of ten per cent. *)
Definition uptrend_window : list Observation.t :=
  map (fun p => tick p (Some 5000))
      ([96; 100; 97; 101; 99] ++ zigzag ++ zigzag ++ zigzag).

Definition surge_window : list Observation.t :=
  map (fun p => tick p (Some 5000))
      ([90; 100; 97; 101; 99] ++ zigzag ++ zigzag ++ zigzag).

(** The features of the signal path for these windows, and the signal
    [generateSignal] returns for the first at time 0 on a freshly
    constructed engine whose random source answers 0.9. *)
Definition features_or_default (window : list Observation.t)
  : SignalGenerator.SignalFeatures.t :=
  match SignalGenerator.extractSignalFeatures window
          (SignalGenerator.analyzePullbacks window) with
  | Some f => f
  | None =>
      {| SignalGenerator.SignalFeatures.pullback :=
           SignalGenerator.analyzePullbacks window;
         SignalGenerator.SignalFeatures.technical := None;
         SignalGenerator.SignalFeatures.priceAction := None;
         SignalGenerator.SignalFeatures.market := None |}
  end.

Definition signal_features : SignalGenerator.SignalFeatures.t :=
  features_or_default uptrend_window.

Definition surge_features : SignalGenerator.SignalFeatures.t :=
  features_or_default surge_window.

Definition emitted_signal : SignalGenerator.Signal :=
  {| SignalGenerator.signalPair := "SOLUSDT";
     SignalGenerator.color := GREEN;
     SignalGenerator.confidence := 100;
     SignalGenerator.technicalAnalysis :=
       {| SignalGenerator.pullbackAnalysis :=
            Some (SignalGenerator.analyzePullbacks uptrend_window) |} |}.

(** *** The rules the signal path can fire *)

(** A joint firing in which convergence, bands, active pullback, momentum
    and volume trend are silent for both colours. *)
Definition silent (joint : list (bool * bool)) (r : Rule) : bool :=
  negb (fired_in (map fst joint) r) && negb (fired_in (map snd joint) r).

Definition signal_path (joint : list (bool * bool)) : bool :=
  forallb (silent joint) [Convergence; Bands; ActivePullback; Momentum; VolumeTrend].

(** On such a firing neither score exceeds 0.5, and the confidence is at
    most 82, or it is exactly 100, one colour has no score at all and the
    oscillator rule has not fired for both. *)
Definition signal_confidence_check (joint : list (bool * bool)) : bool :=
  let g := tally contribution (fired_in (map fst joint)) in
  let r := tally contribution (fired_in (map snd joint)) in
  let c := confidence_of g r in
  negb (signal_path joint)
  || ((g <=? 0.5) && (r <=? 0.5)
      && ((c <=? 82)
          || (PrimFloat.Leibniz.eqb c 100
              && (PrimFloat.Leibniz.eqb g 0 || PrimFloat.Leibniz.eqb r 0)
              && negb (fired_in (map fst joint) Oscillator
                       && fired_in (map snd joint) Oscillator)))).

(** *** Groups of rows *)

(** The rows of one pair, in the order of the data. *)
Definition rows_of (key : string) (data : list Observation.t) : list Observation.t :=
  filter (fun row => String.eqb key (Observation.pair row)) data.

(** [groups[key]] *)
Fixpoint group_of (key : string) (groups : list (string * list Observation.t))
  : option (list Observation.t) :=
  match groups with
  | [] => None
  | (k, items) :: rest => if String.eqb k key then Some items else group_of key rest
  end.

(** The number of rows held by all the groups. *)
Definition rows_held (groups : list (string * list Observation.t)) : nat :=
  list_sum (map (fun g => List.length (snd g)) groups).

(** *** Loop bodies on an engine that is not, or is, initialized *)

(** On an engine that is not initialized a loop body [guesses] [n] times
    when it draws [n] random numbers and leaves the engine and the stored
    results alone. *)
Definition guesses (n : nat) (step : Counters -> M Counters) : Prop :=
  forall c w, isInitialized (engine w) = false ->
    draws (snd (step c w)) = (draws w + n)%nat /\
    engine (snd (step c w)) = engine w /\
    saved (snd (step c w)) = saved w.

(** On initialized engines a loop body is [settled] when its counters do
    not depend on the world it runs in, and it draws no random number and
    leaves the engine and the stored results alone. *)
Definition settled (step : Counters -> M Counters) : Prop :=
  forall c w1 w2,
    isInitialized (engine w1) = true -> isInitialized (engine w2) = true ->
    fst (step c w1) = fst (step c w2) /\
    draws (snd (step c w1)) = draws w1 /\
    engine (snd (step c w1)) = engine w1 /\
    saved (snd (step c w1)) = saved w1.

(** * Properties *)

(** ** Comparisons of JavaScript numbers *)

Section Comparisons.

Lemma SFcompare_antisym (x y : spec_float) :
  SFcompare y x = option_map CompOpp (SFcompare x y).
Proof.
  destruct x as [sx|sx| |sx mx ex], y as [sy|sy| |sy my ey]; simpl;
    try reflexivity;
    try (destruct sx; reflexivity); try (destruct sy; reflexivity);
    try (destruct sx, sy; reflexivity).
  change (Pos.compare_cont Eq my mx) with (Pos.compare my mx).
  change (Pos.compare_cont Eq mx my) with (Pos.compare mx my).
  rewrite (Z.compare_antisym ex ey), (Pos.compare_antisym mx my).
  destruct sx, sy; simpl; try reflexivity;
    destruct (ex ?= ey)%Z; simpl; try reflexivity;
    destruct (mx ?= my)%positive; reflexivity.
Qed.

Lemma SFleb_trans_not_ltb (a b c : spec_float) :
  SFleb a b = true -> SFleb b c = true -> SFltb c a = false.
Proof.
  unfold SFleb, SFltb.
  destruct a as [sa|sa| |sa ma ea], b as [sb|sb| |sb mb eb], c as [sc|sc| |sc mc ec];
    simpl; try discriminate; try reflexivity;
    repeat match goal with s : bool |- _ => destruct s end;
    simpl; try discriminate; try reflexivity.
  all: change (Pos.compare_cont Eq ?p ?q) with (Pos.compare p q).
  all: destruct (Z.compare_spec ea eb), (Z.compare_spec eb ec), (Z.compare_spec ec ea);
    try discriminate; try reflexivity; try lia.
  all: subst;
    destruct (Pos.compare_spec ma mb), (Pos.compare_spec mb mc), (Pos.compare_spec mc ma);
    simpl; try discriminate; try reflexivity; try lia.
Qed.

(** [x < y] excludes [y < x]. *)
Lemma ltb_asym (x y : float) : (x <? y) = true -> (y <? x) = false.
Proof.
  rewrite !FloatAxioms.ltb_spec. unfold SFltb.
  rewrite (SFcompare_antisym (Prim2SF x) (Prim2SF y)).
  destruct (SFcompare (Prim2SF x) (Prim2SF y)) as [[]|]; simpl; congruence.
Qed.

(** [x === y] excludes [y < x]. *)
Lemma eqb_not_ltb (x y : float) : (x =? y) = true -> (y <? x) = false.
Proof.
  rewrite FloatAxioms.eqb_spec, FloatAxioms.ltb_spec. unfold SFeqb, SFltb.
  rewrite (SFcompare_antisym (Prim2SF x) (Prim2SF y)).
  destruct (SFcompare (Prim2SF x) (Prim2SF y)) as [[]|]; simpl; congruence.
Qed.

(** [x <= y] excludes [y < x]. *)
Lemma leb_not_ltb (x y : float) : (x <=? y) = true -> (y <? x) = false.
Proof.
  rewrite FloatAxioms.leb_spec, FloatAxioms.ltb_spec. unfold SFleb, SFltb.
  rewrite (SFcompare_antisym (Prim2SF x) (Prim2SF y)).
  destruct (SFcompare (Prim2SF x) (Prim2SF y)) as [[]|]; simpl; congruence.
Qed.

(** [x < y] gives [x <= y]. *)
Lemma ltb_leb (x y : float) : (x <? y) = true -> (x <=? y) = true.
Proof.
  rewrite FloatAxioms.ltb_spec, FloatAxioms.leb_spec. unfold SFltb, SFleb.
  destruct (SFcompare (Prim2SF x) (Prim2SF y)) as [[]|]; congruence.
Qed.

(** [a <= b] and [b <= c] exclude [c < a]. *)
Lemma leb_leb_not_ltb (a b c : float) :
  (a <=? b) = true -> (b <=? c) = true -> (c <? a) = false.
Proof.
  rewrite !FloatAxioms.leb_spec, FloatAxioms.ltb_spec.
  apply SFleb_trans_not_ltb.
Qed.

Lemma leibniz_eqb_eq (x y : float) : PrimFloat.Leibniz.eqb x y = true -> x = y.
Proof. apply FloatAxioms.Leibniz.eqb_spec. Qed.

Lemma leibniz_eqb_neq (x y : float) : PrimFloat.Leibniz.eqb x y = false -> x <> y.
Proof.
  intros H E. apply FloatAxioms.Leibniz.eqb_spec in E. congruence.
Qed.

End Comparisons.

(** ** The scoring function adds fixed amounts *)

Section Scoring.

Variable f : Features.FeatureBundle.

Lemma score_technical_rules c s :
  score_technical f c s =
  add_when (fires f c Bands) 0.2
    (add_when (fires f c Convergence) 0.15
       (add_when (fires f c Oscillator) 0.1 s)).
Proof.
  unfold score_technical, fires.
  destruct (Features.technical f) as [tech|]; [|reflexivity].
  unfold score_rsi, score_macd, score_bollinger, add_when.
  destruct (Features.rsi tech), (Features.macd tech), (Features.macdSignal tech),
    (Features.bollingerLower tech), (Features.bollingerUpper tech),
    (market_price f), c;
    simpl; try reflexivity;
    repeat match goal with
           | |- context [JS.truthy ?x] => destruct (JS.truthy x); simpl
           end; reflexivity.
Qed.

Lemma score_priceAction_rules c s :
  score_priceAction f c s = add_when (fires f c Patterns) 0.2 s.
Proof.
  unfold score_priceAction, fires, add_when.
  destruct (Features.priceAction f) as [pa|]; [|reflexivity].
  destruct (Features.patterns pa), c; simpl; reflexivity.
Qed.

Lemma score_pullback_rules c s :
  score_pullback f c s =
  add_when (fires f c ActivePullback) 0.1 (add_when (fires f c Trend) 0.15 s).
Proof.
  unfold score_pullback, fires, add_when.
  destruct (Features.pullback f) as [pb|]; [|reflexivity].
  destruct c; simpl; rewrite ?andb_true_r, ?andb_false_r; reflexivity.
Qed.

Lemma score_derived_rules c s :
  score_derived f c s =
  add_when (fires f c VolumeTrend) 0.05 (add_when (fires f c Momentum) 0.1 s).
Proof.
  unfold score_derived, fires, add_when.
  destruct (Features.derived f) as [d|]; [|reflexivity].
  destruct c; simpl; reflexivity.
Qed.

(** The score is the clamped sum of the fixed amounts of the rules that fire. *)
Lemma calculateScore_tally c : calculateScore f c = tally contribution (fires f c).
Proof.
  unfold calculateScore, tally. cbv zeta.
  rewrite score_derived_rules, score_pullback_rules, score_priceAction_rules,
    score_technical_rules.
  reflexivity.
Qed.

Lemma tally_firing_green amount :
  tally amount (fires f GREEN) = tally amount (fired_in (map fst (firing f))).
Proof. reflexivity. Qed.

Lemma tally_firing_red amount :
  tally amount (fires f RED) = tally amount (fired_in (map snd (firing f))).
Proof. reflexivity. Qed.

(** What a rule does on the bundle is one of its outcomes. *)
Lemma outcome_possible r : In (fires f GREEN r, fires f RED r) (outcomes r).
Proof.
  assert (four : forall a b : bool,
             In (a, b) [(false, false); (true, false); (false, true); (true, true)])
    by (intros [] []; simpl; auto).
  assert (three : forall a b : bool, a && b = false ->
             In (a, b) [(false, false); (true, false); (false, true)])
    by (intros [] []; simpl; auto; discriminate).
  assert (excl : forall x y, (x <? y) && (y <? x) = false).
  { intros x y. destruct (x <? y) eqn:E; [|reflexivity].
    rewrite (ltb_asym _ _ E). reflexivity. }
  destruct r; try apply four; try apply three; unfold fires.
  - destruct (Features.technical f) as [tech|]; [|reflexivity].
    destruct (Features.macd tech), (Features.macdSignal tech); try reflexivity.
    apply excl.
  - unfold trend_is. destruct (Features.pullback f) as [pb|]; [|reflexivity].
    destruct (Features.trend pb) as [t|]; [|reflexivity].
    destruct (String.eqb t "uptrend") eqn:E; [|reflexivity].
    apply String.eqb_eq in E. subst t. reflexivity.
  - destruct (Features.pullback f) as [pb|]; [|simpl; auto].
    destruct (has_pullbacks pb); simpl; auto.
  - destruct (Features.derived f); [|reflexivity]. apply excl.
  - destruct (Features.derived f); [|reflexivity]. apply excl.
Qed.

End Scoring.

(** ** The confidence, decided over every joint firing *)

Lemma joint_firings_complete (o : Rule -> bool * bool) (rs : list Rule) :
  (forall r, In (o r) (outcomes r)) -> In (map o rs) (joint_firings rs).
Proof.
  intros H. induction rs as [|r rest IH]; simpl.
  - left. reflexivity.
  - apply in_flat_map. exists (map o rest). split; [exact IH|].
    apply (in_map (fun head => head :: map o rest)). apply H.
Qed.

Lemma firing_in_joint_firings f : In (firing f) (joint_firings rules).
Proof.
  unfold firing.
  apply (joint_firings_complete (fun r => (fires f GREEN r, fires f RED r))).
  apply outcome_possible.
Qed.

Lemma confidence_table : forallb confidence_check (joint_firings rules) = true.
Proof. vm_compute. reflexivity. Qed.

Lemma confidence_check_firing f : confidence_check (firing f) = true.
Proof.
  pose proof confidence_table as T.
  rewrite forallb_forall in T.
  exact (T _ (firing_in_joint_firings f)).
Qed.

(** Everything the table says about the scores and the confidence of a bundle. *)
Lemma confidence_facts f :
  let g := calculateScore f GREEN in
  let r := calculateScore f RED in
  let c := confidence_of g r in
  ((0 <=? g) = true /\ (g <=? 1) = true /\ (0 <=? r) = true /\ (r <=? 1) = true) /\
  (g + r <=? 2 * JS.Math_max g r) = true /\
  ((0 <=? c) = true /\ (50 <=? c) = true /\ (c <=? 100) = true) /\
  ((g =? 0) && (r =? 0) = false \/ c = 50) /\
  c = confidence_as_specified g r.
Proof.
  intros g r c.
  pose proof (confidence_check_firing f) as H.
  unfold confidence_check in H.
  rewrite <- tally_firing_green, <- tally_firing_red, <- !calculateScore_tally in H.
  fold g r in H. fold c in H.
  repeat rewrite andb_true_iff in H.
  destruct H as [[[[[[[[[? ?] ?] ?] ?] ?] ?] ?] Z] E].
  apply leibniz_eqb_eq in E.
  repeat split; try assumption.
  destruct ((g =? 0) && (r =? 0)); [right|left; reflexivity].
  apply leibniz_eqb_eq. exact Z.
Qed.



(** ** Claims about scoring, prediction and confidence *)

(** C1, as amended. For every feature bundle and colour, [calculateScore]
    returns the clamped sum of the fixed amounts the source writes next to
    its rules (0.1 oscillator, 0.15 convergence/divergence, 0.2 band
    extremes, 0.2 candle patterns, 0.15 trend, 0.1 active pullback, 0.1
    momentum, 0.05 volume trend), one amount per rule that fires; and
    installing any other weight table changes no prediction: the score is
    not a function of the weight values. *)
Theorem calculateScore_fixed_amounts (f : Features.FeatureBundle) (c : Color)
    (ws : WeightTable.t) (w : World) :
  calculateScore f c = tally contribution (fires f c) /\
  fst (predict (Some f) (snd (set_weights ws w))) = fst (predict (Some f) w).
Proof.
  split.
  - apply calculateScore_tally.
  - unfold predict, bind, this, set_weights. simpl.
    destruct (isInitialized (engine w)); reflexivity.
Qed.

(** C1, as stated, fails: on a bundle whose only evidence is an
    oscillator value of 50 the oscillator rule fires for GREEN and the
    score is 0.1, while the table of the constructor holds 0.15 under
    [technical.rsi]; the score is not the weighted one. *)
Lemma calculateScore_weights_counterexample :
  fires oscillator_only GREEN Oscillator = true /\
  calculateScore oscillator_only GREEN = 0.1 /\
  weight_of WeightTable.initial Oscillator = 0.15 /\
  weighted_score WeightTable.initial oscillator_only GREEN = 0.15 /\
  calculateScore oscillator_only GREEN
  <> weighted_score WeightTable.initial oscillator_only GREEN.
Proof.
  repeat split; try (vm_compute; reflexivity).
  apply leibniz_eqb_neq. vm_compute. reflexivity.
Qed.

(** C2, as amended. On an initialized engine, whenever the GREEN score and
    the RED score of a bundle are equal, [predict] returns RED (DOWN), and
    it leaves the world as it found it: the tie-break is deterministic,
    towards DOWN. *)
Theorem predict_tie_is_RED (w : World) (f : Features.FeatureBundle) :
  isInitialized (engine w) = true ->
  (calculateScore f GREEN =? calculateScore f RED) = true ->
  predict (Some f) w = (RED, w).
Proof.
  intros I T. unfold predict, bind, this, ret. rewrite I. simpl.
  rewrite (eqb_not_ltb _ _ T). reflexivity.
Qed.

Lemma predict_tie_is_RED_witness :
  predict (Some oscillator_only) (world_of initialized_engine (always 0.9))
  = (RED, world_of initialized_engine (always 0.9)).
Proof.
  apply (predict_tie_is_RED (world_of initialized_engine (always 0.9)) oscillator_only);
    vm_compute; reflexivity.
Defined.

(** C2, as stated, fails: with an oscillator value of 50 both scores are
    0.1, the engine is initialized, and the prediction is not GREEN. *)
Lemma predict_tie_counterexample :
  isInitialized (engine (world_of initialized_engine (always 0.9))) = true /\
  calculateScore oscillator_only GREEN = 0.1 /\
  calculateScore oscillator_only RED = 0.1 /\
  fst (predict (Some oscillator_only) (world_of initialized_engine (always 0.9)))
  <> GREEN.
Proof.
  repeat split; try (vm_compute; reflexivity).
  vm_compute. discriminate.
Qed.

(** C3. [getConfidence] always answers a number between 0 and 100
    inclusive (50 in its [catch] branch); for every feature bundle the
    answer is [Math.round(100 * max(g, r) / (g + r))] of the two scores,
    and exactly 50 when both are zero. The function is total: no input
    makes it fail. *)
Theorem getConfidence_range (features : option Features.FeatureBundle)
    (f : Features.FeatureBundle) :
  (0 <=? getConfidence features) = true /\
  (getConfidence features <=? 100) = true /\
  getConfidence (Some f)
  = confidence_as_specified (calculateScore f GREEN) (calculateScore f RED).
Proof.
  assert (R : forall b, getConfidence (Some b)
                        = confidence_of (calculateScore b GREEN) (calculateScore b RED))
    by reflexivity.
  repeat split.
  - destruct features as [b|]; [|reflexivity]. rewrite R. apply (confidence_facts b).
  - destruct features as [b|]; [|reflexivity]. rewrite R. apply (confidence_facts b).
  - rewrite R. apply (confidence_facts f).
Qed.

(** C10. For every feature bundle both scores are non-negative, so their
    sum is at most twice the larger one, and the confidence lies between 50
    and 100; it is exactly 50 when both scores are zero. A threshold of 50
    or less therefore never finds the confidence below it. *)
Theorem getConfidence_at_least_50 (f : Features.FeatureBundle) (threshold : float) :
  (threshold <=? 50) = true ->
  let g := calculateScore f GREEN in
  let r := calculateScore f RED in
  (0 <=? g) = true /\ (0 <=? r) = true /\
  (g + r <=? 2 * JS.Math_max g r) = true /\
  (50 <=? getConfidence (Some f)) = true /\
  (getConfidence (Some f) <=? 100) = true /\
  ((g =? 0) && (r =? 0) = false \/ getConfidence (Some f) = 50) /\
  (getConfidence (Some f) <? threshold) = false.
Proof.
  intros T g r.
  change (getConfidence (Some f)) with (confidence_of g r).
  destruct (confidence_facts f) as [[G [_ [R _]]] [H [[_ [L U]] [Z _]]]].
  fold g r in G, R, H, L, U, Z.
  repeat split; try assumption.
  apply (leb_leb_not_ltb _ _ _ T L).
Qed.

Lemma getConfidence_at_least_50_witness :
  (50 <=? 50) = true /\ (getConfidence (Some oscillator_only) <? 50) = false.
Proof.
  split; [reflexivity|].
  apply (getConfidence_at_least_50 oscillator_only 50). reflexivity.
Defined.

(** C4, as amended. On an initialized engine [predict] is a function of
    the feature bundle alone: any two initialized worlds, whatever their
    random sources and weight tables, give the same colour for the same
    bundle, and the call changes nothing in the world. *)
Theorem predict_pure_when_initialized (w1 w2 : World) (f : Features.FeatureBundle) :
  isInitialized (engine w1) = true ->
  isInitialized (engine w2) = true ->
  fst (predict (Some f) w1) = fst (predict (Some f) w2) /\
  snd (predict (Some f) w1) = w1 /\
  snd (predict (Some f) w2) = w2.
Proof.
  intros I1 I2. unfold predict, bind, this, ret. rewrite I1, I2. simpl.
  repeat split.
Qed.

Lemma predict_pure_when_initialized_witness :
  fst (predict (Some oscillator_only) (world_of initialized_engine (always 0.9)))
  = fst (predict (Some oscillator_only) (world_of initialized_engine (always 0.1))).
Proof.
  apply (predict_pure_when_initialized
           (world_of initialized_engine (always 0.9))
           (world_of initialized_engine (always 0.1)) oscillator_only);
    reflexivity.
Defined.

(** C4, as stated, fails: before initialization two calls on one bundle,
    with the engine and its weights unchanged in between, answer GREEN and
    then RED, and the first call has changed the world. *)
Lemma predict_uninitialized_counterexample :
  engine (snd (predict (Some oscillator_only) (world_of constructor high_then_low)))
  = engine (world_of constructor high_then_low) /\
  fst (predict (Some oscillator_only) (world_of constructor high_then_low)) = GREEN /\
  fst (predict (Some oscillator_only)
         (snd (predict (Some oscillator_only) (world_of constructor high_then_low))))
  = RED /\
  snd (predict (Some oscillator_only) (world_of constructor high_then_low))
  <> world_of constructor high_then_low.
Proof.
  repeat split; try (vm_compute; reflexivity).
  intro E. apply (f_equal draws) in E. vm_compute in E. discriminate.
Qed.


(** ** The training loop *)

Section Training.

Lemma count_up_shift n x : count_up n (x + 1) = count_up (S n) x.
Proof.
  unfold count_up. induction n as [|n IH]; simpl; [reflexivity|].
  simpl in IH. rewrite IH. reflexivity.
Qed.

Lemma count_up_add n m x : count_up n (count_up m x) = count_up (n + m) x.
Proof. unfold count_up. symmetry. apply Nat.iter_add. Qed.

Section Loop.

Variable A : Type.
Variable body : A -> Counters -> M Counters.
Variable size : A -> nat.
Hypothesis body_counts : forall x, counts (size x) (body x).

(** A loop counts the sum of what its rounds count. *)
Lemma for_each_counts (xs : list A) :
  counts (list_sum (map size xs)) (for_each xs body).
Proof.
  induction xs as [|x rest IH]; intros c w; simpl.
  - split; reflexivity.
  - unfold bind.
    destruct (body_counts x c w) as [T E].
    destruct (body x c w) as [c1 w1]. simpl in T, E.
    destruct (IH c1 w1) as [T' E'].
    split.
    + rewrite T', T, count_up_add. f_equal. lia.
    + rewrite E'. exact E.
Qed.

End Loop.

Lemma list_sum_const {A} (n : nat) (xs : list A) :
  list_sum (map (fun _ => n) xs) = (List.length xs * n)%nat.
Proof. induction xs as [|x rest IH]; simpl; [reflexivity|]. rewrite IH. reflexivity. Qed.

Lemma list_sum_lengths {A} (xss : list (list A)) :
  list_sum (map (@List.length A) xss) = List.length (List.concat xss).
Proof.
  induction xss as [|xs rest IH]; simpl; [reflexivity|].
  rewrite IH, length_app. reflexivity.
Qed.

(** No prediction touches the engine. *)
Lemma predict_keeps_engine features w : engine (snd (predict features w)) = engine w.
Proof.
  unfold predict, bind, this, random_color, console_write, Math_random, ret. simpl.
  destruct (isInitialized (engine w)); [destruct features|]; reflexivity.
Qed.

Lemma train_on_sample_counts sample : counts 1 (train_on_sample sample).
Proof.
  intros c w. unfold train_on_sample, bind, ret.
  pose proof (predict_keeps_engine (Some (features sample)) w) as E.
  destruct (predict (Some (features sample)) w) as [p w1]. simpl in *.
  split; [reflexivity|exact E].
Qed.

Lemma batch_counts (batch : list Sample) :
  counts (List.length batch) (for_each batch train_on_sample).
Proof.
  rewrite <- (Nat.mul_1_r (List.length batch)), <- list_sum_const.
  apply for_each_counts. intros x. apply train_on_sample_counts.
Qed.

Lemma train_epoch_counts trainingData batchSize epoch :
  counts (List.length (List.concat (batches batchSize trainingData)))
         (train_epoch trainingData batchSize epoch).
Proof.
  intros c w. unfold train_epoch, bind, ret.
  match goal with
  | |- context [for_each ?bs ?body ?c0 w] =>
      pose proof (for_each_counts _ body (@List.length Sample) batch_counts bs c0 w)
        as [T E];
      destruct (for_each bs body c0 w) as [c1 w1]
  end.
  simpl in T, E. rewrite list_sum_lengths in T.
  destruct (epoch mod 20 =? 0)%nat; simpl; split; assumption.
Qed.

(** With a positive batch size the batches are the samples, each once, in order. *)
Lemma batches_from_cover {A} (batchSize : nat) (xs : list A) :
  (1 <= batchSize)%nat ->
  forall fuel i, (List.length xs - i <= fuel)%nat ->
  List.concat (batches_from fuel batchSize i xs) = skipn i xs.
Proof.
  intros B. induction fuel as [|fuel IH]; intros i F; simpl.
  - symmetry. apply skipn_all2. lia.
  - destruct (i <? List.length xs)%nat eqn:L.
    + apply Nat.ltb_lt in L. simpl. rewrite IH by lia.
      unfold JS.slice. replace (i + batchSize - i)%nat with batchSize by lia.
      replace (skipn (i + batchSize) xs) with (skipn batchSize (skipn i xs))
        by (rewrite skipn_skipn; f_equal; lia).
      apply firstn_skipn.
    + apply Nat.ltb_ge in L. simpl. symmetry. apply skipn_all2. lia.
Qed.

Lemma concat_batches {A} (batchSize : nat) (xs : list A) :
  (1 <= batchSize)%nat -> List.concat (batches batchSize xs) = xs.
Proof.
  intros B. unfold batches. rewrite (batches_from_cover batchSize xs B) by lia.
  reflexivity.
Qed.

(** A run leaves the engine alone, counts every sample of every epoch in
    [total], and reports [correct / total * 100]. *)
Lemma simulateTraining_run trainingData w :
  let results := fst (simulateTraining trainingData w) in
  accuracy results = (correct results / total results) * 100 /\
  total results
  = count_up (epochs (engine w)
              * List.length (List.concat (batches (batchSize (engine w)) trainingData)))
             0 /\
  engine (snd (simulateTraining trainingData w)) = engine w.
Proof.
  unfold simulateTraining, bind, this, ret, console_write. simpl.
  match goal with
  | |- context [for_each ?es ?body ?c0 ?w0] =>
      pose proof (for_each_counts _ body _
                    (train_epoch_counts trainingData (batchSize (engine w))) es c0 w0)
        as [T E];
      destruct (for_each es body c0 w0) as [c1 w1]
  end.
  simpl in *. rewrite list_sum_const, length_seq in T.
  repeat split; assumption.
Qed.

Lemma updateWeights_entries results w :
  WeightTable.entries (weights (engine (snd (updateWeights results w))))
  = if 80 <? accuracy results
    then map (fun x => x * 1.01) (WeightTable.entries (weights (engine w)))
    else if accuracy results <? 60
    then map (fun x => x * 0.99) (WeightTable.entries (weights (engine w)))
    else WeightTable.entries (weights (engine w)).
Proof.
  unfold updateWeights, bind, this, set_weights, ret.
  destruct (80 <? accuracy results); [reflexivity|].
  destruct (accuracy results <? 60); reflexivity.
Qed.

End Training.

(** ** Claims about training *)

(** C7. After a training run (batch size at least one) the reported accuracy
    is [correct / total * 100], where [total] has counted every sample of
    every epoch of the run; [updateWeights] on that result multiplies every
    entry of every category of the weight table by 1.01 when the accuracy
    is above 80, by 0.99 when it is below 60, and leaves every entry as it
    was when the accuracy is between 60 and 80 inclusive. *)
Theorem updateWeights_after_training (trainingData : list Sample) (w : World) :
  (1 <= batchSize (engine w))%nat ->
  let results := fst (simulateTraining trainingData w) in
  let a := accuracy results in
  let before := WeightTable.entries (weights (engine w)) in
  let after := entries_after_training trainingData w in
  a = (correct results / total results) * 100 /\
  total results = count_up (epochs (engine w) * List.length trainingData) 0 /\
  ((80 <? a) = true -> after = map (fun x => x * 1.01) before) /\
  ((a <? 60) = true -> after = map (fun x => x * 0.99) before) /\
  ((60 <=? a) = true -> (a <=? 80) = true -> after = before).
Proof.
  intros B results a before after.
  destruct (simulateTraining_run trainingData w) as [A [T E]].
  fold results in A, T. fold a in A.
  rewrite (concat_batches _ _ B) in T.
  assert (U := updateWeights_entries results (snd (simulateTraining trainingData w))).
  rewrite E in U. fold a before in U.
  change (WeightTable.entries _) with after in U.
  repeat split.
  - exact A.
  - exact T.
  - intros H. rewrite U, H. reflexivity.
  - intros H. rewrite U, H.
    destruct (80 <? a) eqn:G; [|reflexivity].
    assert (X : (60 <=? 80) = true) by reflexivity.
    rewrite (leb_leb_not_ltb a 60 80 (ltb_leb _ _ H) X) in G. discriminate.
  - intros L H. rewrite U.
    rewrite (leb_not_ltb _ _ H), (leb_not_ltb _ _ L). reflexivity.
Qed.

(** Three runs of an initialized engine, which answers RED on every
    sample: all labels RED (accuracy 100), all GREEN (accuracy 0), two
    RED and one GREEN (accuracy 66.67). *)
Lemma updateWeights_after_training_witness :
  entries_after_training (labelled [RED; RED; RED])
    (world_of initialized_engine (always 0.9))
  = map (fun x => x * 1.01) (WeightTable.entries WeightTable.initial) /\
  entries_after_training (labelled [GREEN; GREEN; GREEN])
    (world_of initialized_engine (always 0.9))
  = map (fun x => x * 0.99) (WeightTable.entries WeightTable.initial) /\
  entries_after_training (labelled [RED; RED; GREEN])
    (world_of initialized_engine (always 0.9))
  = WeightTable.entries WeightTable.initial.
Proof.
  assert (B : (1 <= batchSize (engine (world_of initialized_engine (always 0.9))))%nat)
    by (vm_compute; lia).
  split; [|split].
  - destruct (updateWeights_after_training (labelled [RED; RED; RED]) _ B)
      as [_ [_ [H _]]].
    apply H. vm_compute. reflexivity.
  - destruct (updateWeights_after_training (labelled [GREEN; GREEN; GREEN]) _ B)
      as [_ [_ [_ [H _]]]].
    apply H. vm_compute. reflexivity.
  - destruct (updateWeights_after_training (labelled [RED; RED; GREEN]) _ B)
      as [_ [_ [_ [_ H]]]].
    apply H; vm_compute; reflexivity.
Defined.

(** With 100 samples or more, [train] runs the simulation on the prepared
    samples and hands its results to [updateWeights]. *)
Lemma train_updates_weights (data : list Observation.t) (options : Options) (w : World) :
  (100 <= List.length (prepareTrainingData data options))%nat ->
  WeightTable.entries (weights (engine (snd (train data options w))))
  = entries_after_training (prepareTrainingData data options)
      (snd (console_write LogTrainingStart w)).
Proof.
  intros H. unfold train, entries_after_training, bind.
  apply Nat.ltb_ge in H. simpl. rewrite H.
  destruct (simulateTraining (prepareTrainingData data options) _) as [results w1].
  simpl.
  destruct (updateWeights results w1) as [u w2]. reflexivity.
Qed.

(** C8. When fewer than 100 training samples are prepared from the
    historical data, [train] returns with the engine, and so every weight,
    exactly as before; it writes the start line and one warning to the
    console, draws no random number, computes no accuracy and stores no
    result. *)
Theorem train_skips_below_100 (data : list Observation.t) (options : Options)
    (w : World) :
  (List.length (prepareTrainingData data options) < 100)%nat ->
  let w' := snd (train data options w) in
  engine w' = engine w /\
  WeightTable.entries (weights (engine w')) = WeightTable.entries (weights (engine w)) /\
  console w' = console w ++ [LogTrainingStart; WarnFewSamples] /\
  saved w' = saved w /\
  draws w' = draws w.
Proof.
  intros H w'. subst w'. unfold train, bind, console_write.
  apply Nat.ltb_lt in H. rewrite H. simpl.
  rewrite <- app_assoc. repeat split.
Qed.

Lemma train_skips_below_100_witness :
  console (snd (train (history 60) {| focusOnPullbacks := true |}
                  (world_of constructor (always 0.9))))
  = [LogTrainingStart; WarnFewSamples].
Proof.
  apply (train_skips_below_100 (history 60) {| focusOnPullbacks := true |}
           (world_of constructor (always 0.9))).
  vm_compute. lia.
Defined.


(** ** The oscillator reads the oldest transitions *)

Lemma accumulate_split (change : nat -> float) (indices : list nat) :
  forall gains losses,
  fold_left
    (fun '(gains, losses) i =>
       if 0 <? change i then (gains + change i, losses)
       else (gains, losses + JS.Math_abs (change i)))
    indices (gains, losses)
  = (fold_left add (filter (fun c => 0 <? c) (map change indices)) gains,
     fold_left add
       (map JS.Math_abs (filter (fun c => negb (0 <? c)) (map change indices))) losses).
Proof.
  induction indices as [|i rest IH]; intros gains losses; simpl; [reflexivity|].
  destruct (0 <? change i); simpl; apply IH.
Qed.

Lemma at_index_firstn (prices : list float) (n i : nat) :
  (i < n)%nat ->
  DataCollector.at_index (firstn n prices) i = DataCollector.at_index prices i.
Proof.
  unfold DataCollector.at_index. revert n i.
  induction prices as [|p rest IH]; intros n i H.
  - rewrite firstn_nil. reflexivity.
  - destruct n as [|n]; [lia|]. destruct i as [|i]; simpl; [reflexivity|].
    apply IH. lia.
Qed.

(** [calculateRSI] is the specified oscillator of the first [period + 1]
    prices: it agrees with the specification on a sequence of exactly
    [period + 1] prices, and ignores every later price. *)
Lemma calculateRSI_first_window (prices : list float) (period : nat) :
  DataCollector.calculateRSI prices period
  = DataCollector.oscillator_over_last_transitions (firstn (period + 1) prices) period.
Proof.
  unfold DataCollector.calculateRSI, DataCollector.oscillator_over_last_transitions.
  rewrite length_firstn.
  destruct (List.length prices <? period + 1)%nat eqn:L.
  - apply Nat.ltb_lt in L.
    replace (Nat.min (period + 1) (List.length prices) <? period + 1)%nat with true
      by (symmetry; apply Nat.ltb_lt; lia).
    reflexivity.
  - apply Nat.ltb_ge in L.
    replace (Nat.min (period + 1) (List.length prices) <? period + 1)%nat with false
      by (symmetry; apply Nat.ltb_ge; lia).
    unfold JS.slice_last. rewrite length_firstn.
    replace (Nat.min (period + 1) (List.length prices) - (period + 1))%nat with 0%nat
      by lia.
    simpl skipn.
    unfold DataCollector.accumulate.
    rewrite (accumulate_split
               (fun i => DataCollector.at_index prices i
                         - DataCollector.at_index prices (i - 1))).
    unfold JS.sum.
    replace (map (fun i => DataCollector.at_index (firstn (period + 1) prices) i
                           - DataCollector.at_index (firstn (period + 1) prices) (i - 1))
                 (seq 1 period))
      with (map (fun i => DataCollector.at_index prices i
                          - DataCollector.at_index prices (i - 1)) (seq 1 period)).
    + reflexivity.
    + apply map_ext_in. intros i I. apply in_seq in I.
      rewrite !at_index_firstn by lia. reflexivity.
Qed.

(** C5, evaluated where the code departs from it. On sixteen prices whose
    first fourteen transitions are gains and whose last transition is a
    loss, [calculateRSI] answers 100: it has read transitions 1 to 14, the
    oldest ones. Over the last fourteen transitions the average gain is
    13/14 and the average loss 1/14, and the oscillator of the claim is
    92.857... *)
Theorem calculateRSI_reads_first_transitions :
  DataCollector.calculateRSI ramp_then_drop 14 = Some 100 /\
  DataCollector.oscillator_over_last_transitions ramp_then_drop 14
  = Some 92.857142857142861 /\
  DataCollector.calculateRSI ramp_then_drop 14
  <> DataCollector.oscillator_over_last_transitions ramp_then_drop 14.
Proof.
  repeat split; try (vm_compute; reflexivity).
  intro E.
  apply (f_equal (fun o => match o with
                           | Some x => PrimFloat.Leibniz.eqb x 100
                           | None => false
                           end)) in E.
  vm_compute in E. discriminate.
Qed.


(** ** Claims about pullbacks and the validator *)

Lemma findPeaks_spec prices e :
  In e (SignalGenerator.findPeaks prices) ->
  strict_peak prices (SignalGenerator.Extremum.index e) /\
  SignalGenerator.Extremum.price e
  = SignalGenerator.at_index prices (SignalGenerator.Extremum.index e).
Proof.
  unfold SignalGenerator.findPeaks, SignalGenerator.inner_indices. intros H.
  apply in_flat_map in H. destruct H as [i [I H]].
  apply in_seq in I.
  destruct (_ && _) eqn:C in H; simpl in H; [|contradiction].
  destruct H as [H|[]]. subst e. simpl.
  apply andb_true_iff in C. destruct C as [C1 C2].
  unfold strict_peak. repeat split; try assumption; lia.
Qed.

Lemma findValleys_spec prices e :
  In e (SignalGenerator.findValleys prices) ->
  strict_valley prices (SignalGenerator.Extremum.index e) /\
  SignalGenerator.Extremum.price e
  = SignalGenerator.at_index prices (SignalGenerator.Extremum.index e).
Proof.
  unfold SignalGenerator.findValleys, SignalGenerator.inner_indices. intros H.
  apply in_flat_map in H. destruct H as [i [I H]].
  apply in_seq in I.
  destruct (_ && _) eqn:C in H; simpl in H; [|contradiction].
  destruct H as [H|[]]. subst e. simpl.
  apply andb_true_iff in C. destruct C as [C1 C2].
  unfold strict_valley. repeat split; try assumption; lia.
Qed.

Lemma identifyPullbacks_shape prices valleys :
  (forall v, In v valleys ->
     strict_valley prices (SignalGenerator.Extremum.index v) /\
     SignalGenerator.Extremum.price v
     = SignalGenerator.at_index prices (SignalGenerator.Extremum.index v)) ->
  forall peaks,
  (forall e, In e peaks ->
     strict_peak prices (SignalGenerator.Extremum.index e) /\
     SignalGenerator.Extremum.price e
     = SignalGenerator.at_index prices (SignalGenerator.Extremum.index e)) ->
  Forall (pullback_shape prices) (SignalGenerator.identifyPullbacks peaks valleys prices).
Proof.
  intros V peaks. induction peaks as [|peak rest IH]; intros P; simpl.
  - constructor.
  - destruct rest as [|nextPeak rest']; [constructor|].
    assert (IH' := IH (fun e H => P e (or_intror H))).
    destruct (find (SignalGenerator.between peak nextPeak) valleys) as [valley|] eqn:F;
      [|exact IH'].
    constructor; [|exact IH'].
    apply find_some in F. destruct F as [Fin Fb].
    unfold SignalGenerator.between in Fb.
    apply andb_true_iff in Fb. destruct Fb as [B1 B2].
    apply Nat.ltb_lt in B1. apply Nat.ltb_lt in B2.
    destruct (P peak (or_introl eq_refl)) as [Pp Ep].
    destruct (P nextPeak (or_intror (or_introl eq_refl))) as [Pn En].
    destruct (V valley Fin) as [Pv Ev].
    unfold pullback_shape, strict_peak, strict_valley in *. simpl.
    intuition (try assumption; try lia).
Qed.

Section SortedLists.

Lemma flat_map_as_filter {A B} (f : A -> bool) (g : A -> B) (xs : list A) :
  flat_map (fun x => if f x then [g x] else []) xs = map g (filter f xs).
Proof.
  induction xs as [|x rest IH]; simpl; [reflexivity|].
  rewrite IH. destruct (f x); reflexivity.
Qed.

Lemma find_of_map {A B} (f : B -> bool) (g : A -> B) (xs : list A) :
  find f (map g xs) = option_map g (find (fun x => f (g x)) xs).
Proof.
  induction xs as [|x rest IH]; simpl; [reflexivity|].
  destruct (f (g x)); [reflexivity|exact IH].
Qed.

Lemma consecutive_map {A B} (g : A -> B) (xs : list A) :
  consecutive (map g xs) = map (fun '(x, y) => (g x, g y)) (consecutive xs).
Proof.
  induction xs as [|x rest IH]; simpl; [reflexivity|].
  destruct rest as [|y rest']; simpl; [reflexivity|].
  simpl in IH. rewrite IH. reflexivity.
Qed.

Lemma seq_sorted (start len : nat) : StronglySorted lt (seq start len).
Proof.
  revert start. induction len as [|len IH]; intros start; simpl; constructor.
  - apply IH.
  - apply Forall_forall. intros k K. apply in_seq in K. lia.
Qed.

Lemma filter_sorted (f : nat -> bool) (xs : list nat) :
  StronglySorted lt xs -> StronglySorted lt (filter f xs).
Proof.
  induction 1 as [|x rest S IH F]; simpl; [constructor|].
  destruct (f x); [|exact IH].
  constructor; [exact IH|].
  apply Forall_forall. intros k K. apply filter_In in K.
  rewrite Forall_forall in F. apply F. tauto.
Qed.

(** In a strictly increasing list two elements are consecutive exactly
    when no element of the list lies between them. *)
Lemma consecutive_sorted (xs : list nat) :
  StronglySorted lt xs ->
  forall x y,
    In (x, y) (consecutive xs) <->
    In x xs /\ In y xs /\ (x < y)%nat /\ forall k, In k xs -> ~ (x < k < y)%nat.
Proof.
  induction 1 as [|a rest S IH F]; intros x y.
  - simpl. tauto.
  - rewrite Forall_forall in F.
    destruct rest as [|b rest'].
    + simpl. split; [intros []|].
      intros [[X|[]] [[Y|[]] [L _]]]. lia.
    + change (consecutive (a :: b :: rest')) with ((a, b) :: consecutive (b :: rest')).
      inversion S as [|? ? S' F']. subst. rewrite Forall_forall in F'.
      split.
      * intros [E|H].
        -- injection E as Ea Eb. subst x y.
           split; [left; reflexivity|]. split; [right; left; reflexivity|].
           split; [apply F; left; reflexivity|].
           intros k [K|[K|K]] B; try lia.
           specialize (F' k K). lia.
        -- apply IH in H. destruct H as [X [Y [L N]]].
           split; [right; exact X|]. split; [right; exact Y|]. split; [exact L|].
           intros k [K|K] B; [|exact (N k K B)].
           subst k. specialize (F x X). lia.
      * intros [X [Y [L N]]].
        destruct X as [X|X].
        -- subst x. destruct Y as [Y|Y]; [lia|].
           destruct Y as [Y|Y]; [left; congruence|].
           exfalso. apply (N b (or_intror (or_introl eq_refl))).
           specialize (F b (or_introl eq_refl)). specialize (F' y Y). lia.
        -- right. apply IH.
           split; [exact X|].
           destruct Y as [Y|Y]; [specialize (F x X); lia|].
           split; [exact Y|]. split; [exact L|].
           intros k K. apply N. right. exact K.
Qed.

(** In a strictly increasing list [find] answers the least element that
    passes the test. *)
Lemma find_sorted (test : nat -> bool) (xs : list nat) :
  StronglySorted lt xs ->
  forall k,
    find test xs = Some k <->
    In k xs /\ test k = true /\ forall u, In u xs -> (u < k)%nat -> test u = false.
Proof.
  induction 1 as [|a rest S IH F]; intros k; simpl.
  - split; [discriminate|intros [[] _]].
  - rewrite Forall_forall in F.
    destruct (test a) eqn:T.
    + split.
      * intros E. injection E as E. subst k.
        split; [left; reflexivity|]. split; [exact T|].
        intros u [U|U] L; [lia|]. specialize (F u U). lia.
      * intros [[K|K] [_ N]]; [congruence|].
        specialize (N a (or_introl eq_refl) (F k K)). congruence.
    + rewrite IH. split.
      * intros [K [P N]]. split; [right; exact K|]. split; [exact P|].
        intros u [U|U] L; [subst u; exact T|exact (N u U L)].
      * intros [[K|K] [P N]]; [congruence|].
        split; [exact K|]. split; [exact P|].
        intros u U. apply N. right. exact U.
Qed.

End SortedLists.

Section Retracements.

Variable prices : list float.

Lemma findPeaks_indices :
  SignalGenerator.findPeaks prices
  = map (extremum_at prices)
        (filter (peak_at prices) (SignalGenerator.inner_indices prices)).
Proof. apply (flat_map_as_filter (peak_at prices) (extremum_at prices)). Qed.

Lemma findValleys_indices :
  SignalGenerator.findValleys prices
  = map (extremum_at prices)
        (filter (valley_at prices) (SignalGenerator.inner_indices prices)).
Proof. apply (flat_map_as_filter (valley_at prices) (extremum_at prices)). Qed.

Lemma strict_peak_found i :
  strict_peak prices i
  <-> In i (filter (peak_at prices) (SignalGenerator.inner_indices prices)).
Proof.
  rewrite filter_In. unfold SignalGenerator.inner_indices, strict_peak, peak_at.
  rewrite in_seq, andb_true_iff. split.
  - intros [A [B [C D]]]. repeat split; try assumption; lia.
  - intros [[A B] [C D]]. repeat split; try assumption; lia.
Qed.

Lemma strict_valley_found i :
  strict_valley prices i
  <-> In i (filter (valley_at prices) (SignalGenerator.inner_indices prices)).
Proof.
  rewrite filter_In. unfold SignalGenerator.inner_indices, strict_valley, valley_at.
  rewrite in_seq, andb_true_iff. split.
  - intros [A [B [C D]]]. repeat split; try assumption; lia.
  - intros [[A B] [C D]]. repeat split; try assumption; lia.
Qed.

Lemma peaks_sorted :
  StronglySorted lt (filter (peak_at prices) (SignalGenerator.inner_indices prices)).
Proof. apply filter_sorted, seq_sorted. Qed.

Lemma valleys_sorted :
  StronglySorted lt (filter (valley_at prices) (SignalGenerator.inner_indices prices)).
Proof. apply filter_sorted, seq_sorted. Qed.

(** Two peaks are paired by the loop exactly when the second is the next
    strict peak after the first. *)
Lemma next_peak_consecutive i j :
  next_peak prices i j
  <-> In (i, j)
        (consecutive (filter (peak_at prices) (SignalGenerator.inner_indices prices))).
Proof.
  rewrite (consecutive_sorted _ peaks_sorted). unfold next_peak.
  rewrite <- !strict_peak_found. split.
  - intros [A [B [C D]]].
    split; [exact A|]. split; [exact B|]. split; [exact C|].
    intros k K L. apply strict_peak_found in K. exact (D k L K).
  - intros [A [B [C D]]].
    split; [exact A|]. split; [exact B|]. split; [exact C|].
    intros k L K. apply strict_peak_found in K. exact (D k K L).
Qed.

(** [valleys.find(...)] answers the first strict valley between the two peaks. *)
Lemma first_valley_find i j v :
  first_valley_between prices i j v
  <-> find (fun k => (i <? k)%nat && (k <? j)%nat)
        (filter (valley_at prices) (SignalGenerator.inner_indices prices)) = Some v.
Proof.
  rewrite (find_sorted _ _ valleys_sorted). unfold first_valley_between.
  rewrite <- strict_valley_found, andb_true_iff, !Nat.ltb_lt. split.
  - intros [A [B C]]. split; [exact A|]. split; [exact B|].
    intros u U L. apply strict_valley_found in U.
    destruct ((i <? u)%nat && (u <? j)%nat) eqn:T; [|reflexivity].
    apply andb_true_iff in T. rewrite !Nat.ltb_lt in T.
    exfalso. apply (C u); [lia|exact U].
  - intros [A [B C]]. split; [exact A|]. split; [exact B|].
    intros k K V. apply strict_valley_found in V.
    specialize (C k V ltac:(lia)).
    apply andb_false_iff in C. rewrite !Nat.ltb_ge in C. lia.
Qed.

End Retracements.

(** The loop of [identifyPullbacks], pair by pair. *)
Lemma identifyPullbacks_pairs (peaks valleys : list SignalGenerator.Extremum.t)
    (prices : list float) (p : SignalGenerator.Pullback.t) :
  In p (SignalGenerator.identifyPullbacks peaks valleys prices) ->
  exists peak nextPeak valley,
    In (peak, nextPeak) (consecutive peaks) /\
    find (SignalGenerator.between peak nextPeak) valleys = Some valley /\
    SignalGenerator.Pullback.startIndex p = SignalGenerator.Extremum.index peak /\
    SignalGenerator.Pullback.valleyIndex p = SignalGenerator.Extremum.index valley /\
    SignalGenerator.Pullback.endIndex p = SignalGenerator.Extremum.index nextPeak.
Proof.
  induction peaks as [|peak rest IH]; [intros []|].
  destruct rest as [|nextPeak rest']; [intros []|].
  change (consecutive (peak :: nextPeak :: rest'))
    with ((peak, nextPeak) :: consecutive (nextPeak :: rest')).
  simpl SignalGenerator.identifyPullbacks.
  destruct (find (SignalGenerator.between peak nextPeak) valleys) as [valley|] eqn:F.
  - intros [E|H].
    + exists peak, nextPeak, valley. subst p. simpl.
      split; [left; reflexivity|]. repeat split; assumption.
    + destruct (IH H) as [a [b [v [C R]]]].
      exists a, b, v. split; [right; exact C|exact R].
  - intros H. destruct (IH H) as [a [b [v [C R]]]].
    exists a, b, v. split; [right; exact C|exact R].
Qed.

Lemma identifyPullbacks_finds (peaks valleys : list SignalGenerator.Extremum.t)
    (prices : list float) (peak nextPeak valley : SignalGenerator.Extremum.t) :
  In (peak, nextPeak) (consecutive peaks) ->
  find (SignalGenerator.between peak nextPeak) valleys = Some valley ->
  exists p,
    In p (SignalGenerator.identifyPullbacks peaks valleys prices) /\
    SignalGenerator.Pullback.startIndex p = SignalGenerator.Extremum.index peak /\
    SignalGenerator.Pullback.valleyIndex p = SignalGenerator.Extremum.index valley /\
    SignalGenerator.Pullback.endIndex p = SignalGenerator.Extremum.index nextPeak.
Proof.
  induction peaks as [|a rest IH]; [intros []|].
  destruct rest as [|b rest']; [intros []|].
  change (consecutive (a :: b :: rest')) with ((a, b) :: consecutive (b :: rest')).
  simpl SignalGenerator.identifyPullbacks.
  intros [E|C] F.
  - injection E as Ea Eb. subst a b. rewrite F.
    eexists. split; [left; reflexivity|]. simpl. repeat split.
  - destruct (IH C F) as [p [I R]].
    exists p. split; [|exact R].
    destruct (find (SignalGenerator.between a b) valleys); [right|]; exact I.
Qed.

(** The pullbacks come in the order of their peaks, one per peak at most. *)
Lemma identifyPullbacks_sorted (peaks valleys : list SignalGenerator.Extremum.t)
    (prices : list float) :
  StronglySorted lt (map SignalGenerator.Extremum.index peaks) ->
  StronglySorted lt
    (map SignalGenerator.Pullback.startIndex
       (SignalGenerator.identifyPullbacks peaks valleys prices)) /\
  forall s,
    In s (map SignalGenerator.Pullback.startIndex
            (SignalGenerator.identifyPullbacks peaks valleys prices)) ->
    In s (map SignalGenerator.Extremum.index peaks).
Proof.
  induction peaks as [|a rest IH]; intros S.
  - simpl. split; [constructor|intros s []].
  - inversion S as [|? ? S' F]. subst. destruct (IH S') as [IS II].
    destruct rest as [|b rest'].
    + simpl. split; [constructor|intros s []].
    + simpl SignalGenerator.identifyPullbacks.
      destruct (find (SignalGenerator.between a b) valleys) as [valley|].
      * split.
        -- simpl. constructor; [exact IS|].
           apply Forall_forall. intros s I. rewrite Forall_forall in F.
           apply F. apply II. exact I.
        -- intros s [E|I]; [left; exact E|right; apply II; exact I].
      * split; [exact IS|]. intros s I. right. apply II. exact I.
Qed.

(** What [analyzePullbacks] finds in a window are its retracements. *)
Lemma pullbacks_are_retracements (prices : list float) (i v j : nat) :
  retracement prices i v j
  <-> exists p,
        In p (SignalGenerator.identifyPullbacks (SignalGenerator.findPeaks prices)
                (SignalGenerator.findValleys prices) prices) /\
        SignalGenerator.Pullback.startIndex p = i /\
        SignalGenerator.Pullback.valleyIndex p = v /\
        SignalGenerator.Pullback.endIndex p = j.
Proof.
  unfold retracement.
  rewrite next_peak_consecutive, first_valley_find.
  rewrite findPeaks_indices, findValleys_indices.
  set (peaks := filter (peak_at prices) (SignalGenerator.inner_indices prices)).
  set (valleys := filter (valley_at prices) (SignalGenerator.inner_indices prices)).
  assert (B : forall a b,
             find (SignalGenerator.between (extremum_at prices a) (extremum_at prices b))
               (map (extremum_at prices) valleys)
             = option_map (extremum_at prices)
                 (find (fun k => (a <? k)%nat && (k <? b)%nat) valleys))
    by (intros a b; apply find_of_map).
  split.
  - intros [C F].
    apply (in_map (fun '(x, y) => (extremum_at prices x, extremum_at prices y))) in C.
    rewrite <- consecutive_map in C.
    assert (F' := B i j). rewrite F in F'.
    destruct (identifyPullbacks_finds _ _ prices _ _ _ C F') as [p [I R]].
    exists p. split; [exact I|exact R].
  - intros [p [I [Ei [Ev Ej]]]].
    destruct (identifyPullbacks_pairs _ _ _ _ I) as [peak [nextPeak [valley [C [F R]]]]].
    rewrite consecutive_map in C. apply in_map_iff in C.
    destruct C as [[a b] [E C]]. injection E as Ea Eb. subst peak nextPeak.
    rewrite B in F.
    destruct (find (fun k => (a <? k)%nat && (k <? b)%nat) valleys) as [k|] eqn:Fk;
      [|discriminate].
    injection F as F. subst valley. simpl in R. destruct R as [R1 [R2 R3]].
    simpl in R1, R2, R3.
    rewrite <- Ei, <- Ev, <- Ej, R1, R2, R3.
    split; assumption.
Qed.

Lemma pullbacks_in_order (prices : list float) :
  StronglySorted lt
    (map SignalGenerator.Pullback.startIndex
       (SignalGenerator.identifyPullbacks (SignalGenerator.findPeaks prices)
          (SignalGenerator.findValleys prices) prices)).
Proof.
  apply identifyPullbacks_sorted.
  rewrite findPeaks_indices, map_map. simpl. rewrite map_id.
  apply peaks_sorted.
Qed.

(** C6. The pullbacks [analyzePullbacks] finds in a window are exactly its
    retracements: every triple of a strict peak, the first strict valley
    after it and the next strict peak that the prices hold is found, and
    nothing else is; they are listed once each, in the order of their
    peaks, with the prices at those indices and the depth
    [(peak.price - valley.price) / peak.price]. [hasValidPullback] is true
    exactly when the window holds at least one retracement and the mean of
    the depths of those found exceeds 0.02. *)
Theorem hasValidPullback_iff (marketData : list Observation.t) :
  let analysis := SignalGenerator.analyzePullbacks marketData in
  let prices := map Observation.price marketData in
  let found := SignalGenerator.Analysis.pullbacks analysis in
  let depths := map SignalGenerator.Pullback.depth found in
  (forall peak valley nextPeak,
     retracement prices peak valley nextPeak
     <-> exists p,
           In p found /\
           SignalGenerator.Pullback.startIndex p = peak /\
           SignalGenerator.Pullback.valleyIndex p = valley /\
           SignalGenerator.Pullback.endIndex p = nextPeak) /\
  StronglySorted lt (map SignalGenerator.Pullback.startIndex found) /\
  Forall (pullback_shape prices) found /\
  (SignalGenerator.Analysis.hasValidPullback analysis = true <->
   (exists peak valley nextPeak, retracement prices peak valley nextPeak) /\
   (0.02 <? JS.sum depths / JS.of_nat (List.length depths)) = true).
Proof.
  intros analysis prices found depths.
  assert (R : forall peak valley nextPeak,
             retracement prices peak valley nextPeak
             <-> exists p,
                   In p found /\
                   SignalGenerator.Pullback.startIndex p = peak /\
                   SignalGenerator.Pullback.valleyIndex p = valley /\
                   SignalGenerator.Pullback.endIndex p = nextPeak)
    by (intros; apply pullbacks_are_retracements).
  split; [exact R|]. split; [apply pullbacks_in_order|]. split.
  - apply identifyPullbacks_shape.
    + apply findValleys_spec.
    + apply findPeaks_spec.
  - assert (N : (exists peak valley nextPeak, retracement prices peak valley nextPeak)
                <-> (1 <= List.length found)%nat).
    { split.
      - intros [i [v [j H]]]. apply R in H. destruct H as [p [I _]].
        destruct found; [contradiction|simpl; lia].
      - intros L. destruct found as [|p rest] eqn:Fd; [simpl in L; lia|].
        exists (SignalGenerator.Pullback.startIndex p),
          (SignalGenerator.Pullback.valleyIndex p),
          (SignalGenerator.Pullback.endIndex p).
        apply R. exists p. split; [left; reflexivity|repeat split]. }
    rewrite N.
    subst analysis. unfold SignalGenerator.analyzePullbacks. simpl.
    fold prices.
    change (SignalGenerator.identifyPullbacks (SignalGenerator.findPeaks prices)
              (SignalGenerator.findValleys prices) prices) with found.
    unfold SignalGenerator.calculatePullbackMetrics.
    rewrite andb_true_iff, Nat.ltb_lt.
    destruct found as [|p rest] eqn:Fd.
    + simpl. split; intros [H _]; lia.
    + simpl Nat.eqb. cbv iota. simpl SignalGenerator.Metrics.avgDepth.
      fold depths. split; intros [H1 H2]; split; try assumption; simpl; lia.
Qed.

(** The scenario of a rise to 100, a drop to 97 and a recovery to 101: the
    window holds the retracement of indices 1, 2 and 3, its depth is three
    per cent, and the analysis reports a valid pullback. *)
Lemma hasValidPullback_iff_witness :
  retracement (map Observation.price rise_drop_recover) 1 2 3 /\
  SignalGenerator.Analysis.hasValidPullback
    (SignalGenerator.analyzePullbacks rise_drop_recover) = true.
Proof.
  assert (R : retracement (map Observation.price rise_drop_recover) 1 2 3).
  { split; [split; [|split; [|split]]|split; [|split]].
    - unfold strict_peak. repeat split; try (simpl; lia); reflexivity.
    - unfold strict_peak. repeat split; try (simpl; lia); reflexivity.
    - lia.
    - intros k K [_ [_ [H _]]]. assert (k = 2%nat) by lia. subst k.
      vm_compute in H. discriminate.
    - unfold strict_valley. repeat split; try (simpl; lia); reflexivity.
    - lia.
    - intros k K. lia. }
  split; [exact R|].
  pose proof (hasValidPullback_iff rise_drop_recover) as T. cbv zeta in T.
  destruct T as [_ [_ [_ [_ T]]]]. apply T.
  split; [exists 1%nat, 2%nat, 3%nat; exact R|].
  vm_compute. reflexivity.
Defined.





(** * Properties beyond the claims *)

(** ** Peaks, valleys and pullbacks of a price window *)

Section Extrema.

Variable prices : list float.

Lemma peak_not_valley p v :
  In p (SignalGenerator.findPeaks prices) ->
  In v (SignalGenerator.findValleys prices) ->
  SignalGenerator.Extremum.index v <> SignalGenerator.Extremum.index p.
Proof.
  intros P V E.
  apply findPeaks_spec in P. apply findValleys_spec in V.
  destruct P as [[_ [_ [P1 _]]] _]. destruct V as [[_ [_ [V1 _]]] _].
  rewrite E in V1. rewrite (ltb_asym _ _ P1) in V1. discriminate.
Qed.

Lemma peaks_apart a b :
  In a (SignalGenerator.findPeaks prices) ->
  In b (SignalGenerator.findPeaks prices) ->
  SignalGenerator.Extremum.index b <> S (SignalGenerator.Extremum.index a).
Proof.
  intros A B E.
  apply findPeaks_spec in A. apply findPeaks_spec in B.
  destruct A as [[_ [_ [_ A2]]] _]. destruct B as [[_ [_ [B1 _]]] _].
  rewrite E in B1. simpl in B1. rewrite Nat.sub_0_r in B1.
  replace (SignalGenerator.Extremum.index a + 1)%nat
    with (S (SignalGenerator.Extremum.index a)) in A2 by lia.
  rewrite (ltb_asym _ _ A2) in B1. discriminate.
Qed.

End Extrema.

(** X1. Every peak and every valley that [findPeaks] and [findValleys]
    report lies strictly inside the window (never at its first or last
    price), no two peaks are neighbours, and no index is both a peak and a
    valley. *)
Theorem extrema_are_interior_and_apart (prices : list float)
    (a b v : SignalGenerator.Extremum.t) :
  In a (SignalGenerator.findPeaks prices) ->
  In b (SignalGenerator.findPeaks prices) ->
  In v (SignalGenerator.findValleys prices) ->
  (1 <= SignalGenerator.Extremum.index a)%nat /\
  (SignalGenerator.Extremum.index a + 1 < List.length prices)%nat /\
  (1 <= SignalGenerator.Extremum.index v)%nat /\
  (SignalGenerator.Extremum.index v + 1 < List.length prices)%nat /\
  SignalGenerator.Extremum.index b <> S (SignalGenerator.Extremum.index a) /\
  SignalGenerator.Extremum.index v <> SignalGenerator.Extremum.index a.
Proof.
  intros A B V.
  destruct (findPeaks_spec _ _ A) as [[A1 [A2 _]] _].
  destruct (findValleys_spec _ _ V) as [[V1 [V2 _]] _].
  repeat split; try assumption.
  - apply (peaks_apart prices a b A B).
  - apply (peak_not_valley prices a v A V).
Qed.

Lemma extrema_are_interior_and_apart_witness :
  (1 <= 1)%nat /\ (1 + 1 < List.length zigzag)%nat /\
  (1 <= 2)%nat /\ (2 + 1 < List.length zigzag)%nat /\
  3%nat <> 2%nat /\ 2%nat <> 1%nat.
Proof.
  apply (extrema_are_interior_and_apart zigzag
           {| SignalGenerator.Extremum.index := 1; SignalGenerator.Extremum.price := 100 |}
           {| SignalGenerator.Extremum.index := 3; SignalGenerator.Extremum.price := 101 |}
           {| SignalGenerator.Extremum.index := 2; SignalGenerator.Extremum.price := 97 |});
    vm_compute; auto.
Defined.

Lemma identifyPullbacks_count prices valleys peaks :
  (List.length (SignalGenerator.identifyPullbacks peaks valleys prices)
   <= List.length peaks - 1)%nat.
Proof.
  induction peaks as [|peak rest IH]; simpl; [lia|].
  destruct rest as [|nextPeak rest']; [simpl; lia|].
  destruct (find _ valleys); simpl in *; lia.
Qed.

(** X2. A window that [analyzePullbacks] reports as holding a valid
    pullback has at least two peaks and at least five prices: the loop of
    [identifyPullbacks] pairs each peak with the next one, so it yields at
    most one pullback fewer than there are peaks. *)
Theorem valid_pullback_needs_two_peaks (marketData : list Observation.t) :
  SignalGenerator.Analysis.hasValidPullback (SignalGenerator.analyzePullbacks marketData)
  = true ->
  (2 <= SignalGenerator.Analysis.peaks (SignalGenerator.analyzePullbacks marketData))%nat /\
  (5 <= List.length marketData)%nat.
Proof.
  unfold SignalGenerator.analyzePullbacks. simpl.
  set (prices := map Observation.price marketData).
  intros H. apply andb_true_iff in H. destruct H as [H _].
  apply Nat.ltb_lt in H.
  pose proof (identifyPullbacks_count prices (SignalGenerator.findValleys prices)
                (SignalGenerator.findPeaks prices)) as C.
  split; [lia|].
  pose proof (identifyPullbacks_shape prices (SignalGenerator.findValleys prices)
                (findValleys_spec prices) (SignalGenerator.findPeaks prices)
                (findPeaks_spec prices)) as S.
  destruct (SignalGenerator.identifyPullbacks _ _ _) as [|p rest]; [simpl in H; lia|].
  inversion S as [|? ? Sp _]. subst.
  destruct Sp as [[P1 _] [_ [[_ [N2 _]] [[L1 L2] _]]]].
  unfold prices in N2. rewrite length_map in N2. lia.
Qed.

Lemma valid_pullback_needs_two_peaks_witness :
  (2 <= SignalGenerator.Analysis.peaks
          (SignalGenerator.analyzePullbacks (window_with_latest_volume (Some 5000%float))))%nat /\
  (5 <= List.length (window_with_latest_volume (Some 5000%float)))%nat.
Proof.
  apply (valid_pullback_needs_two_peaks (window_with_latest_volume (Some 5000%float))).
  vm_compute. reflexivity.
Defined.

Lemma flat_map_nil {A B} (f : A -> list B) (xs : list A) :
  (forall x, In x xs -> f x = []) -> flat_map f xs = [].
Proof.
  induction xs as [|x rest IH]; intros H; simpl; [reflexivity|].
  rewrite (H x (or_introl eq_refl)), IH; [reflexivity|].
  intros y Y. apply H. right. exact Y.
Qed.

(** X3. In a window whose prices rise strictly from each row to the
    next, [findPeaks] and [findValleys] find nothing and [analyzePullbacks]
    reports no valid pullback, whatever the size of the rise. *)
Theorem rising_window_has_no_pullback (marketData : list Observation.t) :
  (forall i, (i + 1 < List.length marketData)%nat ->
     (SignalGenerator.at_index (map Observation.price marketData) i
      <? SignalGenerator.at_index (map Observation.price marketData) (i + 1)) = true) ->
  SignalGenerator.findPeaks (map Observation.price marketData) = [] /\
  SignalGenerator.findValleys (map Observation.price marketData) = [] /\
  SignalGenerator.Analysis.hasValidPullback (SignalGenerator.analyzePullbacks marketData)
  = false.
Proof.
  intros R.
  set (prices := map Observation.price marketData) in *.
  assert (L : List.length prices = List.length marketData) by apply length_map.
  assert (P : SignalGenerator.findPeaks prices = []).
  { apply flat_map_nil. intros i I. apply in_seq in I.
    unfold SignalGenerator.inner_indices in I.
    rewrite (ltb_asym _ _ (R i ltac:(lia))), andb_false_r. reflexivity. }
  assert (V : SignalGenerator.findValleys prices = []).
  { apply flat_map_nil. intros i I. apply in_seq in I.
    assert (H := R (i - 1)%nat ltac:(lia)).
    replace (i - 1 + 1)%nat with i in H by lia.
    rewrite (ltb_asym _ _ H). reflexivity. }
  repeat split; try assumption.
  unfold SignalGenerator.analyzePullbacks. simpl. fold prices. rewrite P. reflexivity.
Qed.

Lemma rising_window_has_no_pullback_witness :
  SignalGenerator.Analysis.hasValidPullback
    (SignalGenerator.analyzePullbacks (history 25)) = false.
Proof.
  apply (rising_window_has_no_pullback (history 25)).
  intros i I.
  do 25 (destruct i as [|i];
         [first [vm_compute; reflexivity | vm_compute in I; lia]|]).
  vm_compute in I. lia.
Defined.

(** ** The indicators of the collector *)

Section Windows.

Context {A : Type}.

Lemma slice_last_app (older recent : list A) :
  JS.slice_last (List.length recent) (older ++ recent) = recent.
Proof.
  unfold JS.slice_last. rewrite length_app.
  replace (List.length older + List.length recent - List.length recent)%nat
    with (List.length older) by lia.
  rewrite skipn_app, skipn_all, Nat.sub_diag. reflexivity.
Qed.

Lemma slice_from_end_app (older recent : list A) :
  (1 <= List.length recent)%nat ->
  DataCollector.slice_from_end (List.length recent) (older ++ recent) = recent.
Proof.
  intros H. unfold DataCollector.slice_from_end.
  destruct (List.length recent) eqn:E; [lia|]. simpl Nat.eqb. cbv iota.
  rewrite <- E. apply slice_last_app.
Qed.

Lemma slice_from_end_all (xs : list A) :
  DataCollector.slice_from_end (List.length xs) xs = xs.
Proof.
  unfold DataCollector.slice_from_end, JS.slice_last.
  destruct (List.length xs =? 0)%nat; [reflexivity|].
  rewrite Nat.sub_diag. reflexivity.
Qed.

End Windows.

Lemma calculateSMA_window (older recent : list float) :
  (1 <= List.length recent)%nat ->
  DataCollector.calculateSMA (older ++ recent) (List.length recent)
  = Some (JS.sum recent / JS.of_nat (List.length recent)).
Proof.
  intros H. unfold DataCollector.calculateSMA.
  rewrite length_app, (slice_from_end_app older recent H).
  replace (List.length older + List.length recent <? List.length recent)%nat with false
    by (symmetry; apply Nat.ltb_ge; lia).
  reflexivity.
Qed.

Lemma calculateSMA_none prices period :
  DataCollector.calculateSMA prices period = None <->
  (List.length prices < period)%nat.
Proof.
  unfold DataCollector.calculateSMA.
  destruct (List.length prices <? period)%nat eqn:L.
  - apply Nat.ltb_lt in L. tauto.
  - apply Nat.ltb_ge in L. split; [discriminate|lia].
Qed.

(** X4. [calculateSMA] over [period] prices reads the latest [period]
    prices only: older prices before them change nothing, the value is
    their sum divided by the period, and one price too few gives [null]. *)
Theorem calculateSMA_reads_last_window (older recent : list float) :
  (1 <= List.length recent)%nat ->
  DataCollector.calculateSMA (older ++ recent) (List.length recent)
  = Some (JS.sum recent / JS.of_nat (List.length recent)) /\
  DataCollector.calculateSMA (older ++ recent) (List.length recent)
  = DataCollector.calculateSMA recent (List.length recent) /\
  DataCollector.calculateSMA recent (S (List.length recent)) = None.
Proof.
  intros H.
  rewrite (calculateSMA_window older recent H).
  rewrite (calculateSMA_window [] recent H : DataCollector.calculateSMA recent _ = _).
  split; [reflexivity|]. split; [reflexivity|].
  apply calculateSMA_none. lia.
Qed.

Lemma calculateSMA_reads_last_window_witness :
  DataCollector.calculateSMA ([1; 2; 3] ++ [10; 20]) 2 = Some ((0 + 10 + 20) / 2).
Proof.
  apply (calculateSMA_reads_last_window [1; 2; 3] [10; 20]). simpl. lia.
Defined.

(** X5. [calculateBollingerBands] depends on the latest [period]
    prices only, its middle band is the moving average of that window, and
    one price too few gives [null]. *)
Theorem calculateBollingerBands_window (older recent : list float) (stdDev : float) :
  (1 <= List.length recent)%nat ->
  DataCollector.calculateBollingerBands (older ++ recent) (List.length recent) stdDev
  = DataCollector.calculateBollingerBands recent (List.length recent) stdDev /\
  option_map Indicators.middle
    (DataCollector.calculateBollingerBands (older ++ recent) (List.length recent) stdDev)
  = Some (DataCollector.calculateSMA recent (List.length recent)) /\
  DataCollector.calculateBollingerBands recent (S (List.length recent)) stdDev = None.
Proof.
  intros H.
  pose proof (calculateSMA_window older recent H) as S1.
  pose proof (calculateSMA_window [] recent H) as S2. simpl in S2.
  unfold DataCollector.calculateBollingerBands.
  rewrite S1, S2.
  rewrite length_app, (slice_from_end_app older recent H), slice_from_end_all.
  replace (List.length older + List.length recent <? List.length recent)%nat with false
    by (symmetry; apply Nat.ltb_ge; lia).
  rewrite Nat.ltb_irrefl.
  replace (List.length recent <? S (List.length recent))%nat with true
    by (symmetry; apply Nat.ltb_lt; lia).
  repeat split.
Qed.

Lemma calculateBollingerBands_window_witness :
  DataCollector.calculateBollingerBands ([1; 2; 3] ++ [10; 20]) 2 2
  = DataCollector.calculateBollingerBands [10; 20] 2 2.
Proof.
  apply (calculateBollingerBands_window [1; 2; 3] [10; 20] 2). simpl. lia.
Defined.

Lemma calculateEMA_short prices period :
  (List.length prices < period)%nat -> DataCollector.calculateEMA prices period = None.
Proof.
  intros H. unfold DataCollector.calculateEMA.
  apply Nat.ltb_lt in H. rewrite H. reflexivity.
Qed.

(** X6. Whenever [calculateMACD] returns an object, at least 26
    prices were given, the MACD line is [ema12 - ema26], and the signal
    line is [null]: it is asked of [calculateEMA] as the 9-period average
    of the one-element array [[macdLine]], which is always too short; the
    histogram is therefore the MACD line minus 0. *)
Theorem calculateMACD_has_no_signal_line (prices : list float) :
  match DataCollector.calculateMACD prices with
  | None => True
  | Some m =>
      (26 <= List.length prices)%nat /\
      Indicators.signalLine m = None /\
      exists ema12 ema26,
        DataCollector.calculateEMA prices 12 = Some ema12 /\
        DataCollector.calculateEMA prices 26 = Some ema26 /\
        Indicators.macdLine m = Some (ema12 - ema26) /\
        Indicators.histogram m = Some (ema12 - ema26 - 0)
  end.
Proof.
  unfold DataCollector.calculateMACD.
  destruct (DataCollector.calculateEMA prices 12) as [e12|] eqn:E12; [|exact I].
  destruct (DataCollector.calculateEMA prices 26) as [e26|] eqn:E26;
    [|simpl; rewrite orb_true_r; exact I].
  destruct (DataCollector.falsy (Some e12) || DataCollector.falsy (Some e26));
    [exact I|].
  repeat split.
  - destruct (Nat.lt_ge_cases (List.length prices) 26) as [L|L]; [|exact L].
    rewrite (calculateEMA_short _ _ L) in E26. discriminate.
  - exists e12, e26. repeat split.
Qed.

Lemma fold_left_snoc {A B} (f : A -> B -> A) (xs : list B) (x : B) (a : A) :
  fold_left f (xs ++ [x]) a = f (fold_left f xs a) x.
Proof. rewrite fold_left_app. reflexivity. Qed.

(** X7. The recurrence of [calculateEMA]: when the average of a price
    array is [ema], the average of the array with one more price appended
    is [price * k + ema * (1 - k)] with [k = 2 / (period + 1)]; an array
    with an average holds at least [period] prices and is not empty. *)
Theorem calculateEMA_step (prices : list float) (period : nat) (ema price : float) :
  DataCollector.calculateEMA prices period = Some ema ->
  DataCollector.calculateEMA (prices ++ [price]) period
  = Some ((price * (2 / (JS.of_nat period + 1)))
          + (ema * (1 - 2 / (JS.of_nat period + 1)))) /\
  (period <= List.length prices)%nat /\
  prices <> [].
Proof.
  unfold DataCollector.calculateEMA. intros H.
  destruct (List.length prices <? period)%nat eqn:L; [discriminate|].
  apply Nat.ltb_ge in L.
  destruct prices as [|first rest]; [discriminate|].
  injection H as H. subst ema.
  rewrite length_app.
  replace (List.length (first :: rest) + List.length [price] <? period)%nat with false
    by (symmetry; apply Nat.ltb_ge; lia).
  change ((first :: rest) ++ [price]) with (first :: (rest ++ [price])).
  cbv iota beta. rewrite fold_left_snoc.
  repeat split; [exact L|discriminate].
Qed.

Lemma calculateEMA_step_witness :
  DataCollector.calculateEMA ([10; 20] ++ [30]) 2
  = Some ((30 * (2 / (JS.of_nat 2 + 1)))
          + (((20 * (2 / (2 + 1))) + (10 * (1 - 2 / (2 + 1))))
             * (1 - 2 / (JS.of_nat 2 + 1)))).
Proof.
  apply (calculateEMA_step [10; 20] 2). reflexivity.
Defined.

Lemma candle_patterns_cases c : In (DataCollector.candle_patterns c) pattern_sets.
Proof.
  unfold DataCollector.candle_patterns, pattern_sets. cbv zeta.
  repeat match goal with
         | |- context [if ?b then _ else _] => destruct b
         end; simpl; auto 10.
Qed.

Lemma candle_patterns_short c : (List.length (DataCollector.candle_patterns c) <= 2)%nat.
Proof.
  pose proof (candle_patterns_cases c) as H. unfold pattern_sets in H. simpl in H.
  repeat (destruct H as [H|H]; [rewrite <- H; simpl; lia|]). contradiction.
Qed.

Lemma flat_map_length_le {A B} (f : A -> list B) (k : nat) (xs : list A) :
  (forall x, (List.length (f x) <= k)%nat) ->
  (List.length (flat_map f xs) <= List.length xs * k)%nat.
Proof.
  intros H. induction xs as [|x rest IH]; simpl; [lia|].
  rewrite length_app. specialize (H x). lia.
Qed.

Lemma slice_last_length {A} (n : nat) (xs : list A) :
  (n <= List.length xs)%nat -> List.length (JS.slice_last n xs) = n.
Proof. intros H. unfold JS.slice_last. rewrite length_skipn. lia. Qed.

(** X8. One candle adds to [patterns] nothing, [doji], [hammer],
    [shooting_star], both of these two, or one marubozu label, and nothing
    else. [analyzePriceAction] answers [null] exactly below three candles;
    otherwise its patterns are those of the latest three candles in order,
    at most six labels, and it summarises exactly three candles. *)
Theorem analyzePriceAction_labels (candles : list DataCollector.Candle)
    (candle : DataCollector.Candle) :
  In (DataCollector.candle_patterns candle) pattern_sets /\
  match DataCollector.analyzePriceAction candles with
  | None => (List.length candles < 3)%nat
  | Some pa =>
      (3 <= List.length candles)%nat /\
      exists patterns recentCandles,
        Indicators.patterns pa = Some patterns /\
        Indicators.recentCandles pa = Some recentCandles /\
        patterns
        = flat_map DataCollector.candle_patterns (JS.slice_last 3 candles) /\
        (List.length patterns <= 6)%nat /\
        List.length recentCandles = 3%nat
  end.
Proof.
  split; [apply candle_patterns_cases|].
  unfold DataCollector.analyzePriceAction.
  destruct (List.length candles <? 3)%nat eqn:L.
  - apply Nat.ltb_lt in L. exact L.
  - apply Nat.ltb_ge in L. split; [exact L|].
    eexists. eexists. repeat split.
    + pose proof (flat_map_length_le DataCollector.candle_patterns 2
                    (JS.slice_last 3 candles) candle_patterns_short) as H.
      rewrite (slice_last_length 3 candles L) in H. exact H.
    + simpl. rewrite length_map. apply slice_last_length. exact L.
Qed.

Section CollectorPullbacks.

Variable prices : list float.

Lemma peaks_valleys_count (indices : list nat) :
  Nat.le
    (List.length
       (flat_map
          (fun i =>
             if (DataCollector.at_index prices (i - 1) <? DataCollector.at_index prices i)
                && (DataCollector.at_index prices (i + 1) <? DataCollector.at_index prices i)
             then [(i, DataCollector.at_index prices i)] else [])
          indices)
     + List.length
         (flat_map
            (fun i =>
               if (DataCollector.at_index prices i <? DataCollector.at_index prices (i - 1))
                  && (DataCollector.at_index prices i <? DataCollector.at_index prices (i + 1))
               then [(i, DataCollector.at_index prices i)] else [])
            indices))
    (List.length indices).
Proof.
  unfold Nat.le.
  induction indices as [|i rest IH]; simpl; [lia|].
  rewrite !length_app.
  destruct (DataCollector.at_index prices (i - 1) <? DataCollector.at_index prices i)
    eqn:P.
  - rewrite (ltb_asym _ _ P). simpl.
    repeat match goal with
           | |- context [if ?b then _ else _] => destruct b
           end; simpl; lia.
  - simpl.
    repeat match goal with
           | |- context [if ?b then _ else _] => destruct b
           end; simpl; lia.
Qed.

Lemma lower_highs_count (peaks : list (nat * float)) :
  (List.length (DataCollector.lower_highs peaks) <= List.length peaks - 1)%nat.
Proof.
  induction peaks as [|peak rest IH]; simpl; [lia|].
  destruct rest as [|nextPeak rest']; [simpl; lia|].
  destruct (0.02 <? _); simpl in *; lia.
Qed.

End CollectorPullbacks.

(** X9. The collector's [analyzePullbacks] reads the latest ten
    candles only and answers [null] for fewer than ten. On ten candles the
    numbers of peaks and of valleys it reports add up to at most eight,
    the reported number of pullbacks is the length of [recentPullbacks],
    and it is at most one fewer than the number of peaks. *)
Theorem analyzePullbacks_counts (older recent : list DataCollector.Candle) :
  List.length recent = 10%nat ->
  DataCollector.analyzePullbacks (older ++ recent)
  = DataCollector.analyzePullbacks recent /\
  DataCollector.analyzePullbacks (firstn 9 recent) = None /\
  exists peaks valleys pullbacks entries,
    DataCollector.analyzePullbacks recent
    = Some {| Indicators.peaks := Some (JS.of_nat peaks);
              Indicators.valleys := Some (JS.of_nat valleys);
              Indicators.pullbacks := Some (JS.of_nat pullbacks);
              Indicators.trend :=
                Some (DataCollector.calculateTrend (map DataCollector.close recent));
              Indicators.recentPullbacks := Some entries |} /\
    List.length entries = pullbacks /\
    (peaks + valleys <= 8)%nat /\
    (pullbacks <= peaks - 1)%nat.
Proof.
  intros L.
  assert (S1 : JS.slice_last 10 (older ++ recent) = recent)
    by (rewrite <- L; apply slice_last_app).
  assert (S2 : JS.slice_last 10 recent = recent).
  { unfold JS.slice_last. rewrite L. reflexivity. }
  unfold DataCollector.analyzePullbacks.
  rewrite length_app, L, S1, S2.
  replace (List.length older + 10 <? 10)%nat with false
    by (symmetry; apply Nat.ltb_ge; lia).
  replace (List.length (firstn 9 recent) <? 10)%nat with true
    by (symmetry; apply Nat.ltb_lt; rewrite length_firstn; lia).
  simpl Nat.ltb. cbv iota.
  split; [reflexivity|]. split; [reflexivity|].
  eexists. eexists. eexists. eexists.
  split; [reflexivity|]. split; [reflexivity|]. split.
  - pose proof (peaks_valleys_count (map DataCollector.close recent)
                  (seq 1 (List.length (map DataCollector.close recent) - 2))) as C.
    rewrite length_seq, length_map, L in C.
    unfold DataCollector.peaks_of, DataCollector.valleys_of.
    rewrite length_map, L. exact C.
  - apply lower_highs_count.
Qed.

Lemma analyzePullbacks_counts_witness :
  DataCollector.analyzePullbacks (twenty_candles ++ swing_candles)
  = DataCollector.analyzePullbacks swing_candles.
Proof.
  assert (L : List.length swing_candles = 10%nat) by reflexivity.
  exact (proj1 (analyzePullbacks_counts twenty_candles swing_candles L)).
Defined.

Lemma calculateEMA_present prices period :
  (1 <= List.length prices)%nat -> (period <= List.length prices)%nat ->
  DataCollector.calculateEMA prices period <> None.
Proof.
  intros N L. unfold DataCollector.calculateEMA.
  replace (List.length prices <? period)%nat with false
    by (symmetry; apply Nat.ltb_ge; lia).
  destruct prices; [simpl in N; lia|discriminate].
Qed.

Lemma calculateRSI_present prices period :
  (period + 1 <= List.length prices)%nat ->
  DataCollector.calculateRSI prices period <> None.
Proof.
  intros L. unfold DataCollector.calculateRSI.
  replace (List.length prices <? period + 1)%nat with false
    by (symmetry; apply Nat.ltb_ge; lia).
  destruct (DataCollector.accumulate prices period) as [gains losses].
  destruct (_ =? 0); discriminate.
Qed.

Lemma calculateMACD_short prices :
  (List.length prices < 26)%nat -> DataCollector.calculateMACD prices = None.
Proof.
  intros L. unfold DataCollector.calculateMACD.
  rewrite (calculateEMA_short prices 26 L). simpl.
  rewrite orb_true_r. reflexivity.
Qed.

(** X10. With twenty to twenty-five candles
    [calculateTechnicalIndicators] computes both moving averages (the
    second over all the candles, [Math.min(50, length)]), the 12-period
    exponential average, the oscillator, the bands, the volume average,
    the price action and the pullback analysis, but neither the 26-period
    exponential average nor the MACD, which are [null]. *)
Theorem indicators_of_20_to_25_candles (candles : list DataCollector.Candle) :
  (20 <= List.length candles)%nat ->
  (List.length candles < 26)%nat ->
  let t := DataCollector.calculateTechnicalIndicators candles in
  DataCollector.sma20 t <> None /\ DataCollector.sma50 t <> None /\
  DataCollector.ema12 t <> None /\ DataCollector.rsi t <> None /\
  DataCollector.bollingerBands t <> None /\ DataCollector.volumeSMA t <> None /\
  DataCollector.priceAction t <> None /\ DataCollector.pullbackAnalysis t <> None /\
  DataCollector.ema26 t = None /\ DataCollector.macd t = None.
Proof.
  intros L U t. subst t. unfold DataCollector.calculateTechnicalIndicators.
  replace (List.length candles <? 20)%nat with false
    by (symmetry; apply Nat.ltb_ge; lia).
  set (k := Nat.min 50 (List.length (map DataCollector.close candles))).
  simpl. subst k.
  assert (P : List.length (map DataCollector.close candles) = List.length candles)
    by apply length_map.
  assert (V : List.length (map DataCollector.volume candles) = List.length candles)
    by apply length_map.
  repeat split.
  - intro H. apply calculateSMA_none in H. lia.
  - intro H. apply calculateSMA_none in H. lia.
  - apply calculateEMA_present; lia.
  - apply calculateRSI_present; lia.
  - unfold DataCollector.calculateBollingerBands.
    replace (List.length (map DataCollector.close candles) <? 20)%nat with false
      by (symmetry; apply Nat.ltb_ge; lia).
    destruct (DataCollector.calculateSMA (map DataCollector.close candles) 20) eqn:S;
      [discriminate|].
    apply calculateSMA_none in S. lia.
  - intro H. apply calculateSMA_none in H. lia.
  - unfold DataCollector.analyzePriceAction.
    replace (List.length candles <? 3)%nat with false
      by (symmetry; apply Nat.ltb_ge; lia).
    discriminate.
  - unfold DataCollector.analyzePullbacks.
    replace (List.length candles <? 10)%nat with false
      by (symmetry; apply Nat.ltb_ge; lia).
    discriminate.
  - apply calculateEMA_short. lia.
  - apply calculateMACD_short. lia.
Qed.

Lemma indicators_of_20_to_25_candles_witness :
  DataCollector.sma50 (DataCollector.calculateTechnicalIndicators twenty_candles) <> None /\
  DataCollector.macd (DataCollector.calculateTechnicalIndicators twenty_candles) = None.
Proof.
  assert (L : (20 <= List.length twenty_candles)%nat) by (vm_compute; lia).
  assert (U : (List.length twenty_candles < 26)%nat) by (vm_compute; lia).
  pose proof (indicators_of_20_to_25_candles twenty_candles L U) as H.
  cbv zeta in H.
  destruct H as [_ [H1 [_ [_ [_ [_ [_ [_ [_ H2]]]]]]]]].
  split; [exact H1|exact H2].
Defined.

(** ** What the engine reads of the collected indicators *)

Lemma stored_signal_line candles :
  match Indicators.macd (DataCollector.stored
                           (DataCollector.calculateTechnicalIndicators candles)) with
  | Some m => Indicators.signalLine m = None
  | None => True
  end.
Proof.
  unfold DataCollector.stored, DataCollector.calculateTechnicalIndicators.
  destruct (List.length candles <? 20)%nat; simpl; [exact I|].
  unfold DataCollector.calculateMACD.
  destruct (DataCollector.calculateEMA _ 12) as [e12|]; [|exact I].
  destruct (DataCollector.calculateEMA _ 26) as [e26|];
    [|simpl; rewrite orb_true_r; exact I].
  destruct (DataCollector.falsy (Some e12) || DataCollector.falsy (Some e26));
    [exact I|reflexivity].
Qed.

(** X11. When the latest row of a sequence carries the
    indicators the collector computed, the bundle [extractFeatures] builds
    has [macdSignal = 0], because the stored signal line is always [null];
    the convergence rule of [calculateScore] then rewards GREEN exactly
    when the MACD line is positive and RED exactly when it is negative. *)
Theorem collector_signal_line_reads_zero (sequence : list Observation.t)
    (options : Options) (candles : list DataCollector.Candle)
    (lastData : Observation.t) (f : Features.FeatureBundle) :
  last_item sequence = Some lastData ->
  Observation.technical_indicators lastData
  = Some (DataCollector.stored (DataCollector.calculateTechnicalIndicators candles)) ->
  extractFeatures sequence options = Some f ->
  exists tech macd,
    Features.technical f = Some tech /\
    Features.macd tech = Some macd /\
    Features.macdSignal tech = Some 0 /\
    fires f GREEN Convergence = (0 <? macd) /\
    fires f RED Convergence = (macd <? 0).
Proof.
  intros L T E.
  pose proof (stored_signal_line candles) as S.
  remember (DataCollector.stored (DataCollector.calculateTechnicalIndicators candles))
    as ti eqn:Hti.
  clear Hti.
  unfold extractFeatures in E. rewrite L, T in E.
  injection E as E. subst f.
  destruct (Indicators.macd ti) as [m|].
  - eexists. eexists. split; [reflexivity|]. simpl. try rewrite S. simpl.
    repeat (split; [reflexivity|]). reflexivity.
  - eexists. eexists. split; [reflexivity|]. simpl.
    repeat (split; [reflexivity|]). reflexivity.
Qed.

Lemma collector_signal_line_reads_zero_witness :
  exists tech macd,
    Features.technical collected_features = Some tech /\
    Features.macd tech = Some macd /\
    Features.macdSignal tech = Some 0 /\
    fires collected_features GREEN Convergence = (0 <? macd) /\
    fires collected_features RED Convergence = (macd <? 0).
Proof.
  assert (L : last_item [collected_row] = Some collected_row) by reflexivity.
  assert (T : Observation.technical_indicators collected_row
              = Some (DataCollector.stored
                        (DataCollector.calculateTechnicalIndicators thirty_candles)))
    by reflexivity.
  assert (E : extractFeatures [collected_row] {| focusOnPullbacks := true |}
              = Some collected_features)
    by (vm_compute; reflexivity).
  exact (collector_signal_line_reads_zero [collected_row] {| focusOnPullbacks := true |}
           thirty_candles collected_row collected_features L T E).
Defined.

(** X12. [extractFeatures] answers a bundle only for a non-empty
    sequence, and that bundle has no [market.price]; the band rule of
    [calculateScore], which needs one, fires for neither colour on any
    training sample. Its derived features are those of
    [calculateDerivedFeatures] on the sequence. *)
Theorem extracted_features_never_score_bands (sequence : list Observation.t)
    (options : Options) (f : Features.FeatureBundle) :
  extractFeatures sequence options = Some f ->
  sequence <> [] /\
  market_price f = None /\
  fires f GREEN Bands = false /\
  fires f RED Bands = false /\
  Features.derived f = Some (calculateDerivedFeatures sequence).
Proof.
  unfold extractFeatures. intros E.
  destruct (last_item sequence) as [lastData|] eqn:L; [|discriminate].
  injection E as E. subst f.
  split; [intro N; subst sequence; discriminate|].
  unfold fires, market_price. simpl.
  destruct (Observation.market_data lastData); simpl;
    destruct (Observation.technical_indicators lastData); simpl;
    repeat (split; [reflexivity|]); reflexivity.
Qed.

Lemma extracted_features_never_score_bands_witness :
  fires collected_features GREEN Bands = false /\
  fires collected_features RED Bands = false.
Proof.
  assert (E : extractFeatures [collected_row] {| focusOnPullbacks := true |}
              = Some collected_features)
    by (vm_compute; reflexivity).
  destruct (extracted_features_never_score_bands [collected_row]
              {| focusOnPullbacks := true |} collected_features E)
    as [_ [_ [G [R _]]]].
  split; [exact G|exact R].
Defined.

(** ** The signal path *)

Lemma SFleb_ltb_trans (a b c : spec_float) :
  SFleb a b = true -> SFltb b c = true -> SFltb a c = true.
Proof.
  unfold SFleb, SFltb.
  destruct a as [sa|sa| |sa ma ea], b as [sb|sb| |sb mb eb], c as [sc|sc| |sc mc ec];
    simpl; try discriminate; try reflexivity;
    repeat match goal with s : bool |- _ => destruct s end;
    simpl; try discriminate; try reflexivity.
  all: change (Pos.compare_cont Eq ?p ?q) with (Pos.compare p q).
  all: destruct (Z.compare_spec ea eb), (Z.compare_spec eb ec), (Z.compare_spec ea ec);
    try discriminate; try reflexivity; try lia.
  all: subst;
    destruct (Pos.compare_spec ma mb), (Pos.compare_spec mb mc), (Pos.compare_spec ma mc);
    simpl; try discriminate; try reflexivity; try lia.
Qed.

(** [a <= b] and [b < c] give [a < c]. *)
Lemma leb_ltb_trans (a b c : float) :
  (a <=? b) = true -> (b <? c) = true -> (a <? c) = true.
Proof.
  rewrite FloatAxioms.leb_spec, !FloatAxioms.ltb_spec.
  apply SFleb_ltb_trans.
Qed.

Lemma signal_confidence_table :
  forallb signal_confidence_check (joint_firings rules) = true.
Proof. vm_compute. reflexivity. Qed.

Lemma as_scored_silent (f : SignalGenerator.SignalFeatures.t) (c : Color) :
  fires (SignalGenerator.as_scored f) c Convergence = false /\
  fires (SignalGenerator.as_scored f) c Bands = false /\
  fires (SignalGenerator.as_scored f) c ActivePullback = false /\
  fires (SignalGenerator.as_scored f) c Momentum = false /\
  fires (SignalGenerator.as_scored f) c VolumeTrend = false.
Proof.
  unfold fires, SignalGenerator.as_scored, market_price, has_pullbacks. simpl.
  destruct (SignalGenerator.SignalFeatures.technical f),
    (SignalGenerator.SignalFeatures.market f),
    (SignalGenerator.Analysis.pullbacks (SignalGenerator.SignalFeatures.pullback f)),
    c; simpl; repeat split.
Qed.

Lemma as_scored_signal_path (f : SignalGenerator.SignalFeatures.t) :
  signal_path (firing (SignalGenerator.as_scored f)) = true.
Proof.
  destruct (as_scored_silent f GREEN) as [G1 [G2 [G3 [G4 G5]]]].
  destruct (as_scored_silent f RED) as [R1 [R2 [R3 [R4 R5]]]].
  unfold signal_path, silent, firing, fired_in, rules.
  cbn [map nth rule_index forallb fst snd].
  rewrite G1, G2, G3, G4, G5, R1, R2, R3, R4, R5. reflexivity.
Qed.

Lemma signal_confidence_facts (f : SignalGenerator.SignalFeatures.t) :
  let b := SignalGenerator.as_scored f in
  ((calculateScore b GREEN <=? 0.5) = true /\ (calculateScore b RED <=? 0.5) = true) /\
  ((getConfidence (Some b) <=? 82) = true \/
   (getConfidence (Some b) = 100 /\
    (calculateScore b GREEN = 0 \/ calculateScore b RED = 0) /\
    fires b GREEN Oscillator && fires b RED Oscillator = false)).
Proof.
  cbv zeta.
  pose proof signal_confidence_table as T.
  rewrite forallb_forall in T.
  specialize (T _ (firing_in_joint_firings (SignalGenerator.as_scored f))).
  unfold signal_confidence_check in T.
  rewrite (as_scored_signal_path f) in T.
  set (b := SignalGenerator.as_scored f) in *.
  simpl negb in T. rewrite orb_false_l in T.
  rewrite <- tally_firing_green, <- tally_firing_red, <- !calculateScore_tally in T.
  change (confidence_of (calculateScore b GREEN) (calculateScore b RED))
    with (getConfidence (Some b)) in T.
  apply andb_true_iff in T. destruct T as [B T].
  apply andb_true_iff in B. destruct B as [BG BR].
  split; [split; assumption|].
  apply orb_true_iff in T. destruct T as [T|T]; [left; exact T|right].
  apply andb_true_iff in T. destruct T as [T O].
  apply andb_true_iff in T. destruct T as [C Z].
  split; [apply leibniz_eqb_eq; exact C|]. split.
  - apply orb_true_iff in Z. destruct Z as [Z|Z]; [left|right];
      apply leibniz_eqb_eq; exact Z.
  - apply negb_true_iff in O. exact O.
Qed.

(** What a returned signal says about the call that returned it. *)
Lemma generateSignal_some (self : SignalGenerator.t) (now : Z) (pair : string)
    (marketData : list Observation.t) (w : World) (s : SignalGenerator.Signal) :
  fst (SignalGenerator.generateSignal self now pair marketData w) = Some s ->
  exists features,
    SignalGenerator.isRunning self = true /\
    (SignalGenerator.pullbackAnalysisDepth self <= List.length marketData)%nat /\
    SignalGenerator.Analysis.hasValidPullback
      (SignalGenerator.analyzePullbacks marketData) = true /\
    SignalGenerator.extractSignalFeatures marketData
      (SignalGenerator.analyzePullbacks marketData) = Some features /\
    s = {| SignalGenerator.signalPair := pair;
           SignalGenerator.color :=
             fst (predict (Some (SignalGenerator.as_scored features)) w);
           SignalGenerator.confidence :=
             getConfidence (Some (SignalGenerator.as_scored features));
           SignalGenerator.technicalAnalysis :=
             {| SignalGenerator.pullbackAnalysis :=
                  Some (SignalGenerator.analyzePullbacks marketData) |} |} /\
    (getConfidence (Some (SignalGenerator.as_scored features))
     <? SignalGenerator.confidenceThreshold self) = false /\
    SignalGenerator.validateSignal self now s marketData = true /\
    snd (SignalGenerator.generateSignal self now pair marketData w)
    = snd (predict (Some (SignalGenerator.as_scored features)) w).
Proof.
  unfold SignalGenerator.generateSignal, bind, ret.
  destruct (SignalGenerator.isRunning self);
    cbv beta iota zeta delta [negb]; [|discriminate].
  destruct (List.length marketData <? SignalGenerator.pullbackAnalysisDepth self)%nat
    eqn:L; [discriminate|].
  apply Nat.ltb_ge in L.
  destruct (SignalGenerator.Analysis.hasValidPullback
              (SignalGenerator.analyzePullbacks marketData)) eqn:V;
    cbv beta iota zeta delta [negb]; [|discriminate].
  destruct (SignalGenerator.extractSignalFeatures marketData
              (SignalGenerator.analyzePullbacks marketData)) as [features|] eqn:F;
    [|discriminate].
  destruct (predict (Some (SignalGenerator.as_scored features)) w) as [prediction w1] eqn:P.
  destruct (getConfidence (Some (SignalGenerator.as_scored features))
            <? SignalGenerator.confidenceThreshold self) eqn:C; [discriminate|].
  match goal with
  | |- context [SignalGenerator.validateSignal self now ?sig marketData] =>
      destruct (SignalGenerator.validateSignal self now sig marketData) eqn:Val
  end; [|discriminate].
  simpl. intros E. injection E as E. subst s.
  exists features. rewrite P. simpl. repeat split; assumption.
Qed.

(** X13. On the object [extractSignalFeatures] builds,
    [calculateScore] can fire the oscillator, pattern and trend rules
    only: convergence, bands, active pullback, momentum and volume trend
    fire for neither colour, because the object has no [macdSignal], no
    band values, no [market.price] and no [derived], and its [pullbacks]
    is an array. Neither score exceeds 0.5. The object exists only for a
    non-empty window. *)
Theorem signal_features_score_three_rules (marketData : list Observation.t)
    (analysis : SignalGenerator.Analysis.t) (f : SignalGenerator.SignalFeatures.t)
    (c : Color) :
  SignalGenerator.extractSignalFeatures marketData analysis = Some f ->
  fires (SignalGenerator.as_scored f) c Convergence = false /\
  fires (SignalGenerator.as_scored f) c Bands = false /\
  fires (SignalGenerator.as_scored f) c ActivePullback = false /\
  fires (SignalGenerator.as_scored f) c Momentum = false /\
  fires (SignalGenerator.as_scored f) c VolumeTrend = false /\
  (calculateScore (SignalGenerator.as_scored f) c <=? 0.5) = true /\
  marketData <> [].
Proof.
  intros E.
  destruct (as_scored_silent f c) as [H1 [H2 [H3 [H4 H5]]]].
  destruct (signal_confidence_facts f) as [[G R] _].
  repeat split; try assumption.
  - destruct c; assumption.
  - intros N. subst marketData. discriminate E.
Qed.

Lemma signal_features_score_three_rules_witness :
  fires (SignalGenerator.as_scored signal_features) GREEN ActivePullback = false.
Proof.
  apply (signal_features_score_three_rules uptrend_window
           (SignalGenerator.analyzePullbacks uptrend_window) signal_features GREEN).
  vm_compute. reflexivity.
Defined.

Lemma oscillator_of_latest_row (marketData : list Observation.t)
    (analysis : SignalGenerator.Analysis.t) (f : SignalGenerator.SignalFeatures.t)
    (latest : Observation.t) (ti : Indicators.t) :
  SignalGenerator.extractSignalFeatures marketData analysis = Some f ->
  last_item marketData = Some latest ->
  Observation.technical_indicators latest = Some ti ->
  fires (SignalGenerator.as_scored f) GREEN Oscillator
  = (JS.or_default (Indicators.rsi ti) 50 <? 70) /\
  fires (SignalGenerator.as_scored f) RED Oscillator
  = (30 <? JS.or_default (Indicators.rsi ti) 50).
Proof.
  unfold SignalGenerator.extractSignalFeatures. intros E L T.
  rewrite L, T in E. injection E as E. subst f. split; reflexivity.
Qed.

(** X14. With a confidence threshold above 82 (the default is 85)
    every signal [generateSignal] returns has confidence exactly 100: one
    colour scored nothing at all. In particular, when the latest row
    carries technical indicators its oscillator value (50 when missing) is
    not strictly between 30 and 70, since then the oscillator rule would
    have fired for both colours. *)
Theorem signal_confidence_is_100_above_82 (self : SignalGenerator.t) (now : Z)
    (pair : string) (marketData : list Observation.t) (w : World)
    (s : SignalGenerator.Signal) :
  (82 <? SignalGenerator.confidenceThreshold self) = true ->
  fst (SignalGenerator.generateSignal self now pair marketData w) = Some s ->
  SignalGenerator.confidence s = 100 /\
  (exists f,
     SignalGenerator.extractSignalFeatures marketData
       (SignalGenerator.analyzePullbacks marketData) = Some f /\
     (calculateScore (SignalGenerator.as_scored f) GREEN = 0 \/
      calculateScore (SignalGenerator.as_scored f) RED = 0)) /\
  (forall latest ti,
     last_item marketData = Some latest ->
     Observation.technical_indicators latest = Some ti ->
     (30 <? JS.or_default (Indicators.rsi ti) 50)
     && (JS.or_default (Indicators.rsi ti) 50 <? 70) = false).
Proof.
  intros T E.
  destruct (generateSignal_some _ _ _ _ _ _ E) as [f [_ [_ [_ [F [S [C _]]]]]]].
  destruct (signal_confidence_facts f) as [_ [L|[H [Z O]]]].
  - rewrite (leb_ltb_trans _ _ _ L T) in C. discriminate.
  - split; [rewrite S; exact H|]. split; [exists f; split; assumption|].
    intros latest ti La Ti.
    destruct (oscillator_of_latest_row _ _ _ _ _ F La Ti) as [G R].
    rewrite G, R in O. rewrite andb_comm. exact O.
Qed.

Lemma signal_confidence_is_100_above_82_witness :
  SignalGenerator.confidence emitted_signal = 100.
Proof.
  apply (signal_confidence_is_100_above_82 generator 0 "SOLUSDT" uptrend_window
           (world_of constructor (always 0.9)) emitted_signal);
    vm_compute; reflexivity.
Defined.

(** X15. The generator owns an engine that it constructs and never
    initializes. On an engine that is not initialized, the colour of every
    signal [generateSignal] returns is [Math.random() > 0.5 ? GREEN : RED]
    of the next draw, whatever the market data; the call consumes that one
    draw, writes the not-initialized warning and leaves the engine as it
    was. *)
Theorem generateSignal_colour_is_a_coin_flip (self : SignalGenerator.t) (now : Z)
    (pair : string) (marketData : list Observation.t) (w : World)
    (s : SignalGenerator.Signal) :
  isInitialized (engine w) = false ->
  fst (SignalGenerator.generateSignal self now pair marketData w) = Some s ->
  let w' := snd (SignalGenerator.generateSignal self now pair marketData w) in
  SignalGenerator.color s = (if 0.5 <? random w (draws w) then GREEN else RED) /\
  draws w' = S (draws w) /\
  console w' = console w ++ [WarnNotInitialized] /\
  engine w' = engine w.
Proof.
  intros I E.
  destruct (generateSignal_some _ _ _ _ _ _ E) as [f [_ [_ [_ [_ [S [_ [_ W]]]]]]]].
  cbv zeta. rewrite W, S.
  unfold predict, bind, this, console_write, random_color, Math_random, ret.
  rewrite I. simpl. repeat split.
Qed.

Lemma generateSignal_colour_is_a_coin_flip_witness :
  SignalGenerator.color emitted_signal = GREEN.
Proof.
  apply (generateSignal_colour_is_a_coin_flip generator 0 "SOLUSDT" uptrend_window
           (world_of constructor (always 0.9)) emitted_signal);
    vm_compute; reflexivity.
Defined.

Lemma validateSignal_true (self : SignalGenerator.t) (now : Z)
    (s : SignalGenerator.Signal) (marketData : list Observation.t) :
  SignalGenerator.validateSignal self now s marketData = true ->
  exists latest,
    last_item marketData = Some latest /\
    (now - Observation.timestamp latest <= 300000)%Z /\
    SignalGenerator.volume_too_low latest = false /\
    (calculateVolatility (map Observation.price (JS.slice_last 10 marketData))
     <? 0.001) = false.
Proof.
  unfold SignalGenerator.validateSignal.
  destruct (SignalGenerator.confidence s <? SignalGenerator.confidenceThreshold self);
    [discriminate|].
  destruct (last_item marketData) as [latest|]; [|discriminate].
  cbv zeta.
  destruct (300000 <? now - Observation.timestamp latest)%Z eqn:A; [discriminate|].
  apply Z.ltb_ge in A.
  destruct (SignalGenerator.volume_too_low latest) eqn:V; [discriminate|].
  destruct (calculateVolatility _ <? 0.001) eqn:Vol; [discriminate|].
  intros _. exists latest.
  split; [reflexivity|]. split; [exact A|]. split; [exact V|reflexivity].
Qed.

(** X16. A signal returned by [generateSignal] has passed every gate:
    the generator is running, the window holds at least
    [pullbackAnalysisDepth] rows (and at least five), it has a valid
    pullback, the signal is for the pair asked, its confidence is not
    below the threshold and lies between 50 and 100, the latest row is at
    most five minutes old and does not fail the volume floor, and the
    volatility of the latest ten prices is not below 0.001. A stopped
    generator answers [null] and touches nothing. *)
Theorem generateSignal_gates (self : SignalGenerator.t) (now : Z)
    (pair : string) (marketData : list Observation.t) (w : World)
    (s : SignalGenerator.Signal) :
  fst (SignalGenerator.generateSignal self now pair marketData w) = Some s ->
  SignalGenerator.isRunning self = true /\
  (SignalGenerator.pullbackAnalysisDepth self <= List.length marketData)%nat /\
  (5 <= List.length marketData)%nat /\
  SignalGenerator.Analysis.hasValidPullback
    (SignalGenerator.analyzePullbacks marketData) = true /\
  SignalGenerator.signalPair s = pair /\
  (SignalGenerator.confidence s <? SignalGenerator.confidenceThreshold self) = false /\
  (50 <=? SignalGenerator.confidence s) = true /\
  (SignalGenerator.confidence s <=? 100) = true /\
  (exists latest,
     last_item marketData = Some latest /\
     (now - Observation.timestamp latest <= 300000)%Z /\
     SignalGenerator.volume_too_low latest = false /\
     (calculateVolatility (map Observation.price (JS.slice_last 10 marketData))
      <? 0.001) = false) /\
  SignalGenerator.generateSignal (SignalGenerator.stop self) now pair marketData w
  = (None, w).
Proof.
  intros E.
  destruct (generateSignal_some _ _ _ _ _ _ E) as [f [R [D [V [_ [S [C [Val _]]]]]]]].
  destruct (confidence_facts (SignalGenerator.as_scored f)) as [_ [_ [[_ [L U]] _]]].
  change (confidence_of _ _) with (getConfidence (Some (SignalGenerator.as_scored f)))
    in L, U.
  split; [exact R|]. split; [exact D|]. split.
  - unfold SignalGenerator.analyzePullbacks in V. simpl in V.
    apply andb_true_iff in V. destruct V as [V _]. apply Nat.ltb_lt in V.
    set (prices := map Observation.price marketData) in *.
    pose proof (identifyPullbacks_shape prices (SignalGenerator.findValleys prices)
                  (findValleys_spec prices) (SignalGenerator.findPeaks prices)
                  (findPeaks_spec prices)) as Sh.
    destruct (SignalGenerator.identifyPullbacks _ _ _) as [|p rest];
      [simpl in V; lia|].
    inversion Sh as [|? ? Sp _]. subst.
    destruct Sp as [[P1 _] [_ [[_ [N2 _]] [[L1 L2] _]]]].
    unfold prices in N2. rewrite length_map in N2. lia.
  - split; [exact V|].
    split; [rewrite S; reflexivity|].
    split; [rewrite S; exact C|]. split; [rewrite S; exact L|].
    split; [rewrite S; exact U|].
    split; [apply (validateSignal_true _ _ _ _ Val)|reflexivity].
Qed.

Lemma generateSignal_gates_witness :
  SignalGenerator.signalPair emitted_signal = "SOLUSDT"%string.
Proof.
  apply (generateSignal_gates generator 0 "SOLUSDT" uptrend_window
           (world_of constructor (always 0.9)) emitted_signal).
  vm_compute. reflexivity.
Defined.

(** X17. On the signal path a window of ten rows or more whose last
    price is more than five per cent above its first is labelled
    [strong_uptrend] by [determineTrend]; [calculateScore] compares the
    label with [uptrend] and [downtrend], so the trend rule fires for
    neither colour: the stronger rise earns less than a rise of three per
    cent. *)
Theorem strong_trend_scores_no_trend (marketData : list Observation.t)
    (f : SignalGenerator.SignalFeatures.t) :
  (10 <= List.length marketData)%nat ->
  (0.05 <? (SignalGenerator.at_index (map Observation.price marketData)
              (List.length marketData - 1)
            - SignalGenerator.at_index (map Observation.price marketData) 0)
           / SignalGenerator.at_index (map Observation.price marketData) 0) = true ->
  SignalGenerator.extractSignalFeatures marketData
    (SignalGenerator.analyzePullbacks marketData) = Some f ->
  SignalGenerator.Analysis.trend (SignalGenerator.analyzePullbacks marketData)
  = "strong_uptrend"%string /\
  fires (SignalGenerator.as_scored f) GREEN Trend = false /\
  fires (SignalGenerator.as_scored f) RED Trend = false.
Proof.
  intros L H E.
  assert (T : SignalGenerator.Analysis.trend (SignalGenerator.analyzePullbacks marketData)
              = "strong_uptrend"%string).
  { unfold SignalGenerator.analyzePullbacks, SignalGenerator.determineTrend. simpl.
    rewrite length_map.
    replace (List.length marketData <? 10)%nat with false
      by (symmetry; apply Nat.ltb_ge; exact L).
    rewrite H. reflexivity. }
  split; [exact T|].
  unfold SignalGenerator.extractSignalFeatures in E.
  destruct (last_item marketData); [|discriminate].
  injection E as E. subst f.
  unfold fires, trend_is, SignalGenerator.as_scored.
  cbn [Features.pullback Features.trend SignalGenerator.SignalFeatures.pullback].
  rewrite T. split; reflexivity.
Qed.

Lemma strong_trend_scores_no_trend_witness :
  fires (SignalGenerator.as_scored surge_features) GREEN Trend = false.
Proof.
  apply (strong_trend_scores_no_trend surge_window surge_features);
    vm_compute; first [reflexivity | lia].
Defined.

(** ** Training data *)

Section Groups.

Lemma group_of_push item groups key :
  group_of key (push_to_group item groups)
  = if String.eqb key (Observation.pair item)
    then Some (match group_of key groups with
               | Some items => items ++ [item]
               | None => [item]
               end)
    else group_of key groups.
Proof.
  induction groups as [|[k items] rest IH]; simpl.
  - rewrite String.eqb_sym. reflexivity.
  - destruct (String.eqb k (Observation.pair item)) eqn:K; simpl.
    + apply String.eqb_eq in K. subst k.
      rewrite (String.eqb_sym key). destruct (String.eqb (Observation.pair item) key);
        reflexivity.
    + rewrite IH. destruct (String.eqb k key) eqn:E; [|reflexivity].
      apply String.eqb_eq in E. subst k. rewrite K. reflexivity.
Qed.

Lemma keys_push item groups :
  map fst (push_to_group item groups)
  = if existsb (fun k => String.eqb k (Observation.pair item)) (map fst groups)
    then map fst groups
    else map fst groups ++ [Observation.pair item].
Proof.
  induction groups as [|[k items] rest IH]; simpl; [reflexivity|].
  destruct (String.eqb k (Observation.pair item)); simpl; [reflexivity|].
  rewrite IH. destruct (existsb _ (map fst rest)); reflexivity.
Qed.

Lemma rows_held_push item groups :
  rows_held (push_to_group item groups) = S (rows_held groups).
Proof.
  unfold rows_held.
  induction groups as [|[k items] rest IH]; simpl; [reflexivity|].
  destruct (String.eqb k (Observation.pair item)); simpl.
  - rewrite length_app. simpl. lia.
  - rewrite IH. lia.
Qed.

Lemma NoDup_keys_push item groups :
  NoDup (map fst groups) -> NoDup (map fst (push_to_group item groups)).
Proof.
  intros N. rewrite keys_push.
  destruct (existsb _ (map fst groups)) eqn:E; [exact N|].
  apply NoDup_app; [exact N|constructor; [intros []|constructor]|].
  intros k K [H|[]]. subst k.
  assert (X : existsb (fun k => String.eqb k (Observation.pair item)) (map fst groups)
              = true).
  { apply existsb_exists. exists (Observation.pair item).
    split; [exact K|apply String.eqb_refl]. }
  congruence.
Qed.

Lemma rows_of_app key older newer :
  rows_of key (older ++ newer) = rows_of key older ++ rows_of key newer.
Proof. apply filter_app. Qed.

(** What the fold has built once it has seen [seen], from no group. *)
Lemma fold_groups (data seen : list Observation.t)
    (groups : list (string * list Observation.t)) :
  NoDup (map fst groups) ->
  rows_held groups = List.length seen ->
  (forall key, group_of key groups
               = match rows_of key seen with [] => None | items => Some items end) ->
  let result := fold_left (fun groups item => push_to_group item groups) data groups in
  NoDup (map fst result) /\
  rows_held result = List.length (seen ++ data) /\
  (forall key, group_of key result
               = match rows_of key (seen ++ data) with
                 | [] => None
                 | items => Some items
                 end).
Proof.
  revert seen groups.
  induction data as [|item rest IH]; intros seen groups N H G; simpl.
  - rewrite app_nil_r. repeat split; assumption.
  - replace (seen ++ item :: rest) with ((seen ++ [item]) ++ rest)
      by (rewrite <- app_assoc; reflexivity).
    apply IH.
    + apply NoDup_keys_push. exact N.
    + rewrite rows_held_push, H, length_app. simpl. lia.
    + intros key. rewrite group_of_push, G, rows_of_app. unfold rows_of at 2. simpl.
      destruct (String.eqb key (Observation.pair item)).
      * destruct (rows_of key seen); reflexivity.
      * rewrite app_nil_r. reflexivity.
Qed.

Lemma group_of_In key items groups :
  NoDup (map fst groups) ->
  (In (key, items) groups <-> group_of key groups = Some items).
Proof.
  induction groups as [|[k its] rest IH]; simpl; intros N.
  - split; [intros []|discriminate].
  - inversion N as [|? ? Nk Nr]. subst.
    destruct (String.eqb k key) eqn:E.
    + apply String.eqb_eq in E. subst k. split.
      * intros [H|H]; [congruence|].
        exfalso. apply Nk. apply (in_map fst) in H. exact H.
      * intros H. left. congruence.
    + apply String.eqb_neq in E. rewrite <- (IH Nr). split.
      * intros [H|H]; [congruence|exact H].
      * intros H. right. exact H.
Qed.

End Groups.

Lemma groupDataByPair_groups (data : list Observation.t) :
  NoDup (map fst (groupDataByPair data)) /\
  rows_held (groupDataByPair data) = List.length data /\
  (forall key, group_of key (groupDataByPair data)
               = match rows_of key data with [] => None | items => Some items end).
Proof.
  exact (fold_groups data [] [] (NoDup_nil _) eq_refl (fun _ => eq_refl)).
Qed.

(** X18. [groupDataByPair] partitions the rows by pair: no pair has
    two groups, the group of a pair holds exactly the rows of that pair in
    their original order and is never empty, and the groups together hold
    as many rows as the data. (Pairs are names such as [BTCUSDT]; property
    names of [Object.prototype] are not considered.) *)
Theorem groupDataByPair_partitions (data : list Observation.t) :
  NoDup (map fst (groupDataByPair data)) /\
  (forall key items,
     In (key, items) (groupDataByPair data)
     <-> items = rows_of key data /\ items <> []) /\
  rows_held (groupDataByPair data) = List.length data.
Proof.
  destruct (groupDataByPair_groups data) as [N [H G]].
  split; [exact N|]. split; [|exact H].
  intros key items. rewrite (group_of_In key items _ N), G.
  destruct (rows_of key data) as [|row rows]; split.
  - discriminate.
  - intros [E X]. contradiction.
  - intros E. injection E as E. subst items. split; [reflexivity|discriminate].
  - intros [E _]. subst items. reflexivity.
Qed.

Lemma insert_by_timestamp_length x sorted :
  List.length (insert_by_timestamp x sorted) = S (List.length sorted).
Proof.
  induction sorted as [|y rest IH]; simpl; [reflexivity|].
  destruct (Observation.timestamp x <? Observation.timestamp y)%Z; simpl;
    [reflexivity|]. rewrite IH. reflexivity.
Qed.

Lemma sort_by_timestamp_length items :
  List.length (sort_by_timestamp items) = List.length items.
Proof.
  unfold sort_by_timestamp.
  assert (G : forall acc, List.length (fold_left (fun sorted x => insert_by_timestamp x sorted)
                                         items acc)
                          = (List.length acc + List.length items)%nat).
  { induction items as [|x rest IH]; intros acc; simpl; [lia|].
    rewrite IH, insert_by_timestamp_length. lia. }
  apply G.
Qed.

Lemma training_sample_one options pairName pairData i :
  (List.length (training_sample options pairName pairData i) <= 1)%nat.
Proof.
  unfold training_sample.
  destruct (nth_error pairData (i + 1)); [|simpl; lia].
  destruct (_ =? 20)%nat; [|simpl; lia].
  destruct (extractFeatures _ options); [|simpl; lia].
  destruct (determineNextCandleColor _ _); simpl; lia.
Qed.

Lemma samples_of_pair options pairName pairData :
  (List.length
     (flat_map (training_sample options pairName (sort_by_timestamp pairData))
        (seq 20 (List.length (sort_by_timestamp pairData) - 1 - 20)))
   <= List.length pairData - 21)%nat.
Proof.
  pose proof (flat_map_length_le
                (training_sample options pairName (sort_by_timestamp pairData)) 1
                (seq 20 (List.length (sort_by_timestamp pairData) - 1 - 20))
                (training_sample_one options pairName (sort_by_timestamp pairData)))
    as H.
  rewrite length_seq in H. rewrite sort_by_timestamp_length in *. lia.
Qed.

Lemma samples_of_groups options (groups : list (string * list Observation.t)) :
  (List.length
     (flat_map
        (fun '(pairName, pairData) =>
           let pairData := sort_by_timestamp pairData in
           flat_map (training_sample options pairName pairData)
             (seq 20 (List.length pairData - 1 - 20)))
        groups)
   <= rows_held groups - 21)%nat.
Proof.
  unfold rows_held.
  induction groups as [|[pairName pairData] rest IH]; simpl; [lia|].
  rewrite length_app.
  pose proof (samples_of_pair options pairName pairData) as H. simpl in H.
  lia.
Qed.

Lemma prepareTrainingData_bound (data : list Observation.t) (options : Options) :
  (List.length (prepareTrainingData data options) <= List.length data - 21)%nat.
Proof.
  unfold prepareTrainingData.
  destruct (groupDataByPair_groups data) as [_ [H _]]. rewrite <- H.
  apply samples_of_groups.
Qed.

(** X19. [prepareTrainingData] yields at most [data.length - 21]
    samples. A history of fewer than 121 rows therefore never reaches the
    100 samples [train] asks for: [train] writes its start line and the
    warning and changes nothing else. *)
Theorem prepareTrainingData_size (data : list Observation.t) (options : Options)
    (w : World) :
  (List.length data < 121)%nat ->
  (List.length (prepareTrainingData data options) <= List.length data - 21)%nat /\
  (List.length (prepareTrainingData data options) < 100)%nat /\
  snd (train data options w)
  = snd (console_write WarnFewSamples (snd (console_write LogTrainingStart w))).
Proof.
  intros L.
  pose proof (prepareTrainingData_bound data options) as B.
  split; [exact B|]. split; [lia|].
  unfold train, bind.
  replace (List.length (prepareTrainingData data options) <? 100)%nat with true
    by (symmetry; apply Nat.ltb_lt; lia).
  reflexivity.
Qed.

Lemma prepareTrainingData_size_witness :
  (List.length (prepareTrainingData (history 120) {| focusOnPullbacks := true |})
   <= List.length (history 120) - 21)%nat.
Proof.
  apply (prepareTrainingData_size (history 120) {| focusOnPullbacks := true |}
           (world_of constructor (always 0.9))).
  unfold history. rewrite length_map, length_seq. lia.
Defined.

(** ** Training before and after initialization *)

Section Guessing.

Lemma predict_guess features w :
  isInitialized (engine w) = false ->
  fst (predict features w) = (if 0.5 <? random w (draws w) then GREEN else RED) /\
  draws (snd (predict features w)) = S (draws w) /\
  engine (snd (predict features w)) = engine w /\
  saved (snd (predict features w)) = saved w.
Proof.
  intros I. unfold predict, bind, this, console_write, random_color, Math_random, ret.
  rewrite I. simpl. repeat split.
Qed.

Lemma train_on_sample_guesses sample : guesses 1 (train_on_sample sample).
Proof.
  intros c w I. unfold train_on_sample, bind, ret.
  destruct (predict_guess (Some (features sample)) w I) as [_ [D [E S]]].
  destruct (predict (Some (features sample)) w) as [p w1]. simpl in *.
  repeat split; [lia|exact E|exact S].
Qed.

Section Loop.

Variable A : Type.
Variable body : A -> Counters -> M Counters.
Variable size : A -> nat.
Hypothesis body_guesses : forall x, guesses (size x) (body x).

Lemma for_each_guesses (xs : list A) :
  guesses (list_sum (map size xs)) (for_each xs body).
Proof.
  induction xs as [|x rest IH]; intros c w I; simpl.
  - repeat split. lia.
  - unfold bind.
    destruct (body_guesses x c w I) as [D [E S]].
    destruct (body x c w) as [c1 w1]. simpl in D, E, S.
    assert (I1 : isInitialized (engine w1) = false) by (rewrite E; exact I).
    destruct (IH c1 w1 I1) as [D' [E' S']].
    repeat split; [lia|congruence|congruence].
Qed.

End Loop.

Lemma batch_guesses (batch : list Sample) :
  guesses (List.length batch) (for_each batch train_on_sample).
Proof.
  rewrite <- (Nat.mul_1_r (List.length batch)), <- list_sum_const.
  apply for_each_guesses. intros x. apply train_on_sample_guesses.
Qed.

Lemma train_epoch_guesses trainingData batchSize epoch :
  guesses (List.length (List.concat (batches batchSize trainingData)))
          (train_epoch trainingData batchSize epoch).
Proof.
  intros c w I. unfold train_epoch, bind, ret.
  match goal with
  | |- context [for_each ?bs ?body ?c0 w] =>
      pose proof (for_each_guesses _ body (@List.length Sample) batch_guesses bs c0 w I)
        as [D [E S]];
      destruct (for_each bs body c0 w) as [c1 w1]
  end.
  simpl in D, E, S. rewrite list_sum_lengths in D.
  destruct (epoch mod 20 =? 0)%nat; simpl; repeat split; assumption.
Qed.

Lemma simulateTraining_guesses trainingData w :
  isInitialized (engine w) = false ->
  (1 <= batchSize (engine w))%nat ->
  draws (snd (simulateTraining trainingData w))
  = (draws w + epochs (engine w) * List.length trainingData)%nat /\
  engine (snd (simulateTraining trainingData w)) = engine w /\
  saved (snd (simulateTraining trainingData w)) = saved w.
Proof.
  intros I B. unfold simulateTraining, bind, this, ret, console_write. simpl.
  match goal with
  | |- context [for_each ?es ?body ?c0 ?w0] =>
      pose proof (for_each_guesses _ body _
                    (train_epoch_guesses trainingData (batchSize (engine w)))
                    es c0 w0 I)
        as [D [E S]];
      destruct (for_each es body c0 w0) as [c1 w1]
  end.
  simpl in *. rewrite list_sum_const, length_seq, (concat_batches _ _ B) in D.
  repeat split; assumption.
Qed.

End Guessing.

Section Settled.

Lemma train_on_sample_settled sample : settled (train_on_sample sample).
Proof.
  intros c w1 w2 I1 I2. unfold train_on_sample, predict, bind, this, ret.
  rewrite I1, I2. simpl. repeat split.
Qed.

Section Loop.

Variable A : Type.
Variable body : A -> Counters -> M Counters.
Hypothesis body_settled : forall x, settled (body x).

Lemma for_each_settled (xs : list A) : settled (for_each xs body).
Proof.
  induction xs as [|x rest IH]; intros c w1 w2 I1 I2; simpl.
  - repeat split.
  - unfold bind.
    destruct (body_settled x c w1 w2 I1 I2) as [F [D [E S]]].
    destruct (body_settled x c w2 w1 I2 I1) as [_ [_ [E2 _]]].
    destruct (body x c w1) as [c1 v1]. destruct (body x c w2) as [c2 v2].
    simpl in F, D, E, S, E2. subst c2.
    assert (J1 : isInitialized (engine v1) = true) by (rewrite E; exact I1).
    assert (J2 : isInitialized (engine v2) = true) by (rewrite E2; exact I2).
    destruct (IH c1 v1 v2 J1 J2) as [F' [D' [E' S']]].
    repeat split; congruence.
Qed.

End Loop.

Lemma train_epoch_settled trainingData batchSize epoch :
  settled (train_epoch trainingData batchSize epoch).
Proof.
  intros c w1 w2 I1 I2. unfold train_epoch, bind, ret.
  match goal with
  | |- context [for_each ?bs ?body ?c0 w1] =>
      pose proof (for_each_settled _ body
                    (fun batch => for_each_settled _ train_on_sample
                                    train_on_sample_settled batch)
                    bs c0 w1 w2 I1 I2) as [F [D [E S]]];
      destruct (for_each bs body c0 w1) as [c1 v1];
      destruct (for_each bs body c0 w2) as [c2 v2]
  end.
  simpl in F, D, E, S. subst c2.
  destruct (epoch mod 20 =? 0)%nat; simpl; repeat split; assumption.
Qed.

Lemma simulateTraining_settled trainingData w1 w2 :
  isInitialized (engine w1) = true -> isInitialized (engine w2) = true ->
  epochs (engine w1) = epochs (engine w2) ->
  batchSize (engine w1) = batchSize (engine w2) ->
  fst (simulateTraining trainingData w1) = fst (simulateTraining trainingData w2) /\
  draws (snd (simulateTraining trainingData w1)) = draws w1 /\
  engine (snd (simulateTraining trainingData w1)) = engine w1 /\
  saved (snd (simulateTraining trainingData w1)) = saved w1.
Proof.
  intros I1 I2 Ep Ba. unfold simulateTraining, bind, this, ret, console_write. simpl.
  rewrite <- Ep, <- Ba.
  set (body := train_epoch trainingData (batchSize (engine w1))).
  set (c0 := {| run_correct := 0; run_total := 0; epochCorrect := 0; epochTotal := 0 |}).
  set (v1 := {| engine := engine w1; random := random w1; draws := draws w1;
                console := console w1 ++ [LogTrainingWith (List.length trainingData)];
                saved := saved w1 |}).
  set (v2 := {| engine := engine w2; random := random w2; draws := draws w2;
                console := console w2 ++ [LogTrainingWith (List.length trainingData)];
                saved := saved w2 |}).
  pose proof (for_each_settled _ body (train_epoch_settled trainingData _)
                (seq 0 (epochs (engine w1))) c0 v1 v2 I1 I2) as [F [D [E S]]].
  destruct (for_each (seq 0 (epochs (engine w1))) body c0 v1) as [c1 u1].
  destruct (for_each (seq 0 (epochs (engine w1))) body c0 v2) as [c2 u2].
  simpl in *. subst c2. repeat split; assumption.
Qed.

End Settled.

Lemma train_guesses (data : list Observation.t) (options : Options) (w : World) :
  isInitialized (engine w) = false ->
  (1 <= batchSize (engine w))%nat ->
  (100 <= List.length (prepareTrainingData data options))%nat ->
  let w' := snd (train data options w) in
  draws w'
  = (draws w + epochs (engine w) * List.length (prepareTrainingData data options))%nat /\
  isInitialized (engine w') = false /\
  model (engine w') = model (engine w) /\
  List.length (saved w') = S (List.length (saved w)).
Proof.
  intros I B H. cbv zeta. unfold train, bind.
  apply Nat.ltb_ge in H. simpl. rewrite H.
  match goal with
  | |- context [simulateTraining ?td ?w0] =>
      destruct (simulateTraining_guesses td w0 I B) as [D [E S]];
      destruct (simulateTraining td w0) as [results w1]
  end.
  simpl in D, E, S.
  unfold updateWeights, bind, this, set_weights, ret, console_write,
    saveTrainingResults, database_upsert.
  destruct (80 <? accuracy results); [|destruct (accuracy results <? 60)]; simpl;
    rewrite ?E, ?S, ?length_app; simpl;
    (split; [exact D|]); (split; [exact I|]); (split; [reflexivity|lia]).
Qed.

(** X20. [initialize] trains before it sets [isInitialized]. On a
    freshly constructed engine with enough history for 100 samples, every
    prediction of the training run is therefore the random guess of an
    engine that is not initialized: the run draws one random number per
    sample and epoch. Afterwards the engine is initialized, the model is
    loaded and one training result has been stored. *)
Theorem initialize_trains_on_guesses (historicalData : list Observation.t) (w : World) :
  isInitialized (engine w) = false ->
  (1 <= batchSize (engine w))%nat ->
  (100 <= List.length
            (prepareTrainingData historicalData {| focusOnPullbacks := true |}))%nat ->
  let w' := snd (initialize historicalData w) in
  draws w'
  = (draws w
     + epochs (engine w)
       * List.length
           (prepareTrainingData historicalData {| focusOnPullbacks := true |}))%nat /\
  isInitialized (engine w') = true /\
  model (engine w') = Some {| loaded := true; version := "1.0.0" |} /\
  List.length (saved w') = S (List.length (saved w)).
Proof.
  intros I B H. cbv zeta.
  pose proof (prepareTrainingData_bound historicalData {| focusOnPullbacks := true |})
    as Bound.
  assert (Eq : snd (initialize historicalData w)
               = snd (set_initialized
                        (snd (train historicalData {| focusOnPullbacks := true |}
                                (snd (loadModel w)))))).
  { unfold initialize, bind.
    replace (0 <? List.length historicalData)%nat with true
      by (symmetry; apply Nat.ltb_lt; lia).
    destruct (loadModel w) as [u0 w0]. simpl.
    destruct (train historicalData {| focusOnPullbacks := true |} w0) as [u1 w1].
    reflexivity. }
  rewrite Eq.
  destruct (train_guesses historicalData {| focusOnPullbacks := true |}
              (snd (loadModel w)) I B H) as [D [_ [M S]]].
  simpl in D, M, S. unfold set_initialized. simpl.
  split; [exact D|]. split; [reflexivity|]. split; [exact M|exact S].
Qed.

Lemma initialize_trains_on_guesses_witness :
  draws (snd (initialize (history 125) (world_of constructor (always 0.9))))
  = (draws (world_of constructor (always 0.9))
     + epochs (engine (world_of constructor (always 0.9)))
       * List.length
           (prepareTrainingData (history 125) {| focusOnPullbacks := true |}))%nat.
Proof.
  assert (I : isInitialized (engine (world_of constructor (always 0.9))) = false)
    by reflexivity.
  assert (B : (1 <= batchSize (engine (world_of constructor (always 0.9))))%nat)
    by (vm_compute; lia).
  assert (H : (100 <= List.length
                        (prepareTrainingData (history 125)
                           {| focusOnPullbacks := true |}))%nat)
    by (vm_compute; lia).
  exact (proj1 (initialize_trains_on_guesses (history 125)
                  (world_of constructor (always 0.9)) I B H)).
Defined.

(** X21. With fewer than 121 rows of history (none included)
    [initialize] loads the model, sets [isInitialized] and leaves learning
    rate, epochs, batch size and every weight as they were; it draws no
    random number and stores no training result. *)
Theorem initialize_with_short_history (historicalData : list Observation.t)
    (w : World) :
  (List.length historicalData < 121)%nat ->
  let w' := snd (initialize historicalData w) in
  engine w'
  = {| model := Some {| loaded := true; version := "1.0.0" |};
       isInitialized := true;
       learningRate := learningRate (engine w);
       epochs := epochs (engine w);
       batchSize := batchSize (engine w);
       weights := weights (engine w) |} /\
  draws w' = draws w /\
  saved w' = saved w.
Proof.
  intros L. cbv zeta.
  pose proof (prepareTrainingData_bound historicalData {| focusOnPullbacks := true |})
    as Bound.
  unfold initialize, bind, loadModel, train, bind, set_initialized, ret, console_write.
  replace (List.length (prepareTrainingData historicalData {| focusOnPullbacks := true |})
           <? 100)%nat with true
    by (symmetry; apply Nat.ltb_lt; lia).
  destruct (0 <? List.length historicalData)%nat; simpl; repeat split.
Qed.

Lemma initialize_with_short_history_witness :
  draws (snd (initialize (history 60) (world_of constructor (always 0.9))))
  = draws (world_of constructor (always 0.9)).
Proof.
  assert (L : (List.length (history 60) < 121)%nat) by (vm_compute; lia).
  exact (proj1 (proj2 (initialize_with_short_history (history 60)
                         (world_of constructor (always 0.9)) L))).
Defined.

(** X22. On an initialized engine the result of [simulateTraining]
    is a function of the samples, the number of epochs and the batch size:
    two engines that differ in their weights, random source, console or
    stored results report the same result, no random number is drawn, and
    a second run after [updateWeights] has applied the first result
    reports that same result again. *)
Theorem training_result_ignores_weights_and_chance (trainingData : list Sample)
    (w1 w2 : World) :
  isInitialized (engine w1) = true ->
  isInitialized (engine w2) = true ->
  epochs (engine w1) = epochs (engine w2) ->
  batchSize (engine w1) = batchSize (engine w2) ->
  fst (simulateTraining trainingData w1) = fst (simulateTraining trainingData w2) /\
  draws (snd (simulateTraining trainingData w1)) = draws w1 /\
  fst (simulateTraining trainingData
         (snd (updateWeights (fst (simulateTraining trainingData w1))
                 (snd (simulateTraining trainingData w1)))))
  = fst (simulateTraining trainingData w1).
Proof.
  intros I1 I2 Ep Ba.
  destruct (simulateTraining_settled trainingData w1 w2 I1 I2 Ep Ba) as [F [D [E _]]].
  split; [exact F|]. split; [exact D|].
  set (results := fst (simulateTraining trainingData w1)).
  set (v := snd (simulateTraining trainingData w1)) in *.
  assert (U : isInitialized (engine (snd (updateWeights results v))) = true /\
              epochs (engine (snd (updateWeights results v))) = epochs (engine w1) /\
              batchSize (engine (snd (updateWeights results v))) = batchSize (engine w1)).
  { unfold updateWeights, bind, this, set_weights, ret.
    destruct (80 <? accuracy results); [|destruct (accuracy results <? 60)]; simpl;
      rewrite E; repeat split; assumption. }
  destruct U as [U1 [U2 U3]].
  apply (simulateTraining_settled trainingData _ w1 U1 I1 U2 U3).
Qed.

Lemma training_result_ignores_weights_and_chance_witness :
  fst (simulateTraining (labelled [RED; RED; GREEN])
         (world_of initialized_engine (always 0.9)))
  = fst (simulateTraining (labelled [RED; RED; GREEN])
           (snd (set_weights (scale_weights 2 WeightTable.initial)
                   (world_of initialized_engine (always 0.1))))).
Proof.
  exact (proj1 (training_result_ignores_weights_and_chance (labelled [RED; RED; GREEN])
                  (world_of initialized_engine (always 0.9))
                  (snd (set_weights (scale_weights 2 WeightTable.initial)
                          (world_of initialized_engine (always 0.1))))
                  eq_refl eq_refl eq_refl eq_refl)).
Defined.

(** ** The rows and windows a training sample reads *)

Lemma slice_before {A} (before rest : list A) :
  JS.slice (List.length before - 20) (List.length before) (before ++ rest)
  = JS.slice_last 20 before.
Proof.
  unfold JS.slice, JS.slice_last.
  rewrite skipn_app, firstn_app, length_skipn.
  replace (List.length before - 20 - List.length before)%nat with 0%nat by lia.
  replace (List.length before - (List.length before - 20)
           - (List.length before - (List.length before - 20)))%nat with 0%nat by lia.
  simpl. rewrite app_nil_r. apply firstn_all2. rewrite length_skipn. lia.
Qed.

(** The sample of round [i] reads the twenty rows before row [i] and the
    row after it. *)
Lemma training_sample_reads options pairName before row next after :
  training_sample options pairName (before ++ row :: next :: after) (List.length before)
  = if (List.length (JS.slice_last 20 before) =? 20)%nat then
      match extractFeatures (JS.slice_last 20 before) options,
            determineNextCandleColor (JS.slice_last 20 before) next with
      | Some features, Some target =>
          [ {| samplePair := pairName; features := features; target := target;
               sampleTimestamp := Observation.timestamp next |} ]
      | _, _ => []
      end
    else [].
Proof.
  unfold training_sample. rewrite slice_before.
  replace (nth_error (before ++ row :: next :: after) (List.length before + 1))
    with (Some next); [reflexivity|].
  rewrite nth_error_app2 by lia.
  replace (List.length before + 1 - List.length before)%nat with 1%nat by lia.
  reflexivity.
Qed.

(** X23. The training sample of round [i] is built from the twenty
    rows before row [i] and from row [i + 1]; row [i] itself is never
    read, so replacing it changes nothing. A sample exists only from round
    20 on, carries the timestamp of row [i + 1], and its target is GREEN
    exactly when the price of row [i + 1] is above the price of row
    [i - 1], RED otherwise. *)
Theorem training_sample_skips_a_row (options : Options) (pairName : string)
    (before after : list Observation.t) (row row' next : Observation.t) :
  training_sample options pairName (before ++ row :: next :: after) (List.length before)
  = training_sample options pairName (before ++ row' :: next :: after)
      (List.length before) /\
  forall s,
    In s (training_sample options pairName (before ++ row :: next :: after)
            (List.length before)) ->
    (20 <= List.length before)%nat /\
    sampleTimestamp s = Observation.timestamp next /\
    exists current,
      last_item before = Some current /\
      target s = if Observation.price current <? Observation.price next
                 then GREEN else RED.
Proof.
  split; [rewrite !training_sample_reads; reflexivity|].
  intros s. rewrite training_sample_reads.
  destruct (List.length (JS.slice_last 20 before) =? 20)%nat eqn:L; [|intros []].
  apply Nat.eqb_eq in L.
  assert (B : (20 <= List.length before)%nat).
  { unfold JS.slice_last in L. rewrite length_skipn in L. lia. }
  destruct (extractFeatures _ options) as [f|]; [|intros []].
  destruct (determineNextCandleColor _ next) as [t|] eqn:D; [|intros []].
  intros [E|[]]. subst s. simpl.
  split; [exact B|]. split; [reflexivity|].
  unfold determineNextCandleColor in D.
  destruct (negb (JS.truthy (Observation.price next)) || _); [discriminate|].
  assert (La : last_item (JS.slice_last 20 before) = last_item before).
  { unfold last_item, JS.slice_last. rewrite length_skipn, nth_error_skipn.
    f_equal. lia. }
  rewrite La in D.
  destruct (last_item before) as [current|]; [|discriminate].
  injection D as D. exists current. split; [reflexivity|]. symmetry. exact D.
Qed.

Lemma short_window_has_no_older_half (xs : list float) :
  (List.length xs <= 5)%nat -> recent_over_older xs = 0.
Proof.
  intros L. unfold recent_over_older, JS.slice_last_range.
  replace (List.length xs - 5)%nat with 0%nat by lia.
  replace (List.length xs - 10)%nat with 0%nat by lia.
  reflexivity.
Qed.

(** X24. For a window of at most five values both
    [calculateMomentum] and [calculateVolumeTrend] answer 0: the older
    half [slice(-10, -5)] is empty, its average is [NaN], and the test
    [olderAvg > 0] fails. The guard of [calculateVolumeTrend] alone lets
    windows of two to five values through. *)
Theorem trends_of_short_windows (xs : list float) :
  (List.length xs <= 5)%nat ->
  calculateMomentum xs = 0 /\ calculateVolumeTrend xs = 0.
Proof.
  intros L. unfold calculateMomentum, calculateVolumeTrend.
  rewrite (short_window_has_no_older_half xs L).
  destruct (List.length xs <? 5)%nat, (List.length xs <? 2)%nat; split; reflexivity.
Qed.

Lemma trends_of_short_windows_witness :
  calculateMomentum [100; 101; 103; 106; 110] = 0 /\
  calculateVolumeTrend [100; 101; 103; 106; 110] = 0.
Proof.
  assert (L : (List.length [100; 101; 103; 106; 110] <= 5)%nat) by (simpl; lia).
  exact (trends_of_short_windows [100; 101; 103; 106; 110] L).
Defined.

(** ** Signals for rows without indicators *)

Lemma tally_ext (amount : Rule -> float) (fired fired' : Rule -> bool) :
  (forall r, fired r = fired' r) -> tally amount fired = tally amount fired'.
Proof.
  intros H. unfold tally, rules. simpl. rewrite !H. reflexivity.
Qed.

(** The scores of the signal path when the latest row has no indicators:
    only the trend rule is left. *)
Lemma scores_without_indicators (marketData : list Observation.t)
    (analysis : SignalGenerator.Analysis.t) (f : SignalGenerator.SignalFeatures.t)
    (latest : Observation.t) (c : Color) :
  SignalGenerator.extractSignalFeatures marketData analysis = Some f ->
  last_item marketData = Some latest ->
  Observation.technical_indicators latest = None ->
  calculateScore (SignalGenerator.as_scored f) c
  = tally contribution
      (fun r =>
         match r with
         | Trend =>
             String.eqb (SignalGenerator.Analysis.trend analysis)
               match c with GREEN => "uptrend"%string | RED => "downtrend"%string end
         | _ => false
         end).
Proof.
  unfold SignalGenerator.extractSignalFeatures. intros E L T.
  rewrite L, T in E. injection E as E. subst f.
  rewrite calculateScore_tally. apply tally_ext.
  intros r. unfold fires, SignalGenerator.as_scored, market_price, has_pullbacks,
    trend_is. simpl.
  destruct r, c, (Observation.market_data latest),
    (SignalGenerator.Analysis.pullbacks analysis); reflexivity.
Qed.

(** X25. When the latest row carries no technical indicators, only
    the trend rule is left on the signal path. With a confidence threshold
    above 50, [generateSignal] then returns a signal only for a window
    that [determineTrend] labels [uptrend] or [downtrend] (a change of
    more than two and at most five per cent), and the confidence of that
    signal is 100. *)
Theorem signal_without_indicators_needs_a_mild_trend (self : SignalGenerator.t)
    (now : Z) (pair : string) (marketData : list Observation.t) (w : World)
    (s : SignalGenerator.Signal) (latest : Observation.t) :
  (50 <? SignalGenerator.confidenceThreshold self) = true ->
  fst (SignalGenerator.generateSignal self now pair marketData w) = Some s ->
  last_item marketData = Some latest ->
  Observation.technical_indicators latest = None ->
  (SignalGenerator.Analysis.trend (SignalGenerator.analyzePullbacks marketData)
   = "uptrend"%string \/
   SignalGenerator.Analysis.trend (SignalGenerator.analyzePullbacks marketData)
   = "downtrend"%string) /\
  SignalGenerator.confidence s = 100.
Proof.
  intros T E L N.
  destruct (generateSignal_some _ _ _ _ _ _ E) as [f [_ [_ [_ [F [S [C _]]]]]]].
  assert (Conf : SignalGenerator.confidence s
                 = getConfidence (Some (SignalGenerator.as_scored f)))
    by (rewrite S; reflexivity).
  unfold getConfidence in C, Conf.
  rewrite (scores_without_indicators _ _ _ _ GREEN F L N) in C, Conf.
  rewrite (scores_without_indicators _ _ _ _ RED F L N) in C, Conf.
  destruct (String.eqb (SignalGenerator.Analysis.trend
                          (SignalGenerator.analyzePullbacks marketData)) "uptrend")
    eqn:U.
  - apply String.eqb_eq in U. split; [left; exact U|].
    rewrite U in Conf. rewrite Conf. vm_compute. reflexivity.
  - destruct (String.eqb (SignalGenerator.Analysis.trend
                            (SignalGenerator.analyzePullbacks marketData)) "downtrend")
      eqn:D.
    + apply String.eqb_eq in D. split; [right; exact D|].
      rewrite Conf. vm_compute. reflexivity.
    + exfalso.
      assert (X : (50 <? SignalGenerator.confidenceThreshold self) = false)
        by exact C.
      congruence.
Qed.

Lemma signal_without_indicators_needs_a_mild_trend_witness :
  SignalGenerator.confidence emitted_signal = 100.
Proof.
  assert (T : (50 <? SignalGenerator.confidenceThreshold generator) = true)
    by reflexivity.
  assert (E : fst (SignalGenerator.generateSignal generator 0 "SOLUSDT" uptrend_window
                     (world_of constructor (always 0.9))) = Some emitted_signal)
    by (vm_compute; reflexivity).
  assert (L : last_item uptrend_window = Some (tick 99 (Some 5000)))
    by reflexivity.
  assert (N : Observation.technical_indicators (tick 99 (Some 5000)) = None)
    by reflexivity.
  exact (proj2 (signal_without_indicators_needs_a_mild_trend generator 0 "SOLUSDT"
                  uptrend_window (world_of constructor (always 0.9)) emitted_signal
                  (tick 99 (Some 5000)) T E L N)).
Defined.
